(** * Safe redirect resolution of the auth callback route

    A shallow embedding of [src/app/auth/callback/route.ts]:
    [resolveRedirectPath] and the redirect decisions of the [GET] handler.

    Two things the route calls live outside the file: the helpers
    [isInternalUrl] and [getSiteUrl] of [~/lib/url], and the platform's
    [URL] constructor.  The resolver is therefore written once over an
    arbitrary helper and an arbitrary parser (section [Resolver]), and then
    instantiated with a model of each ([LibUrl.isInternalUrl],
    [Whatwg.newURL]) to evaluate it on concrete candidates.

    The development also covers the issue list filters of
    [src/lib/issues/queries.ts] (module [Queries]), the public report action
    of [src/app/report/actions.ts] (module [Report]) and the pull-request
    scripts of [.gemini/skills/jules-pr-manager] (module [Scripts]). *)

From Stdlib Require Import String Ascii List Bool Arith NArith Lia DecimalString Sorted.
Import ListNotations.
Open Scope string_scope.

(** ** JavaScript values used by the route *)

Module JS.

(** Outcome of evaluating an expression or a function body: a value, or a
    thrown exception. *)
Inductive error : Type :=
| TypeError (msg : string)
| Error (msg : string).

Inductive completion (A : Type) : Type :=
| Normal (a : A)
| Throw (e : error).
Arguments Normal {A} a.
Arguments Throw {A} e.

Definition bind {A B} (c : completion A) (k : A -> completion B) : completion B :=
  match c with
  | Normal a => k a
  | Throw e => Throw e
  end.

(** [try { body } catch { handler }] where the handler ignores the exception. *)
Definition try_catch {A} (body : completion A) (handler : completion A) : completion A :=
  match body with
  | Normal a => Normal a
  | Throw _ => handler
  end.

(** [String.prototype.startsWith]. *)
Fixpoint startsWith (s p : string) {struct p} : bool :=
  match p with
  | "" => true
  | String a p' =>
      match s with
      | "" => false
      | String b s' => Ascii.eqb b a && startsWith s' p'
      end
  end.

(** [Array.prototype.includes] on an array of strings ([===] on strings is
    equality of their contents). *)
Definition includes (l : list string) (x : string) : bool :=
  existsb (String.eqb x) l.

(** Truthiness of a [string | null] value: [null] and the empty string are
    falsy, every other string is truthy. *)
Definition truthy (v : option string) : bool :=
  match v with
  | None => false
  | Some "" => false
  | Some _ => true
  end.

End JS.
Import JS.

Notation "x <- c ;; k" := (bind c (fun x => k))
  (at level 61, c at next level, right associativity).

(** ** The fields of a parsed [URL] object that the route reads *)

Record URL : Type := mkURL {
  host : string;
  pathname : string;
  search : string;
  hash : string
}.

(** ** [resolveRedirectPath] *)

Section Resolver.

(** [isInternalUrl] of [~/lib/url]. *)
Variable isInternalUrl : string -> bool.

(** [new URL(input)] and [new URL(input, base)]: the parsed URL, or a
    thrown [TypeError]. *)
Variable newURL : string -> option string -> completion URL.

Definition fallback : string := "/".

(** The body of the [try] block: [Some p] when it executes [return p],
    [None] when control reaches the end of the block. *)
Definition parseBlock (nextParam : string) (allowedHosts : list string)
  : completion (option string) :=
  parsed <- newURL nextParam (Some "http://localhost") ;;
  if includes allowedHosts (host parsed) then
    let normalizedPath := pathname parsed ++ search parsed ++ hash parsed in
    if isInternalUrl normalizedPath then Normal (Some normalizedPath)
    else Normal None
  else Normal None.

Definition resolveRedirectPath (nextParam : option string)
    (allowedHosts : list string) : completion string :=
  if negb (truthy nextParam) then Normal fallback
  else
    match nextParam with
    | None => Normal fallback
    | Some next =>
        if isInternalUrl next then Normal next
        else
          r <- try_catch (parseBlock next allowedHosts) (Normal None) ;;
          match r with
          | Some p => Normal p
          | None => Normal fallback
          end
    end.

End Resolver.

(** ** [~/lib/url] *)

Module LibUrl.

(** A scheme marker: a [:] that occurs before the first [/]. *)
Fixpoint schemeMarker (s : string) : bool :=
  match s with
  | "" => false
  | String c r =>
      if Ascii.eqb c ":" then true
      else if Ascii.eqb c "/" then false
      else schemeMarker r
  end.

(** Modelled from the spec: [isInternalUrl] of [~/lib/url] is imported by
    the route and exercised by its tests, but its body is not among the
    sources.  Spec 4.1 and 8: true for a string that begins with exactly one
    [/] (the root path [/] included) and has no scheme marker; false for
    every string that does not start with [/] and for every string that
    starts with [//].  The empty string does not start with [/], so the
    model answers false on it (section 8); the remark of section 4.1 that
    counts it as internal cannot hold together with section 8 and is not
    followed. *)
Definition isInternalUrl (url : string) : bool :=
  startsWith url "/" && negb (startsWith url "//") && negb (schemeMarker url).

End LibUrl.

(** ** The platform's URL parser

    A model of the URL Standard's basic URL parser, as run by [new URL(input)]
    and [new URL(input, base)], on byte strings (the UTF-8 encoding of the
    JavaScript string).  It covers input preprocessing, scheme detection, the
    relative, authority, host, port, file, path, query and fragment states,
    dot segments, backslashes in special URLs, Windows drive letters,
    percent-encoding of the path, query and fragment, and the host parser
    with percent-decoding, IPv4 and IPv6 addresses.  One part of the host
    parser is outside the model: Unicode IDNA processing, which needs the
    Unicode tables.  [needsIdna] recognises the hosts it applies to: those
    of special URLs that, once percent-decoded, hold a non-ASCII byte or a
    label starting with [xn--]; on these the model reports a parse failure
    although the platform may accept them.  The path percent-encode set is
    the one of Node 22, which leaves [^] as it is.  The theorems that quantify
    over all candidates are stated for an arbitrary parser, or for candidates
    that are resolved without reading a host; the model serves to evaluate the
    resolver on explicit candidates. *)

Module Whatwg.

Local Open Scope nat_scope.

Definition code (c : ascii) : nat := nat_of_ascii c.

Definition isC0OrSpace (c : ascii) : bool := code c <=? 32.
Definition isTabOrNewline (c : ascii) : bool :=
  (code c =? 9) || (code c =? 10) || (code c =? 13).
Definition isUpper (c : ascii) : bool := (65 <=? code c) && (code c <=? 90).
Definition isLower (c : ascii) : bool := (97 <=? code c) && (code c <=? 122).
Definition isAlpha (c : ascii) : bool := isUpper c || isLower c.
Definition isDigit (c : ascii) : bool := (48 <=? code c) && (code c <=? 57).
Definition toLower (c : ascii) : ascii :=
  if isUpper c then ascii_of_nat (code c + 32) else c.
Definition oneOf (cs : string) (c : ascii) : bool :=
  existsb (Ascii.eqb c) (list_ascii_of_string cs).

Fixpoint dropWhile (p : ascii -> bool) (s : string) : string :=
  match s with
  | "" => ""
  | String c r => if p c then dropWhile p r else s
  end.

Fixpoint filterStr (p : ascii -> bool) (s : string) : string :=
  match s with
  | "" => ""
  | String c r => if p c then String c (filterStr p r) else filterStr p r
  end.

Fixpoint mapStr (f : ascii -> ascii) (s : string) : string :=
  match s with
  | "" => ""
  | String c r => String (f c) (mapStr f r)
  end.

Fixpoint forallStr (p : ascii -> bool) (s : string) : bool :=
  match s with
  | "" => true
  | String c r => p c && forallStr p r
  end.

Definition revStr (s : string) : string :=
  string_of_list_ascii (rev (list_ascii_of_string s)).

(** The prefix of [s] before the first character satisfying [stop], and the
    rest of [s] from that character on. *)
Fixpoint span (stop : ascii -> bool) (s : string) : string * string :=
  match s with
  | "" => ("", "")
  | String c r =>
      if stop c then ("", s)
      else let (a, b) := span stop r in (String c a, b)
  end.

(** Leading and trailing C0 controls and spaces are stripped, then every
    tab and newline is removed. *)
Definition preprocess (input : string) : string :=
  let s1 := dropWhile isC0OrSpace input in
  let s2 := revStr (dropWhile isC0OrSpace (revStr s1)) in
  filterStr (fun c => negb (isTabOrNewline c)) s2.

(** *** Percent-encoding *)

Definition hexDigit (n : nat) : ascii :=
  if n <? 10 then ascii_of_nat (48 + n) else ascii_of_nat (55 + n).

Definition pctByte (c : ascii) : string :=
  String "%" (String (hexDigit (code c / 16)) (String (hexDigit (code c mod 16)) "")).

Definition c0ControlSet (c : ascii) : bool := (code c <? 32) || (126 <? code c).
Definition isDoubleQuote (c : ascii) : bool := code c =? 34.
Definition fragmentSet (c : ascii) : bool :=
  c0ControlSet c || isDoubleQuote c || oneOf " <>`" c.
Definition querySet (c : ascii) : bool :=
  c0ControlSet c || isDoubleQuote c || oneOf " #<>" c.
Definition specialQuerySet (c : ascii) : bool := querySet c || oneOf "'" c.
Definition pathSet (c : ascii) : bool := querySet c || oneOf "?`{}" c.

Definition encodeChar (set : ascii -> bool) (c : ascii) : string :=
  if set c then pctByte c else String c "".

Fixpoint encode (set : ascii -> bool) (s : string) : string :=
  match s with
  | "" => ""
  | String c r => encodeChar set c ++ encode set r
  end.

(** *** Hosts and ports *)

Definition forbiddenHostChar (c : ascii) : bool :=
  (code c =? 0) || isTabOrNewline c || oneOf " #/:<>?@[\]^|" c.
Definition forbiddenDomainChar (c : ascii) : bool :=
  forbiddenHostChar c || (code c <? 32) || oneOf "%" c || (code c =? 127).

Definition isHexDigit (c : ascii) : bool :=
  isDigit c || oneOf "abcdefABCDEF" c.

(** Strict split of [s] on the character [sep]; [acc] is the piece being
    read. *)
Fixpoint splitOn (sep : ascii) (s acc : string) : list string :=
  match s with
  | "" => [acc]
  | String c r =>
      if Ascii.eqb c sep then acc :: splitOn sep r ""
      else splitOn sep r (acc ++ String c "")
  end.

Definition dropStr (n : nat) (s : string) : string :=
  String.substring n (String.length s - n) s.

Definition hexValue (c : ascii) : nat :=
  if isDigit c then code c - 48
  else if isLower c then code c - 87
  else code c - 55.

(** Percent-decoding of a byte string. *)
Fixpoint percentDecode (s : string) : string :=
  match s with
  | "" => ""
  | String c r =>
      match r with
      | String h (String l r2) =>
          if Ascii.eqb c "%" && isHexDigit h && isHexDigit l
          then String (ascii_of_nat (hexValue h * 16 + hexValue l)) (percentDecode r2)
          else String c (percentDecode r)
      | _ => String c (percentDecode r)
      end
  end.

Definition decimal (n : N) : string := NilEmpty.string_of_uint (N.to_uint n).

Fixpoint radixToN (radix : N) (s : string) (acc : N) : N :=
  match s with
  | "" => acc
  | String c r => radixToN radix r (acc * radix + N.of_nat (hexValue c))%N
  end.

Definition digitsToN (s : string) (acc : N) : N := radixToN 10 s acc.

Definition isRadixDigit (radix : N) (c : ascii) : bool :=
  isHexDigit c && (N.of_nat (hexValue c) <? radix)%N.

(** The IPv4 number parser; [None] is failure. *)
Definition parseIPv4Number (input : string) : option N :=
  if String.eqb input "" then None
  else
    let (radix, digits) :=
      if startsWith input "0x" || startsWith input "0X"
      then (16%N, dropStr 2 input)
      else if (2 <=? String.length input) && startsWith input "0"
      then (8%N, dropStr 1 input)
      else (10%N, input) in
    if String.eqb digits "" then Some 0%N
    else if forallStr (isRadixDigit radix) digits
    then Some (radixToN radix digits 0%N)
    else None.

(** The "ends in a number" check on a domain. *)
Definition endsInNumber (domain : string) : bool :=
  let parts := rev (splitOn "." domain "") in
  let parts' :=
    match parts with
    | "" :: p :: rest => p :: rest
    | _ => parts
    end in
  match parts' with
  | [] => false
  | last :: _ =>
      (negb (String.eqb last "") && forallStr isDigit last)
      || match parseIPv4Number last with
         | Some _ => true
         | None => false
         end
  end.

Fixpoint mapOption {A B : Type} (f : A -> option B) (l : list A) : option (list B) :=
  match l with
  | [] => Some []
  | x :: rest =>
      match f x, mapOption f rest with
      | Some y, Some ys => Some (y :: ys)
      | _, _ => None
      end
  end.

Fixpoint ipv4Sum (numbers : list N) (counter : N) : N :=
  match numbers with
  | [] => 0%N
  | n :: rest => (n * 256 ^ (3 - counter) + ipv4Sum rest (counter + 1))%N
  end.

(** The IPv4 parser; [None] is failure. *)
Definition parseIPv4 (input : string) : option N :=
  let parts := splitOn "." input "" in
  let parts :=
    match rev parts with
    | "" :: p :: rest => rev (p :: rest)
    | _ => parts
    end in
  if 4 <? List.length parts then None
  else
    match mapOption parseIPv4Number parts with
    | None => None
    | Some numbers =>
        match rev numbers with
        | [] => None
        | last :: front =>
            if existsb (fun n => (255 <? n)%N) front then None
            else if (256 ^ (5 - N.of_nat (List.length numbers)) <=? last)%N then None
            else Some (last + ipv4Sum (rev front) 0)%N
        end
    end.

Definition serializeIPv4 (n : N) : string :=
  decimal (n / 16777216) ++ "." ++ decimal ((n / 65536) mod 256) ++ "."
  ++ decimal ((n / 256) mod 256) ++ "." ++ decimal (n mod 256).

(** The hexadecimal digits at the head of [s], at most [n] of them: their
    value, their number and the rest of [s]. *)
Fixpoint hexPiece (n : nat) (s : string) (value : N) (len : nat)
  : N * nat * string :=
  match n, s with
  | S n', String c r =>
      if isHexDigit c
      then hexPiece n' r (value * 16 + N.of_nat (hexValue c))%N (S len)
      else (value, len, s)
  | _, _ => (value, len, s)
  end.

(** One of the four numbers of an IPv4 address that ends an IPv6 address:
    decimal, without a leading zero, at most 255. *)
Definition ipv4Piece (part : string) : option N :=
  if String.eqb part "" then None
  else if negb (forallStr isDigit part) then None
  else if startsWith part "0" && negb (String.eqb part "0") then None
  else if (255 <? digitsToN part 0)%N then None
  else Some (digitsToN part 0%N).

(** The main loop of the IPv6 parser: the pieces read so far and the index
    after the compressed piece, if one was met.  Each turn reads at least one
    character, so the length of the input bounds the number of turns. *)
Fixpoint ipv6Loop (turns : nat) (s : string) (pieces : list N)
    (compress : option nat) : option (list N * option nat) :=
  match turns with
  | O => None
  | S turns' =>
      match s with
      | "" => Some (pieces, compress)
      | String c r =>
          if List.length pieces =? 8 then None
          else if Ascii.eqb c ":" then
            match compress with
            | Some _ => None
            | None =>
                ipv6Loop turns' r (pieces ++ [0%N])%list
                         (Some (S (List.length pieces)))
            end
          else
            let '(value, len, rest) := hexPiece 4 s 0%N 0 in
            match rest with
            | "" => Some ((pieces ++ [value])%list, compress)
            | String d rest' =>
                if Ascii.eqb d "." then
                  if len =? 0 then None
                  else if 6 <? List.length pieces then None
                  else
                    match map ipv4Piece (splitOn "." s "") with
                    | [Some n1; Some n2; Some n3; Some n4] =>
                        Some ((pieces ++ [n1 * 256 + n2; n3 * 256 + n4]%N)%list,
                              compress)
                    | _ => None
                    end
                else if Ascii.eqb d ":" then
                  if String.eqb rest' "" then None
                  else ipv6Loop turns' rest' (pieces ++ [value])%list compress
                else None
            end
      end
  end.

(** The IPv6 parser: the eight pieces of the address, or [None]. *)
Definition parseIPv6 (input : string) : option (list N) :=
  let start :=
    match input with
    | String ":" (String ":" r) => Some (r, [0%N], Some 1)
    | String ":" _ => None
    | _ => Some (input, [], None)
    end in
  match start with
  | None => None
  | Some (s, pieces, compress) =>
      match ipv6Loop (S (String.length s)) s pieces compress with
      | None => None
      | Some (read, Some k) =>
          Some (firstn k read ++ repeat 0%N (8 - List.length read) ++ skipn k read)%list
      | Some (read, None) => if List.length read =? 8 then Some read else None
      end
  end.

(** The number of zero pieces at the head of [l]. *)
Fixpoint zeroRun (l : list N) : nat :=
  match l with
  | 0%N :: rest => S (zeroRun rest)
  | _ => 0
  end.

(** The start and the length of the first longest run of zero pieces. *)
Fixpoint longestZeroRun (l : list N) (index : nat) (best : nat * nat)
  : nat * nat :=
  match l with
  | [] => best
  | _ :: rest =>
      longestZeroRun rest (S index)
        (if snd best <? zeroRun l then (index, zeroRun l) else best)
  end.

Definition lowerHexDigit (n : N) : ascii :=
  if (n <? 10)%N then ascii_of_nat (48 + N.to_nat n)
  else ascii_of_nat (87 + N.to_nat n).

(** A piece in lowercase hexadecimal, without leading zeros. *)
Definition hexPieceString (n : N) : string :=
  let full :=
    string_of_list_ascii
      (map lowerHexDigit [n / 4096; (n / 256) mod 16; (n / 16) mod 16; n mod 16]%N) in
  match dropWhile (Ascii.eqb "0") full with
  | "" => "0"
  | digits => digits
  end.

(** The IPv6 serializer: the first longest run of two or more zero pieces
    is written [::]. *)
Definition serializeIPv6 (address : list N) : string :=
  let (start, len) := longestZeroRun address 0 (0, 0) in
  let join := fun l => String.concat ":" (map hexPieceString l) in
  if 2 <=? len then
    join (firstn start address) ++ "::" ++ join (skipn (start + len) address)
  else join address.

(** A bracketed host: an IPv6 address between [[] and []]. *)
Definition parseBracketed (s : string) : option string :=
  if startsWith (revStr s) "]" then
    match parseIPv6 (String.substring 1 (String.length s - 2) s) with
    | Some address => Some ("[" ++ serializeIPv6 address ++ "]")
    | None => None
    end
  else None.

(** The domains that domain-to-ASCII does more to than lowercase them: those
    with a non-ASCII byte or a label that starts with [xn--].  Their
    processing is outside the model. *)
Definition needsIdna (domain : string) : bool :=
  negb (forallStr (fun c => code c <? 128) domain)
  || existsb (fun l => startsWith l "xn--")
             (splitOn "." (mapStr toLower domain) "").

(** The host parser; [None] is failure. *)
Definition parseHost (special : bool) (s : string) : option string :=
  if startsWith s "[" then parseBracketed s
  else if negb special then
    if forallStr (fun c => negb (forbiddenHostChar c)) s
    then Some (encode c0ControlSet s) else None
  else
    let domain := percentDecode s in
    if needsIdna domain then None
    else
      let asciiDomain := mapStr toLower domain in
      if String.eqb asciiDomain "" then None
      else if negb (forallStr (fun c => negb (forbiddenDomainChar c)) asciiDomain)
      then None
      else if endsInNumber asciiDomain then
        match parseIPv4 asciiDomain with
        | Some address => Some (serializeIPv4 address)
        | None => None
        end
      else Some asciiDomain.

Definition optN_eqb (a : option N) (b : N) : bool :=
  match a with
  | Some x => N.eqb x b
  | None => false
  end.

(** The port state on the characters after the colon: [None] is failure,
    [Some None] the null port (no digits, or the scheme's default). *)
Definition parsePort (defaultPort : option N) (s : string) : option (option N) :=
  if forallStr isDigit s then
    if String.eqb s "" then Some None
    else
      let p := digitsToN s 0%N in
      if (65535 <? p)%N then None
      else if optN_eqb defaultPort p then Some None
      else Some (Some p)
  else None.

(** The host buffer up to the first colon outside brackets, and the
    characters after that colon if there is one. *)
Fixpoint splitHostPort (s : string) (inside : bool) : string * option string :=
  match s with
  | "" => ("", None)
  | String c r =>
      if Ascii.eqb c ":" && negb inside then ("", Some r)
      else
        let inside' :=
          if Ascii.eqb c "[" then true
          else if Ascii.eqb c "]" then false else inside in
        let (h, p) := splitHostPort r inside' in (String c h, p)
  end.

(** What follows the last [@] of [s], if [s] has one. *)
Fixpoint afterLastAt (s : string) : option string :=
  match s with
  | "" => None
  | String c r =>
      match afterLastAt r with
      | Some t => Some t
      | None => if Ascii.eqb c "@" then Some r else None
      end
  end.

Definition authorityStop (special : bool) (c : ascii) : bool :=
  oneOf "/?#" c || (special && Ascii.eqb c "\").

(** The authority, host and port states from the first character of the
    authority: the host, the port and the unread rest of the input. *)
Definition authority (special : bool) (defaultPort : option N) (s : string)
  : option (string * option N * string) :=
  let (auth, rest) := span (authorityStop special) s in
  let (atSeen, hostport) :=
    match afterLastAt auth with
    | Some h => (true, h)
    | None => (false, auth)
    end in
  if atSeen && String.eqb hostport "" then None
  else
    let (h, afterColon) := splitHostPort hostport false in
    match afterColon with
    | Some digits =>
        if String.eqb h "" then None
        else
          match parseHost special h, parsePort defaultPort digits with
          | Some hst, Some prt => Some (hst, prt, rest)
          | _, _ => None
          end
    | None =>
        if special && String.eqb h "" then None
        else
          match parseHost special h with
          | Some hst => Some (hst, None, rest)
          | None => None
          end
    end.

(** *** Paths, queries and fragments *)

Definition isSingleDot (buf : string) : bool :=
  let b := mapStr toLower buf in
  String.eqb b "." || String.eqb b "%2e".

Definition isDoubleDot (buf : string) : bool :=
  let b := mapStr toLower buf in
  String.eqb b ".." || String.eqb b ".%2e" || String.eqb b "%2e." || String.eqb b "%2e%2e".

Definition isWindowsDriveLetter (s : string) : bool :=
  match s with
  | String a (String b "") => isAlpha a && oneOf ":|" b
  | _ => false
  end.

Definition isNormalizedWindowsDriveLetter (s : string) : bool :=
  match s with
  | String a (String b "") => isAlpha a && Ascii.eqb b ":"
  | _ => false
  end.

Definition startsWithWindowsDriveLetter (s : string) : bool :=
  match s with
  | String a (String b r) =>
      isAlpha a && oneOf ":|" b
      && match r with
         | "" => true
         | String c _ => oneOf "/\?#" c
         end
  | _ => false
  end.

(** Paths are kept with their last segment first.  Shortening drops the last
    segment, except the drive letter that is the only segment of a [file]
    URL; [file] tells whether the scheme is [file]. *)
Definition shorten (file : bool) (path : list string) : list string :=
  match path with
  | [segment] =>
      if file && isNormalizedWindowsDriveLetter segment then path else []
  | _ => tl path
  end.

(** The path state at the end of a segment; [atSlash] tells whether the
    segment was ended by a slash rather than by the end of the path. *)
Definition pushSegment (file : bool) (buf : string) (atSlash : bool)
    (path : list string) : list string :=
  if isDoubleDot buf then
    if atSlash then shorten file path else "" :: shorten file path
  else if isSingleDot buf then
    if atSlash then path else "" :: path
  else
    match path, buf with
    | [], String a (String _ "") =>
        if file && isWindowsDriveLetter buf then [String a ":"] else [buf]
    | _, _ => buf :: path
    end.

Definition isSlash (special : bool) (c : ascii) : bool :=
  Ascii.eqb c "/" || (special && Ascii.eqb c "\").

(** The path state: the path, and the rest of the input from its [?] or
    [#] on. *)
Fixpoint pathState (special file : bool) (s buf : string) (path : list string)
  : list string * string :=
  match s with
  | "" => (pushSegment file buf false path, "")
  | String c r =>
      if oneOf "?#" c then (pushSegment file buf false path, s)
      else if isSlash special c then
        pathState special file r "" (pushSegment file buf true path)
      else pathState special file r (buf ++ encodeChar pathSet c) path
  end.

Definition fragmentOf (s : string) : option string :=
  match s with
  | String "#" f => Some (encode fragmentSet f)
  | _ => None
  end.

(** The query and fragment states on an input that is empty or starts with
    [?] or [#]. *)
Definition queryFragment (special : bool) (s : string)
  : option string * option string :=
  match s with
  | String "?" r =>
      let (q, r2) := span (Ascii.eqb "#") r in
      (Some (encode (if special then specialQuerySet else querySet) q),
       fragmentOf r2)
  | _ => (None, fragmentOf s)
  end.

Inductive urlPath : Type :=
| OpaquePath (p : string)
| ListPath (segments : list string).

(** A URL record, without its username and password, which the route never
    reads. *)
Record urlRecord : Type := mkRecord {
  r_scheme : string;
  r_host : option string;
  r_port : option N;
  r_path : urlPath;
  r_query : option string;
  r_fragment : option string
}.

Definition defaultPort (scheme : string) : option N :=
  if String.eqb scheme "ftp" then Some 21%N
  else if String.eqb scheme "http" then Some 80%N
  else if String.eqb scheme "https" then Some 443%N
  else if String.eqb scheme "ws" then Some 80%N
  else if String.eqb scheme "wss" then Some 443%N
  else None.

Definition isSpecial (scheme : string) : bool :=
  existsb (String.eqb scheme) ["ftp"; "file"; "http"; "https"; "ws"; "wss"].

(** The path state, entered with the buffer [buf], followed by the query
    and fragment states. *)
Definition pathQueryFragmentFrom (scheme : string) (hst : option string)
    (prt : option N) (s buf : string) (path : list string) : urlRecord :=
  let (p, rest) :=
    pathState (isSpecial scheme) (String.eqb scheme "file") s buf path in
  let (q, f) := queryFragment (isSpecial scheme) rest in
  mkRecord scheme hst prt (ListPath p) q f.

Definition pathQueryFragment (scheme : string) (hst : option string)
    (prt : option N) (s : string) (path : list string) : urlRecord :=
  pathQueryFragmentFrom scheme hst prt s "" path.

(** The path start state, after the authority. *)
Definition pathStart (scheme : string) (hst : string) (prt : option N)
    (s : string) : urlRecord :=
  let special := isSpecial scheme in
  match s with
  | "" =>
      if special then pathQueryFragment scheme (Some hst) prt "" []
      else mkRecord scheme (Some hst) prt (ListPath []) None None
  | String c r =>
      if isSlash special c then pathQueryFragment scheme (Some hst) prt r []
      else if special then pathQueryFragment scheme (Some hst) prt s []
      else
        let (q, f) := queryFragment special s in
        mkRecord scheme (Some hst) prt (ListPath []) q f
  end.

(** The authority state and what follows it. *)
Definition fromAuthority (scheme : string) (s : string) : option urlRecord :=
  match authority (isSpecial scheme) (defaultPort scheme) s with
  | Some (hst, prt, rest) => Some (pathStart scheme hst prt rest)
  | None => None
  end.

(** The special authority ignore slashes state, then the authority. *)
Definition specialAuthority (scheme : string) (s : string) : option urlRecord :=
  fromAuthority scheme (dropWhile (isSlash true) s).

(** The opaque path state. *)
Fixpoint opaquePath (s : string) : string * string :=
  match s with
  | "" => ("", "")
  | String c r =>
      if oneOf "?#" c then ("", s)
      else
        let (p, rest) := opaquePath r in
        let here :=
          if Ascii.eqb c " " then
            match r with
            | String d _ => if oneOf "?#" d then "%20" else " "
            | "" => " "
            end
          else encodeChar c0ControlSet c in
        (here ++ p, rest)
  end.

(** The scheme start and scheme states: the lowercased scheme and the input
    after its colon, when the input starts with a scheme. *)
Fixpoint schemeState (s acc : string) : option (string * string) :=
  match s with
  | "" => None
  | String c r =>
      if Ascii.eqb c ":" then Some (acc, r)
      else if isAlpha c || isDigit c || oneOf "+-." c
      then schemeState r (acc ++ String (toLower c) "")
      else None
  end.

Definition schemeStart (s : string) : option (string * string) :=
  match s with
  | String c r => if isAlpha c then schemeState r (String (toLower c) "") else None
  | "" => None
  end.

(** The relative and relative slash states against a base without opaque
    path. *)
Definition relative (base : urlRecord) (basePath : list string) (s : string)
  : option urlRecord :=
  let scheme := r_scheme base in
  let special := isSpecial scheme in
  match s with
  | "" => Some (mkRecord scheme (r_host base) (r_port base) (r_path base)
                         (r_query base) None)
  | String c r =>
      if isSlash special c then
        match r with
        | String c2 r2 =>
            if special && isSlash true c2 then specialAuthority scheme r2
            else if Ascii.eqb c2 "/" then fromAuthority scheme r2
            else Some (pathQueryFragment scheme (r_host base) (r_port base) r [])
        | "" => Some (pathQueryFragment scheme (r_host base) (r_port base) r [])
        end
      else if Ascii.eqb c "?" then
        let (q, f) := queryFragment special s in
        Some (mkRecord scheme (r_host base) (r_port base) (r_path base) q f)
      else if Ascii.eqb c "#" then
        Some (mkRecord scheme (r_host base) (r_port base) (r_path base)
                       (r_query base) (fragmentOf s))
      else
        Some (pathQueryFragment scheme (r_host base) (r_port base) s
                                (shorten false basePath))
  end.

(** The file host state, on the input after the two slashes. *)
Definition fileHost (s : string) : option urlRecord :=
  let (buf, rest) := span (oneOf "/\?#") s in
  if isWindowsDriveLetter buf then
    Some (pathQueryFragmentFrom "file" (Some "") None rest buf [])
  else if String.eqb buf "" then Some (pathStart "file" "" None rest)
  else
    match parseHost true buf with
    | Some h =>
        Some (pathStart "file" (if String.eqb h "localhost" then "" else h)
                        None rest)
    | None => None
    end.

(** The file slash state, on the input after the first slash; [base] is the
    base when its scheme is [file]. *)
Definition fileSlash (base : option urlRecord) (s : string) : option urlRecord :=
  let toPath :=
    match base with
    | Some b =>
        let first :=
          match r_path b with
          | ListPath l =>
              match rev l with
              | seg :: _ =>
                  if negb (startsWithWindowsDriveLetter s)
                     && isNormalizedWindowsDriveLetter seg
                  then [seg] else []
              | [] => []
              end
          | OpaquePath _ => []
          end in
        Some (pathQueryFragment "file" (r_host b) None s first)
    | None => Some (pathQueryFragment "file" (Some "") None s [])
    end in
  match s with
  | String c r => if isSlash true c then fileHost r else toPath
  | "" => toPath
  end.

(** The file state; [base] is the base when its scheme is [file]. *)
Definition fileState (base : option urlRecord) (s : string) : option urlRecord :=
  let relativeToBase :=
    match base with
    | Some b =>
        match s with
        | "" =>
            Some (mkRecord "file" (r_host b) None (r_path b) (r_query b) None)
        | String c _ =>
            if Ascii.eqb c "?" then
              let (q, f) := queryFragment true s in
              Some (mkRecord "file" (r_host b) None (r_path b) q f)
            else if Ascii.eqb c "#" then
              Some (mkRecord "file" (r_host b) None (r_path b) (r_query b)
                             (fragmentOf s))
            else
              let basePath :=
                match r_path b with
                | ListPath l => l
                | OpaquePath _ => []
                end in
              Some (pathQueryFragment "file" (r_host b) None s
                      (if startsWithWindowsDriveLetter s then []
                       else shorten true basePath))
        end
    | None => Some (pathQueryFragment "file" (Some "") None s [])
    end in
  match s with
  | String c r => if isSlash true c then fileSlash base r else relativeToBase
  | "" => relativeToBase
  end.

Definition fileBase (base : option urlRecord) : option urlRecord :=
  match base with
  | Some b => if String.eqb (r_scheme b) "file" then base else None
  | None => None
  end.

(** The no scheme state. *)
Definition noScheme (base : option urlRecord) (s : string) : option urlRecord :=
  match base with
  | None => None
  | Some b =>
      match r_path b with
      | OpaquePath _ =>
          match s with
          | String "#" _ =>
              Some (mkRecord (r_scheme b) (r_host b) (r_port b) (r_path b)
                             (r_query b) (fragmentOf s))
          | _ => None
          end
      | ListPath basePath =>
          if String.eqb (r_scheme b) "file" then fileState base s
          else relative b basePath s
      end
  end.

(** The basic URL parser, without state override; [None] is failure. *)
Definition basicParse (base : option urlRecord) (input : string)
  : option urlRecord :=
  let s := preprocess input in
  match schemeStart s with
  | Some (scheme, rest) =>
      if String.eqb scheme "file" then fileState (fileBase base) rest
      else if isSpecial scheme then
        match base with
        | Some b =>
            if String.eqb (r_scheme b) scheme && negb (startsWith rest "//")
            then noScheme base rest
            else specialAuthority scheme rest
        | None => specialAuthority scheme rest
        end
      else
        match rest with
        | String "/" (String "/" r2) => fromAuthority scheme r2
        | String "/" r => Some (pathQueryFragment scheme None None r [])
        | _ =>
            let (p, rest') := opaquePath rest in
            let (q, f) := queryFragment false rest' in
            Some (mkRecord scheme None None (OpaquePath p) q f)
        end
  | None => noScheme base s
  end.

(** *** The getters of the [URL] class *)

Definition getHost (u : urlRecord) : string :=
  match r_host u with
  | None => ""
  | Some h =>
      match r_port u with
      | None => h
      | Some p => h ++ ":" ++ decimal p
      end
  end.

Definition getPathname (u : urlRecord) : string :=
  match r_path u with
  | OpaquePath p => p
  | ListPath l => String.concat "" (map (fun seg => "/" ++ seg) (rev l))
  end.

Definition withPrefix (p : string) (v : option string) : string :=
  match v with
  | None => ""
  | Some "" => ""
  | Some q => p ++ q
  end.

Definition getSearch (u : urlRecord) : string := withPrefix "?" (r_query u).
Definition getHash (u : urlRecord) : string := withPrefix "#" (r_fragment u).

Definition toURL (u : urlRecord) : URL :=
  mkURL (getHost u) (getPathname u) (getSearch u) (getHash u).

(** [new URL(input)] and [new URL(input, base)]. *)
Definition newURL (input : string) (base : option string) : completion URL :=
  match base with
  | None =>
      match basicParse None input with
      | Some u => Normal (toURL u)
      | None => Throw (TypeError "Invalid URL")
      end
  | Some baseInput =>
      match basicParse None baseInput with
      | None => Throw (TypeError "Invalid URL")
      | Some b =>
          match basicParse (Some b) input with
          | Some u => Normal (toURL u)
          | None => Throw (TypeError "Invalid URL")
          end
      end
  end.

End Whatwg.

(** ** The resolver of the route, on the models *)

Definition resolve : option string -> list string -> completion string :=
  resolveRedirectPath LibUrl.isInternalUrl Whatwg.newURL.

(** ** The [GET] handler *)

Module Route.

(** [encodeURIComponent] on a byte string. *)
Definition unreservedChar (c : ascii) : bool :=
  Whatwg.isAlpha c || Whatwg.isDigit c || Whatwg.oneOf "-_.!~*'()" c.

Definition encodeURIComponent (s : string) : string :=
  Whatwg.encode (fun c => negb (unreservedChar c)) s.

(** [CookieOptions] of [@supabase/ssr], a type that is not among the
    sources: the attributes of a cookie, by name. *)
Definition CookieOptions : Type := list (string * string).

(** A cookie Supabase asks to set: [{ name, value, options? }]. *)
Record Cookie : Type := mkCookie {
  name : string;
  value : string;
  options : option CookieOptions
}.

(** The parts of a [NextRequest] the handler and its collaborators read:
    the search parameters of [request.url], and what the client sent beside
    the URL (headers such as [Host] and [X-Forwarded-Host], and cookies). *)
Record NextRequest : Type := mkRequest {
  searchParams : list (string * string);
  headers : list (string * string);
  cookies : list (string * string)
}.

(** [URLSearchParams.get]: the first value of the name, or [null]. *)
Fixpoint get (params : list (string * string)) (name : string) : option string :=
  match params with
  | [] => None
  | (k, v) :: rest => if String.eqb k name then Some v else get rest name
  end.

(** Server configuration: the canonical site URL and the two Supabase
    environment variables. *)
Record Env : Type := mkEnv {
  siteUrlSetting : string;
  supabaseUrl : option string;
  supabaseKey : option string
}.

(** Modelled from the spec: [getSiteUrl] of [~/lib/url] is called by the
    handler but its body is not among the sources.  Spec 4.1 and 6: it yields
    the application's canonical, statically configured origin from trusted
    server configuration; it takes no argument and reads no request. *)
Definition getSiteUrl (env : Env) : string := siteUrlSetting env.

(** Supabase as the handler meets it for a request: [createServerClient] of
    [@supabase/ssr], called with the two environment variables, which throws
    or hands back the auth client, and the three calls the handler awaits on
    that client.  Each of these throws, or answers with an error message or
    none and with the cookies it pushed to [pendingCookies] through [setAll].
    The [type] given to [verifyOtp] is the value the handler passes, a
    boolean. *)
Record Supabase : Type := mkSupabase {
  createServerClient : string -> string -> completion unit;
  exchangeCodeForSession :
    NextRequest -> string -> completion (option string * list Cookie);
  verifyOtp :
    NextRequest -> bool -> string -> completion (option string * list Cookie);
  getUser : NextRequest -> completion (list Cookie)
}.

(** A redirect response: the URL handed to [NextResponse.redirect], and the
    cookies of [response.cookies], a map from cookie name kept in insertion
    order.  A cookie is kept as the arguments of the call that set it; the
    attributes the library fills in on its own (a default path, an expiry
    computed from a maximal age) are not represented. *)
Record NextResponse : Type := mkRedirect {
  target : string;
  setCookies : list Cookie
}.

(** [response.cookies.set]: a cookie of a new name is added at the end, a
    cookie of a name already present replaces the one present, in its
    place. *)
Fixpoint setCookie (jar : list Cookie) (c : Cookie) : list Cookie :=
  match jar with
  | [] => [c]
  | d :: rest =>
      if String.eqb (name d) (name c) then c :: rest
      else d :: setCookie rest c
  end.

(** The type guard [isValidEmailOtpType]: a boolean. *)
Definition isValidEmailOtpType (value : option string) : bool :=
  if negb (truthy value) then false
  else
    match value with
    | None => false
    | Some v =>
        String.eqb v "signup" || String.eqb v "invite"
        || String.eqb v "magiclink" || String.eqb v "recovery"
        || String.eqb v "email_change" || String.eqb v "email"
    end.

Definition missingEnvVars : error :=
  Error
    "Missing Supabase env vars: ensure NEXT_PUBLIC_SUPABASE_URL and NEXT_PUBLIC_SUPABASE_PUBLISHABLE_KEY are set.".

(** [createSupabaseClient]: throws when an environment variable is missing
    or empty, and otherwise creates the client, which may throw as well.  A
    missing variable is falsy, so the last branch is never taken. *)
Definition createSupabaseClient (env : Env) (client : Supabase)
  : completion Supabase :=
  if negb (truthy (supabaseUrl env)) || negb (truthy (supabaseKey env)) then
    Throw missingEnvVars
  else
    match supabaseUrl env, supabaseKey env with
    | Some url, Some key =>
        _ <- createServerClient client url key ;;
        Normal client
    | _, _ => Throw missingEnvVars
    end.

Definition applyCookies (response : NextResponse) (cookies : list Cookie)
  : NextResponse :=
  fold_left
    (fun response c =>
       match options c with
       | Some o =>
           mkRedirect (target response)
                      (setCookie (setCookies response)
                                 (mkCookie (name c) (value c) (Some o)))
       | None =>
           mkRedirect (target response)
                      (setCookie (setCookies response)
                                 (mkCookie (name c) (value c) None))
       end)
    cookies response.

Definition doubleQuote : string := String (ascii_of_nat 34) "".

Section Handler.

Variable isInternalUrl : string -> bool.
Variable newURL : string -> option string -> completion URL.
Variable env : Env.
Variable client : Supabase.

(** [NextResponse.redirect(url)]: the URL must parse, or an error is thrown;
    the [Location] header is the parsed URL written out again. *)
Definition redirect (url : string) : completion NextResponse :=
  match newURL url None with
  | Normal _ => Normal (mkRedirect url [])
  | Throw _ =>
      Throw (Error ("URL is malformed " ++ doubleQuote ++ url ++ doubleQuote
                    ++ ". Please use only absolute URLs - https://nextjs.org/docs/messages/middleware-relative-urls"))
  end.

(** The path appended to the site URL by [redirectToTarget]. *)
Definition redirectPathOf (next : string) : string :=
  if String.eqb next "/reset-password"
  then "/auth/loading?next=" ++ encodeURIComponent next
  else next.

(** The closing [return] of the handler, with the cookies pending then. *)
Definition errorRedirect (siteUrl : string) (pendingCookies : list Cookie)
  : completion NextResponse :=
  response <- redirect (siteUrl ++ "/auth/auth-code-error") ;;
  Normal (applyCookies response pendingCookies).

(** The block [if (code) { ... }]: the response it returns, if it returns
    one, and the cookies pending after it. *)
Definition codeBlock (supabase : Supabase) (request : NextRequest)
    (redirectToTarget : unit -> completion NextResponse)
  : completion (option NextResponse * list Cookie) :=
  let code := get (searchParams request) "code" in
  match code with
  | Some c =>
      if truthy code then
        exchanged <- exchangeCodeForSession supabase request c ;;
        let (error, set1) := exchanged in
        match error with
        | None =>
            set2 <- getUser supabase request ;;
            let pendingCookies := (set1 ++ set2)%list in
            response <- redirectToTarget tt ;;
            Normal (Some (applyCookies response pendingCookies), pendingCookies)
        | Some _ => Normal (None, set1)
        end
      else Normal (None, [])
  | None => Normal (None, [])
  end.

(** The rest of the handler, from [const otpType] on, entered with the
    cookies pending after the first block. *)
Definition otpBlock (supabase : Supabase) (request : NextRequest)
    (siteUrl : string) (redirectToTarget : unit -> completion NextResponse)
    (pending1 : list Cookie) : completion NextResponse :=
  let tokenHash := get (searchParams request) "token_hash" in
  let typeParam := get (searchParams request) "type" in
  let otpType := isValidEmailOtpType typeParam in
  match tokenHash with
  | Some th =>
      if truthy tokenHash && otpType then
        verified <- verifyOtp supabase request otpType th ;;
        let (error, set2) := verified in
        match error with
        | None =>
            set3 <- getUser supabase request ;;
            response <- redirectToTarget tt ;;
            Normal (applyCookies response (pending1 ++ set2 ++ set3)%list)
        | Some _ => errorRedirect siteUrl (pending1 ++ set2)%list
        end
      else errorRedirect siteUrl pending1
  | None => errorRedirect siteUrl pending1
  end.

Definition GET (request : NextRequest) : completion NextResponse :=
  let nextParam :=
    match get (searchParams request) "next" with
    | Some v => v
    | None => "/"
    end in
  let siteUrl := getSiteUrl env in
  site <- newURL siteUrl None ;;
  let siteHost := host site in
  let allowedHosts := [siteHost] in
  next <- resolveRedirectPath isInternalUrl newURL (Some nextParam) allowedHosts ;;
  let redirectPath := redirectPathOf next in
  let redirectToTarget := fun _ : unit => redirect (siteUrl ++ redirectPath) in
  supabase <- createSupabaseClient env client ;;
  afterCode <- codeBlock supabase request redirectToTarget ;;
  match afterCode with
  | (Some response, _) => Normal response
  | (None, pending1) => otpBlock supabase request siteUrl redirectToTarget pending1
  end.

End Handler.

End Route.

(** ** What a safe path is *)


(** The reading of spec 4.1 under which the empty string counts as
    internal, kept beside [LibUrl.isInternalUrl] to show what does not
    depend on the choice. *)
Definition isInternalUrl_lenient (url : string) : bool :=
  String.eqb url "" || LibUrl.isInternalUrl url.

(** The base the resolver parses against. *)
Definition dummyBase : option string := Some "http://localhost".

(** The string the resolver rebuilds from a parsed URL. *)
Definition normalizedPathOf (u : URL) : string :=
  pathname u ++ search u ++ hash u.

(** The three ways the resolver ends: with the fallback, with the candidate
    itself, or with the path rebuilt from the parsed candidate. *)
Inductive outcome (isInternalUrl : string -> bool)
    (newURL : string -> option string -> completion URL)
    (c : option string) (H : list string) (r : string) : Prop :=
| ViaFallback : r = fallback -> outcome isInternalUrl newURL c H r
| ViaCandidate :
    c = Some r -> r <> "" -> isInternalUrl r = true ->
    outcome isInternalUrl newURL c H r
| ViaParse (next : string) (u : URL) :
    c = Some next -> next <> "" -> isInternalUrl next = false ->
    newURL next dummyBase = Normal u ->
    includes H (host u) = true ->
    r = normalizedPathOf u -> isInternalUrl r = true ->
    outcome isInternalUrl newURL c H r.

(** A Supabase client whose calls all succeed and set no cookie, and a
    configuration, to run the handler on explicit requests. *)
Definition acceptingClient : Route.Supabase :=
  Route.mkSupabase (fun _ _ => Normal tt)
                   (fun _ _ => Normal (None, [])) (fun _ _ _ => Normal (None, []))
                   (fun _ => Normal []).

Definition exampleEnv : Route.Env :=
  Route.mkEnv "https://app.example.com" (Some "https://db.example.com") (Some "key").

(** Two requests with the same URL and different headers and cookies. *)
Definition exampleRequest1 : Route.NextRequest :=
  Route.mkRequest [("code", "abc"); ("next", "https://app.example.com/issues")]
                  [("x-forwarded-host", "evil.com")] [].

Definition exampleRequest2 : Route.NextRequest :=
  Route.mkRequest [("code", "abc"); ("next", "https://app.example.com/issues")]
                  [("host", "app.example.com")] [("session", "1")].

(** The [next] search parameter as the handler reads it. *)
Definition requestedNext (request : Route.NextRequest) : string :=
  match Route.get (Route.searchParams request) "next" with
  | Some v => v
  | None => "/"
  end.

(** The six email OTP types [isValidEmailOtpType] accepts. *)
Definition otpTypes : list string :=
  ["signup"; "invite"; "magiclink"; "recovery"; "email_change"; "email"].

(** The request carries a non-empty [code] and Supabase exchanged it. *)
Definition codeExchanged (client : Route.Supabase) (request : Route.NextRequest)
  : Prop :=
  exists code cookies,
    Route.get (Route.searchParams request) "code" = Some code /\ code <> ""
    /\ Route.exchangeCodeForSession client request code = Normal (None, cookies).

(** The request carries a non-empty [token_hash] and a listed [type], and
    Supabase verified the OTP as the handler submits it. *)
Definition otpVerified (client : Route.Supabase) (request : Route.NextRequest)
  : Prop :=
  exists th cookies,
    Route.get (Route.searchParams request) "token_hash" = Some th /\ th <> ""
    /\ Route.isValidEmailOtpType (Route.get (Route.searchParams request) "type") = true
    /\ Route.verifyOtp client request true th = Normal (None, cookies).

Definition authenticated (client : Route.Supabase) (request : Route.NextRequest)
  : Prop :=
  codeExchanged client request \/ otpVerified client request.

(** The path the handler appends to the site URL, by the outcome of
    authentication and the resolved [next]. *)
Definition redirectCase (client : Route.Supabase) (request : Route.NextRequest)
    (next path : string) : Prop :=
  (~ authenticated client request /\ path = "/auth/auth-code-error")
  \/ (authenticated client request /\ next = "/reset-password"
      /\ path = "/auth/loading?next=%2Freset-password")
  \/ (authenticated client request /\ next <> "/reset-password" /\ path = next).

(** A Supabase client that exchanges every code and refuses every OTP. *)
Definition otpRefusingClient : Route.Supabase :=
  Route.mkSupabase (fun _ _ => Normal tt)
                   (fun _ _ => Normal (None, [Route.mkCookie "sb-token" "t" None]))
                   (fun _ _ _ => Normal (Some "otp refused", []))
                   (fun _ => Normal []).

(** A Supabase client that exchanges every code, like the one above, and
    verifies every OTP. *)
Definition otpAcceptingClient : Route.Supabase :=
  Route.mkSupabase (fun _ _ => Normal tt)
                   (fun _ _ => Normal (None, [Route.mkCookie "sb-token" "t" None]))
                   (fun _ _ _ => Normal (None, [Route.mkCookie "sb-otp" "o" None]))
                   (fun _ => Normal []).

(** A Supabase client that refuses every code, setting a cookie as it does,
    and verifies every OTP, setting that cookie again. *)
Definition codeRefusingClient : Route.Supabase :=
  Route.mkSupabase
    (fun _ _ => Normal tt)
    (fun _ _ => Normal (Some "bad code", [Route.mkCookie "sb-flow" "f" None]))
    (fun _ _ _ => Normal (None, [Route.mkCookie "sb-otp" "o" None;
                                 Route.mkCookie "sb-flow" "g" (Some [("path", "/")])]))
    (fun _ => Normal [Route.mkCookie "sb-user" "u" None]).

(** A Supabase client whose code exchange throws. *)
Definition throwingClient : Route.Supabase :=
  Route.mkSupabase (fun _ _ => Normal tt)
                   (fun _ _ => Throw (Error "fetch failed"))
                   (fun _ _ _ => Normal (None, []))
                   (fun _ => Normal []).

(** ** Issue list filters ([src/lib/issues/queries.ts]) *)

Module Queries.

(** The [status] filter: one string, or an array of strings. *)
Inductive StatusFilter : Type :=
| OneStatus (s : string)
| ManyStatuses (l : list string).

Record IssueFilters : Type := mkFilters {
  machineInitials : option string;
  status : option StatusFilter;
  severity : option string;
  priority : option string;
  assignedTo : option string
}.

(** The conditions [getIssues] builds with [eq], [inArray] and [isNull] on
    the columns of the [issues] table. *)
Inductive SQL : Type :=
| EqMachineInitials (v : string)
| InArrayStatus (vs : list string)
| EqSeverity (v : string)
| EqPriority (v : string)
| IsNullAssignedTo
| EqAssignedTo (v : string).

Inductive OrderBy : Type :=
| DescIssueNumber
| DescCreatedAt.

(** The [where] and [orderBy] arguments given to [findMany]; [where] is
    [undefined] or the conjunction [and(...conditions)].  The [with] argument
    is the same in every call and is left out. *)
Record FindManyArgs : Type := mkArgs {
  whereClause : option (list SQL);
  orderBy : OrderBy
}.

(** Truthiness of the [status] filter: an array is truthy even when empty. *)
Definition statusTruthy (st : option StatusFilter) : bool :=
  match st with
  | None => false
  | Some (OneStatus s) => truthy (Some s)
  | Some (ManyStatuses _) => true
  end.

Definition push (conditions : list SQL) (c : SQL) : list SQL :=
  (conditions ++ [c])%list.

Section GetIssues.

(** [ALL_ISSUE_STATUSES] of [~/lib/issues/status], a constant that is not
    among the sources. *)
Variable ALL_ISSUE_STATUSES : list string.

Definition validStatusesOf (st : StatusFilter) : list string :=
  let statuses :=
    match st with
    | ManyStatuses l => l
    | OneStatus s => [s]
    end in
  filter (fun s => includes ALL_ISSUE_STATUSES s) statuses.

(** The array [conditions] when the query is issued. *)
Definition conditionsOf (filters : IssueFilters) : list SQL :=
  let conditions : list SQL := [] in
  let conditions :=
    match machineInitials filters with
    | Some m => if truthy (Some m) then push conditions (EqMachineInitials m)
                else conditions
    | None => conditions
    end in
  let conditions :=
    match status filters with
    | Some st =>
        if statusTruthy (Some st) then
          let validStatuses := validStatusesOf st in
          if Nat.ltb 0 (List.length validStatuses)
          then push conditions (InArrayStatus validStatuses)
          else conditions
        else conditions
    | None => conditions
    end in
  let conditions :=
    match severity filters with
    | Some v =>
        if truthy (Some v) && includes ["cosmetic"; "minor"; "major"; "unplayable"] v
        then push conditions (EqSeverity v) else conditions
    | None => conditions
    end in
  let conditions :=
    match priority filters with
    | Some v =>
        if truthy (Some v) && includes ["low"; "medium"; "high"] v
        then push conditions (EqPriority v) else conditions
    | None => conditions
    end in
  match assignedTo filters with
  | Some a =>
      if String.eqb a "unassigned" then push conditions IsNullAssignedTo
      else if truthy (Some a) then push conditions (EqAssignedTo a)
      else conditions
  | None => conditions
  end.

Definition findManyArgs (filters : IssueFilters) : FindManyArgs :=
  let conditions := conditionsOf filters in
  mkArgs (if Nat.ltb 0 (List.length conditions) then Some conditions else None)
         (if truthy (machineInitials filters) then DescIssueNumber else DescCreatedAt).

(** [getIssues], over the database's [findMany]. *)
Definition getIssues {IssueListItem : Type}
    (findMany : FindManyArgs -> list IssueListItem) (filters : IssueFilters)
  : list IssueListItem :=
  findMany (findManyArgs filters).

End GetIssues.

(** The column a condition constrains, by its position in the order the
    handler visits the filters. *)
Definition column (c : SQL) : nat :=
  match c with
  | EqMachineInitials _ => 0
  | InArrayStatus _ => 1
  | EqSeverity _ => 2
  | EqPriority _ => 3
  | IsNullAssignedTo => 4
  | EqAssignedTo _ => 4
  end.

End Queries.

(** What a condition of the query is allowed to carry. *)
Definition validated (ALL_ISSUE_STATUSES : list string) (c : Queries.SQL) : Prop :=
  match c with
  | Queries.EqMachineInitials v => v <> ""
  | Queries.InArrayStatus vs =>
      vs <> [] /\ Forall (fun s => In s ALL_ISSUE_STATUSES) vs
  | Queries.EqSeverity v => In v ["cosmetic"; "minor"; "major"; "unplayable"]
  | Queries.EqPriority v => In v ["low"; "medium"; "high"]
  | Queries.IsNullAssignedTo => True
  | Queries.EqAssignedTo v => v <> "" /\ v <> "unassigned"
  end.

(** ** Public issue reports ([src/app/report/actions.ts]) *)

Module Report.

(** A [FormData] entry value: a string or a file. *)
Inductive FormDataEntryValue : Type :=
| EntryString (s : string)
| EntryFile (name : string).

Definition FormData : Type := list (string * FormDataEntryValue).

(** [FormData.get]: the first value of the name, or [null]. *)
Fixpoint formGet (formData : FormData) (name : string)
  : option FormDataEntryValue :=
  match formData with
  | [] => None
  | (k, v) :: rest => if String.eqb k name then Some v else formGet rest name
  end.

(** Truthiness of what [FormData.get] returns: [null] and the empty string
    are falsy, a file is truthy. *)
Definition entryTruthy (v : option FormDataEntryValue) : bool :=
  match v with
  | None => false
  | Some (EntryString s) => truthy (Some s)
  | Some (EntryFile _) => true
  end.

(** The serializer behind [URLSearchParams.toString]: letters, digits and
    the characters of [*-._] are kept, a space becomes [+], every other byte
    is percent-encoded. *)
Definition formSafeChar (c : ascii) : bool :=
  Whatwg.isAlpha c || Whatwg.isDigit c || Whatwg.oneOf "*-._" c.

Definition formEncodeChar (c : ascii) : string :=
  if Ascii.eqb c " " then "+"
  else if formSafeChar c then String c ""
  else Whatwg.pctByte c.

Fixpoint formUrlEncode (s : string) : string :=
  match s with
  | "" => ""
  | String c r => formEncodeChar c ++ formUrlEncode r
  end.

Definition searchParamsToString (params : list (string * string)) : string :=
  String.concat "&"
    (map (fun kv => formUrlEncode (fst kv) ++ "=" ++ formUrlEncode (snd kv)) params).

(** The action's return value. *)
Record ActionState : Type := mkState { error : string }.

(** What the action can throw: the error [redirect] throws to make Next.js
    redirect, or another error. *)
Inductive Thrown : Type :=
| NextRedirect (url : string)
| Failure (e : JS.error).

Inductive outcome (A : Type) : Type :=
| Returned (a : A)
| Raised (t : Thrown).
Arguments Returned {A} a.
Arguments Raised {A} t.

(** The data of a form that passed validation.  The type is declared in
    [./validation], which is not among the sources; the fields and their
    optionality are those the action uses. *)
Record ParsedPublicIssue : Type := mkParsed {
  machineId : string;
  title : string;
  description : option string;
  severity : string;
  email : option string;
  firstName : option string;
  lastName : option string;
  priority : string;
  consistency : string
}.

Inductive ParseResult : Type :=
| ParseFailure (message : string)
| ParseSuccess (data : ParsedPublicIssue).

(** The argument of [createIssue]. *)
Module CreateIssue.
Record Input : Type := mkInput {
  title : string;
  description : option string;
  machineInitials : string;
  severity : string;
  priority : string;
  consistency : string;
  reportedBy : option string;
  reporterName : option string;
  reporterEmail : option string
}.
End CreateIssue.

Record Issue : Type := mkIssue {
  id : string;
  issueNumber : N
}.

(** The collaborators of the action: rate limiter, form validation, Supabase
    session, database lookups and the issue service.  Each asynchronous call
    answers with a value or throws. *)
Record World : Type := mkWorld {
  getClientIp : completion string;
  checkPublicIssueLimit : string -> completion (bool * N);
  formatResetTime : N -> string;
  parsePublicIssueForm : FormData -> ParseResult;
  getUser : completion (option string);
  findProfileByEmail : string -> completion (option string);
  findMachine : string -> completion (option string);
  findProfileRole : string -> completion (option string);
  createIssue : CreateIssue.Input -> completion Issue
}.

(** The effects of the action that reach other parts of the application:
    calls of [createIssue] and of [revalidatePath], in order.  Logging is
    left out. *)
Inductive Event : Type :=
| CreateIssueCalled (input : CreateIssue.Input)
| RevalidatePath (path : string).

(** Computations of the action: they read and extend the list of events and
    end with a value or a throw. *)
Definition M (A : Type) : Type := list Event -> outcome A * list Event.

Definition ret {A} (a : A) : M A := fun events => (Returned a, events).

Definition bind {A B} (m : M A) (k : A -> M B) : M B :=
  fun events =>
    match m events with
    | (Returned a, events') => k a events'
    | (Raised t, events') => (Raised t, events')
    end.

Definition raise {A} (t : Thrown) : M A := fun events => (Raised t, events).

Definition emit (e : Event) : M unit :=
  fun events => (Returned tt, (events ++ [e])%list).

Definition lift {A} (c : completion A) : M A :=
  match c with
  | Normal a => ret a
  | Throw e => raise (Failure e)
  end.

Definition tryCatch {A} (body : M A) (handler : Thrown -> M A) : M A :=
  fun events =>
    match body events with
    | (Returned a, events') => (Returned a, events')
    | (Raised t, events') => handler t events'
    end.

Definition run {A} (m : M A) : outcome A * list Event := m [].

Notation "x <~ c ;; k" := (bind c (fun x => k))
  (at level 61, c at next level, right associativity).

(** [redirect] of [next/navigation] throws. *)
Definition redirect {A} (url : string) : M A := raise (NextRedirect url).

Definition redirectWithError {A} (message : string) : M A :=
  let params := searchParamsToString [("error", message)] in
  redirect ("/report?" ++ params).

(** [[firstName, lastName].filter(Boolean).join(" ")]. *)
Definition joinNames (names : list (option string)) : string :=
  String.concat " "
    (flat_map (fun n => match n with
                        | Some s => if truthy (Some s) then [s] else []
                        | None => []
                        end) names).

Definition revalidatePath (path : string) : M unit := emit (RevalidatePath path).

Definition callCreateIssue (w : World) (input : CreateIssue.Input) : M Issue :=
  _ <~ emit (CreateIssueCalled input) ;;
  lift (createIssue w input).

Definition submitPublicIssueAction (w : World) (formData : FormData)
  : M ActionState :=
  let honeypot := formGet formData "website" in
  _ <~ (if entryTruthy honeypot then redirect "/report/success" else ret tt) ;;
  ip <~ lift (getClientIp w) ;;
  limit <~ lift (checkPublicIssueLimit w ip) ;;
  let (success, reset) := limit in
  _ <~ (if negb success
        then redirectWithError
               ("Too many submissions. Please try again in "
                ++ formatResetTime w reset ++ ".")
        else ret tt) ;;
  match parsePublicIssueForm w formData with
  | ParseFailure message =>
      _ <~ redirectWithError (A := unit) message ;;
      ret (mkState message)
  | ParseSuccess data =>
      user <~ lift (getUser w) ;;
      let reportedBy : option string := user in
      resolved <~
        (if negb (truthy reportedBy) then
           emailStep <~
             (match email data with
              | Some e =>
                  if truthy (Some e) then
                    activeUser <~ lift (findProfileByEmail w e) ;;
                    match activeUser with
                    | Some _ =>
                        ret (inl (mkState
                          "This email is associated with an existing account. Please log in to report this issue."))
                    | None => ret (inr (Some e))
                    end
                  else ret (inr None)
              | None => ret (inr None)
              end) ;;
           match emailStep with
           | inl state => ret (inl state)
           | inr reporterEmail =>
               let reporterName :=
                 if truthy (firstName data) || truthy (lastName data)
                 then Some (joinNames [firstName data; lastName data])
                 else None in
               ret (inr (reporterName, reporterEmail))
           end
         else ret (inr (None, None))) ;;
      match resolved with
      | inl state => ret state
      | inr (reporterName, reporterEmail) =>
          machine <~ lift (findMachine w (machineId data)) ;;
          match machine with
          | None => raise (Failure (Error "Machine not found."))
          | Some initials =>
              isMemberOrAdmin <~
                (match reportedBy with
                 | Some uid =>
                     if truthy reportedBy then
                       role <~ lift (findProfileRole w uid) ;;
                       match role with
                       | Some r => ret (String.eqb r "admin" || String.eqb r "member")
                       | None => ret false
                       end
                     else ret false
                 | None => ret false
                 end) ;;
              let finalPriority :=
                if negb isMemberOrAdmin then "medium" else priority data in
              tryCatch
                (issue <~ callCreateIssue w
                            (CreateIssue.mkInput (title data) (description data)
                               initials (severity data) finalPriority
                               (consistency data) reportedBy reporterName
                               reporterEmail) ;;
                 _ <~ revalidatePath "/m" ;;
                 _ <~ revalidatePath ("/m/" ++ initials) ;;
                 _ <~ revalidatePath ("/m/" ++ initials ++ "/i") ;;
                 _ <~ (if truthy reportedBy
                       then redirect ("/m/" ++ initials ++ "/i/"
                                      ++ Whatwg.decimal (issueNumber issue))
                       else ret tt) ;;
                 let successParams :=
                   if (truthy reporterEmail || truthy reporterName)
                      && negb (truthy reportedBy)
                   then [("new_pending", "true")] else [] in
                 let successUrl :=
                   if truthy (Some (searchParamsToString successParams))
                   then "/report/success?" ++ searchParamsToString successParams
                   else "/report/success" in
                 redirect successUrl)
                (fun thrown =>
                   match thrown with
                   | NextRedirect _ => raise thrown
                   | Failure _ =>
                       ret (mkState "Unable to submit the issue. Please try again.")
                   end)
          end
      end
  end.

End Report.

(** A submitted form and its validated data, and collaborators for a
    guest, for a signed-in member, for a failing issue service, for a client
    over the rate limit and for an email that belongs to an account. *)
Definition exampleForm : Report.FormData :=
  [("machineId", Report.EntryString "123e4567-e89b-12d3-a456-426614174000");
   ("title", Report.EntryString "Test Issue");
   ("severity", Report.EntryString "minor");
   ("consistency", Report.EntryString "intermittent")].

Definition exampleParsed : Report.ParsedPublicIssue :=
  Report.mkParsed "123e4567-e89b-12d3-a456-426614174000" "Test Issue" None "minor"
    (Some "pat@example.com") (Some "Pat") None "high" "intermittent".

Definition guestWorld : Report.World :=
  Report.mkWorld (Normal "127.0.0.1") (fun _ => Normal (true, 60000%N))
    (fun _ => "10 minutes") (fun _ => Report.ParseSuccess exampleParsed)
    (Normal None) (fun _ => Normal None) (fun _ => Normal (Some "MM"))
    (fun _ => Normal None) (fun _ => Normal (Report.mkIssue "issue-123" 1%N)).

Definition memberWorld : Report.World :=
  Report.mkWorld (Normal "127.0.0.1") (fun _ => Normal (true, 60000%N))
    (fun _ => "10 minutes") (fun _ => Report.ParseSuccess exampleParsed)
    (Normal (Some "user-123")) (fun _ => Normal None) (fun _ => Normal (Some "MM"))
    (fun _ => Normal (Some "member"))
    (fun _ => Normal (Report.mkIssue "issue-123" 1%N)).

Definition failingWorld : Report.World :=
  Report.mkWorld (Normal "127.0.0.1") (fun _ => Normal (true, 60000%N))
    (fun _ => "10 minutes") (fun _ => Report.ParseSuccess exampleParsed)
    (Normal None) (fun _ => Normal None) (fun _ => Normal (Some "MM"))
    (fun _ => Normal None)
    (fun _ => Throw (Error "Database connection failed: user=postgres password=secret")).

Definition limitedWorld : Report.World :=
  Report.mkWorld (Normal "127.0.0.1") (fun _ => Normal (false, 60000%N))
    (fun _ => "10 minutes") (fun _ => Report.ParseSuccess exampleParsed)
    (Normal None) (fun _ => Normal None) (fun _ => Normal (Some "MM"))
    (fun _ => Normal None) (fun _ => Normal (Report.mkIssue "issue-123" 1%N)).

Definition knownEmailWorld : Report.World :=
  Report.mkWorld (Normal "127.0.0.1") (fun _ => Normal (true, 60000%N))
    (fun _ => "10 minutes") (fun _ => Report.ParseSuccess exampleParsed)
    (Normal None) (fun _ => Normal (Some "user-9")) (fun _ => Normal (Some "MM"))
    (fun _ => Normal None) (fun _ => Normal (Report.mkIssue "issue-123" 1%N)).

(** The input the action hands to [createIssue] for the example form under
    [guestWorld], [failingWorld] and [limitedWorld]. *)
Definition guestInput : Report.CreateIssue.Input :=
  Report.CreateIssue.mkInput "Test Issue" None "MM" "minor" "medium" "intermittent"
    None (Some "Pat") (Some "pat@example.com").

(** The two messages the action can return. *)
Definition knownAccountMessage : string :=
  "This email is associated with an existing account. Please log in to report this issue.".

Definition genericFailureMessage : string :=
  "Unable to submit the issue. Please try again.".

(** Collaborators for which the machine of the form does not exist. *)
Definition noMachineWorld : Report.World :=
  Report.mkWorld (Normal "127.0.0.1") (fun _ => Normal (true, 60000%N))
    (fun _ => "10 minutes") (fun _ => Report.ParseSuccess exampleParsed)
    (Normal None) (fun _ => Normal None) (fun _ => Normal None)
    (fun _ => Normal None) (fun _ => Normal (Report.mkIssue "issue-123" 1%N)).

(** The characters a serialized search parameter is made of. *)
Definition formOutputChar (c : ascii) : bool :=
  Report.formSafeChar c || Whatwg.oneOf "+%" c.

(** ** The pull-request scripts ([.gemini/skills/jules-pr-manager]) *)

Module Scripts.

(** The positional parameter [$n], empty when unset ([n] counts from 1). *)
Definition param (n : nat) (args : list string) : string :=
  nth (n - 1) args "".

(** ["$*"]: the positional parameters joined by spaces. *)
Definition allParams (args : list string) : string := String.concat " " args.

(** [shift]. *)
Definition shift (args : list string) : list string := tl args.

(** The pattern test [[[ "$s" == *"p"* ]]]: [p] occurs in [s]. *)
Fixpoint contains (s p : string) : bool :=
  startsWith s p
  || match s with
     | "" => false
     | String _ r => contains r p
     end.

(** [[ -z "$s" ]]. *)
Definition isEmpty (s : string) : bool := String.eqb s "".

(** How a script ends: with [exit n], or with the status of its last
    command. *)
Inductive Status : Type :=
| Exit (code : nat)
| OfLastCommand.

(** A run of a script: the lines it echoes, the commands it executes, each
    with its words, and how it ends. *)
Record Run : Type := mkRun {
  stdout : list string;
  commands : list (list string);
  status : Status
}.

(** The script that requests changes on a pull request. *)
Definition requestChanges (name : string) (args : list string) : Run :=
  let PR_ID := param 1 args in
  let args := shift args in
  let MSG := allParams args in
  if isEmpty PR_ID || isEmpty MSG then
    mkRun ["Usage: " ++ name ++ " <pr-id> <message>"] [] (Exit 1)
  else
    let MSG := if negb (contains MSG "@jules") then "@jules " ++ MSG else MSG in
    mkRun [] [["gh"; "pr"; "review"; PR_ID; "--request-changes"; "--body"; MSG]]
          OfLastCommand.

(** [merge.sh]. *)
Definition merge (name : string) (args : list string) : Run :=
  let PR_ID := param 1 args in
  let args := shift args in
  let MSG := allParams args in
  if isEmpty PR_ID then
    mkRun ["Usage: " ++ name ++ " <pr-id> [approval-message]"] [] (Exit 1)
  else
    let MSG := if isEmpty MSG then "Approved. Merging changes." else MSG in
    let MSG := if negb (contains MSG "@jules") then "@jules " ++ MSG else MSG in
    mkRun ["Posting approval review for #" ++ PR_ID ++ "...";
           "Merging #" ++ PR_ID ++ "..."]
          [["gh"; "pr"; "review"; PR_ID; "--approve"; "--body"; MSG];
           ["gh"; "pr"; "merge"; PR_ID; "--squash"; "--delete-branch"; "--auto"]]
          OfLastCommand.

(** [label.sh]. *)
Definition label (name : string) (args : list string) : Run :=
  let PR_ID := param 1 args in
  let ACTION := param 2 args in
  let LABEL := param 3 args in
  if isEmpty PR_ID || isEmpty ACTION || isEmpty LABEL then
    mkRun ["Usage: " ++ name ++ " <pr-id> <add|remove> <label>"] [] (Exit 1)
  else if String.eqb ACTION "add" then
    mkRun [] [["gh"; "pr"; "edit"; PR_ID; "--add-label"; LABEL]] OfLastCommand
  else if String.eqb ACTION "remove" then
    mkRun [] [["gh"; "pr"; "edit"; PR_ID; "--remove-label"; LABEL]] OfLastCommand
  else
    mkRun ["Action must be add or remove"] [] (Exit 1).

(** [close.sh]. *)
Definition close (name : string) (args : list string) : Run :=
  let PR_ID := param 1 args in
  let args := shift args in
  let MSG := allParams args in
  if isEmpty PR_ID then
    mkRun ["Usage: " ++ name ++ " <pr-id> [message]"] [] (Exit 1)
  else if isEmpty MSG then
    mkRun [] [["gh"; "pr"; "close"; PR_ID]] OfLastCommand
  else
    mkRun [] [["gh"; "pr"; "close"; PR_ID; "--comment"; MSG]] OfLastCommand.

End Scripts.

(** The record of the base [http://localhost]. *)
Definition baseRecord : Whatwg.urlRecord :=
  Whatwg.mkRecord "http" (Some "localhost") None (Whatwg.ListPath [""]) None None.

(** The input opens an authority in the relative state of the parser: it
    begins with two slashes, each a [/] or a backslash. *)
Definition opensAuthority (s : string) : bool :=
  match s with
  | String a (String b _) => Whatwg.isSlash true a && Whatwg.isSlash true b
  | _ => false
  end.

(** The reporter is signed in, under a non-empty id, and their profile has
    the role [admin] or [member]. *)
Definition memberReporter (w : Report.World) : Prop :=
  exists uid role,
    Report.getUser w = Normal (Some uid) /\ uid <> ""
    /\ Report.findProfileRole w uid = Normal (Some role)
    /\ (role = "admin" \/ role = "member").

(** The input the action hands to [createIssue] for the example form under
    [memberWorld]. *)
Definition memberInput : Report.CreateIssue.Input :=
  Report.CreateIssue.mkInput "Test Issue" None "MM" "minor" "high" "intermittent"
    (Some "user-123") None None.

(** * Properties *)

(** The resolver on the models passes the route's test suite. *)
Example resolve_examples :
  resolve (Some "/dashboard") ["localhost:3000"; "app.example.com"] = Normal "/dashboard"
  /\ resolve (Some "https://evil.com/steal-session") ["localhost:3000"; "app.example.com"] = Normal "/"
  /\ resolve (Some "//evil.com/phishing") ["localhost:3000"; "app.example.com"] = Normal "/"
  /\ resolve (Some "/dashboard?tab=issues#top") ["localhost:3000"; "app.example.com"] = Normal "/dashboard?tab=issues#top"
  /\ resolve None ["localhost:3000"; "app.example.com"] = Normal "/"
  /\ resolve (Some "http://localhost:3000/dashboard") ["localhost:3000"; "app.example.com"] = Normal "/dashboard"
  /\ resolve (Some "https://app.example.com/dashboard") ["localhost:3000"; "app.example.com"] = Normal "/dashboard"
  /\ resolve (Some "https://evil.com/dashboard") ["localhost:3000"; "app.example.com"] = Normal "/".
Proof. repeat split; reflexivity. Qed.

Lemma startsWith_slash_schemeMarker s :
  startsWith s "/" = true -> LibUrl.schemeMarker s = false.
Proof.
  destruct s as [|c r]; simpl; [discriminate|].
  intros Hc. apply andb_prop in Hc as [Hc _].
  apply Ascii.eqb_eq in Hc. now subst c.
Qed.

Lemma truthy_nonempty s : s <> "" -> truthy (Some s) = true.
Proof. destruct s; [congruence | reflexivity]. Qed.

Lemma startsWith_nonempty s p : p <> "" -> startsWith s p = true -> s <> "".
Proof.
  intros Hp H ->. destruct p; [congruence | discriminate].
Qed.

Lemma LibUrl_isInternalUrl_sound s :
  LibUrl.isInternalUrl s = true ->
  startsWith s "/" = true /\ startsWith s "//" = false.
Proof.
  unfold LibUrl.isInternalUrl. intros H.
  apply andb_prop in H as [H _]. apply andb_prop in H as [H1 H2].
  split; [exact H1 | now apply negb_true_iff].
Qed.

Lemma LibUrl_isInternalUrl_spec s :
  LibUrl.isInternalUrl s = startsWith s "/" && negb (startsWith s "//").
Proof.
  unfold LibUrl.isInternalUrl.
  destruct (startsWith s "/") eqn:H1; [|reflexivity].
  rewrite (startsWith_slash_schemeMarker s H1). now rewrite andb_true_r.
Qed.

Section ResolverFacts.

Variable isInternalUrl : string -> bool.
Variable newURL : string -> option string -> completion URL.

Abbreviation resolveWith := (resolveRedirectPath isInternalUrl newURL).
Abbreviation outcome := (outcome isInternalUrl newURL).

Lemma resolve_total c H :
  exists r, resolveWith c H = Normal r /\ outcome c H r.
Proof.
  unfold resolveRedirectPath.
  destruct c as [next|]; simpl; [|exists fallback; split; [reflexivity | now constructor]].
  destruct next as [|a next']; simpl; [exists fallback; split; [reflexivity | now constructor]|].
  set (next := String a next').
  assert (Hne : next <> "") by (subst next; discriminate).
  destruct (isInternalUrl next) eqn:Hint.
  - exists next. split; [reflexivity | now apply ViaCandidate].
  - unfold parseBlock.
    destruct (newURL next (Some "http://localhost")) as [u|e] eqn:Hnew; simpl;
      [|exists fallback; split; [reflexivity | now constructor]].
    destruct (includes H (host u)) eqn:Hin; simpl;
      [|exists fallback; split; [reflexivity | now constructor]].
    destruct (isInternalUrl (pathname u ++ search u ++ hash u)) eqn:Hp; simpl;
      [|exists fallback; split; [reflexivity | now constructor]].
    exists (pathname u ++ search u ++ hash u). split; [reflexivity|].
    now apply (ViaParse _ _ _ _ _ next u).
Qed.

Lemma resolve_internal c H :
  c <> "" -> isInternalUrl c = true -> resolveWith (Some c) H = Normal c.
Proof.
  intros Hne Hint. unfold resolveRedirectPath.
  rewrite (truthy_nonempty c Hne). simpl. now rewrite Hint.
Qed.

Lemma resolve_empty H : resolveWith (Some "") H = Normal fallback.
Proof. reflexivity. Qed.

Lemma resolve_parsed c H u :
  c <> "" -> isInternalUrl c = false -> newURL c dummyBase = Normal u ->
  resolveWith (Some c) H =
    Normal (if includes H (host u) && isInternalUrl (normalizedPathOf u)
            then normalizedPathOf u else fallback).
Proof.
  intros Hne Hint Hnew. unfold resolveRedirectPath, parseBlock.
  rewrite (truthy_nonempty c Hne). simpl. rewrite Hint.
  unfold dummyBase in Hnew. rewrite Hnew. simpl.
  unfold normalizedPathOf.
  destruct (includes H (host u)); simpl; [|reflexivity].
  now destruct (isInternalUrl (pathname u ++ search u ++ hash u)).
Qed.

Lemma resolve_unparsed c H e :
  isInternalUrl c = false -> newURL c dummyBase = Throw e ->
  resolveWith (Some c) H = Normal fallback.
Proof.
  intros Hint Hnew. unfold resolveRedirectPath, parseBlock.
  destruct c as [|a c']; [reflexivity|]. simpl. rewrite Hint.
  unfold dummyBase in Hnew. now rewrite Hnew.
Qed.

End ResolverFacts.

(** ** Claims about [resolveRedirectPath] *)




(** C2: a candidate that is not an internal path and whose parsed host is
    not in the trusted host set resolves to the fallback [/]; so do
    [https://evil.com/steal] and [//evil.com/phish] against
    [{app.example.com}]. *)
Theorem C2_untrusted_host_falls_back :
  (forall (isInternalUrl : string -> bool)
          (newURL : string -> option string -> completion URL)
          (c : string) (H : list string),
      isInternalUrl c = false ->
      (forall u, newURL c dummyBase = Normal u -> includes H (host u) = false) ->
      resolveRedirectPath isInternalUrl newURL (Some c) H = Normal fallback)
  /\ resolve (Some "https://evil.com/steal") ["app.example.com"] = Normal "/"
  /\ resolve (Some "//evil.com/phish") ["app.example.com"] = Normal "/".
Proof.
  split; [|split; reflexivity].
  intros isInt new c H Hint Hhost.
  destruct (string_dec c "") as [->|Hne]; [reflexivity|].
  destruct (new c dummyBase) as [u|e] eqn:Hnew.
  - rewrite (resolve_parsed isInt new c H u Hne Hint Hnew).
    now rewrite (Hhost u eq_refl).
  - exact (resolve_unparsed isInt new c H e Hint Hnew).
Qed.

Lemma C2_untrusted_host_falls_back_witness :
  LibUrl.isInternalUrl "https://evil.com/steal" = false
  /\ (forall u, Whatwg.newURL "https://evil.com/steal" dummyBase = Normal u ->
        includes ["app.example.com"] (host u) = false)
  /\ resolve (Some "https://evil.com/steal") ["app.example.com"] = Normal fallback.
Proof.
  assert (Hhost : forall u,
             Whatwg.newURL "https://evil.com/steal" dummyBase = Normal u ->
             includes ["app.example.com"] (host u) = false).
  { intros u Hu. vm_compute in Hu. injection Hu as <-. reflexivity. }
  split; [reflexivity|]. split; [exact Hhost|].
  exact (proj1 C2_untrusted_host_falls_back LibUrl.isInternalUrl Whatwg.newURL
           "https://evil.com/steal" ["app.example.com"] eq_refl Hhost).
Defined.

(** C5: a candidate that [isInternalUrl] accepts and that begins with [/]
    is returned unchanged, for every host set; so is
    [/dashboard?tab=issues#top]. *)
Theorem C5_internal_candidate_unchanged :
  (forall (isInternalUrl : string -> bool)
          (newURL : string -> option string -> completion URL)
          (c : string) (H : list string),
      isInternalUrl c = true -> startsWith c "/" = true ->
      resolveRedirectPath isInternalUrl newURL (Some c) H = Normal c)
  /\ (forall H, resolve (Some "/dashboard?tab=issues#top") H
                = Normal "/dashboard?tab=issues#top").
Proof.
  split.
  - intros isInt new c H Hint Hslash.
    apply resolve_internal; [|exact Hint].
    now apply (startsWith_nonempty c "/").
  - intros H. reflexivity.
Qed.

Lemma C5_internal_candidate_unchanged_witness :
  LibUrl.isInternalUrl "/machines/123" = true
  /\ startsWith "/machines/123" "/" = true
  /\ resolve (Some "/machines/123") ["app.example.com"] = Normal "/machines/123".
Proof.
  split; [reflexivity|]. split; [reflexivity|].
  exact (proj1 C5_internal_candidate_unchanged LibUrl.isInternalUrl Whatwg.newURL
           "/machines/123" ["app.example.com"] eq_refl eq_refl).
Defined.

(** C6: the resolver completes normally on every input, and a candidate
    the parser rejects with an exception yields the fallback [/]. *)
Theorem C6_never_throws :
  (forall (isInternalUrl : string -> bool)
          (newURL : string -> option string -> completion URL)
          (c : option string) (H : list string),
      exists r, resolveRedirectPath isInternalUrl newURL c H = Normal r)
  /\ (forall (isInternalUrl : string -> bool)
             (newURL : string -> option string -> completion URL)
             (c : string) (H : list string) (e : error),
         isInternalUrl c = false -> newURL c dummyBase = Throw e ->
         resolveRedirectPath isInternalUrl newURL (Some c) H = Normal fallback).
Proof.
  split.
  - intros isInt new c H.
    destruct (resolve_total isInt new c H) as [r [Hr _]]. now exists r.
  - intros isInt new c H e. apply resolve_unparsed.
Qed.

Lemma C6_never_throws_witness :
  LibUrl.isInternalUrl "//" = false
  /\ Whatwg.newURL "//" dummyBase = Throw (TypeError "Invalid URL")
  /\ resolve (Some "//") ["app.example.com"] = Normal fallback.
Proof.
  split; [reflexivity|]. split; [reflexivity|].
  exact (proj2 C6_never_throws LibUrl.isInternalUrl Whatwg.newURL
           "//" ["app.example.com"] (TypeError "Invalid URL") eq_refl eq_refl).
Defined.

(** C7: resolving the resolver's own output against the same host set gives
    that output again, for every helper that accepts the root path [/] and
    rejects the empty string. *)
Theorem C7_idempotent
    (isInternalUrl : string -> bool)
    (newURL : string -> option string -> completion URL)
    (Hroot : isInternalUrl "/" = true)
    (Hempty : isInternalUrl "" = false)
    (c : option string) (H : list string) :
  exists r, resolveRedirectPath isInternalUrl newURL c H = Normal r
            /\ resolveRedirectPath isInternalUrl newURL (Some r) H = Normal r.
Proof.
  destruct (resolve_total isInternalUrl newURL c H) as [r [Hr Hout]].
  exists r. split; [exact Hr|].
  assert (Hagain : isInternalUrl r = true ->
                   resolveRedirectPath isInternalUrl newURL (Some r) H = Normal r).
  { intros Hi. apply resolve_internal; [|exact Hi]. intros ->. congruence. }
  destruct Hout as [-> | _ _ Hi | next u _ _ _ _ _ _ Hi]; auto.
Qed.

Lemma C7_idempotent_witness :
  LibUrl.isInternalUrl "/" = true
  /\ LibUrl.isInternalUrl "" = false
  /\ exists r, resolve (Some "//app.example.com/a/../b?q#f") ["app.example.com"] = Normal r
               /\ resolve (Some r) ["app.example.com"] = Normal r.
Proof.
  split; [reflexivity|]. split; [reflexivity|].
  exact (C7_idempotent LibUrl.isInternalUrl Whatwg.newURL eq_refl eq_refl
           (Some "//app.example.com/a/../b?q#f") ["app.example.com"]).
Defined.

(** C8, as stated, fails: the empty candidate is falsy, so the guard on
    [nextParam] answers the fallback before [isInternalUrl] is consulted,
    whether the helper would accept the empty string or not. *)
Lemma C8_counterexample :
  isInternalUrl_lenient "" = true
  /\ resolveRedirectPath isInternalUrl_lenient Whatwg.newURL (Some "") ["app.example.com"]
     = Normal "/"
  /\ resolveRedirectPath isInternalUrl_lenient Whatwg.newURL (Some "") ["app.example.com"]
     <> Normal ""
  /\ resolve (Some "") ["app.example.com"] <> Normal "".
Proof. repeat split; try reflexivity; discriminate. Qed.

(** C8, amended: the resolver returns the fallback [/] on the empty
    candidate, for every host set, every helper and every parser. *)
Theorem C8_empty_candidate_falls_back
    (isInternalUrl : string -> bool)
    (newURL : string -> option string -> completion URL)
    (H : list string) :
  resolveRedirectPath isInternalUrl newURL (Some "") H = Normal fallback.
Proof. apply resolve_empty. Qed.

(** C4, as stated, fails: [/a/../b] parses to the trusted host [localhost]
    and its rebuilt path [/b] passes the helper, yet the resolver returns the
    candidate itself, because the internal-path test comes first. *)
Lemma C4_counterexample :
  exists u,
    Whatwg.newURL "/a/../b" dummyBase = Normal u
    /\ includes ["localhost"] (host u) = true
    /\ normalizedPathOf u = "/b"
    /\ LibUrl.isInternalUrl (normalizedPathOf u) = true
    /\ resolve (Some "/a/../b") ["localhost"] = Normal "/a/../b"
    /\ resolve (Some "/a/../b") ["localhost"] <> Normal (normalizedPathOf u).
Proof.
  eexists. split; [reflexivity|]. repeat split; try reflexivity. discriminate.
Qed.

(** C4, amended: for a non-empty candidate that is not itself an internal
    path and that parses to a URL whose host is in the trusted host set, the
    resolver rebuilds the path from pathname, search and hash, tests it with
    [isInternalUrl], and returns it when it passes and the fallback when it
    does not; [http://app.example.com/dashboard] resolves to [/dashboard]
    against [{app.example.com}]. *)
Theorem C4_trusted_host_path_rebuilt :
  (forall (isInternalUrl : string -> bool)
          (newURL : string -> option string -> completion URL)
          (c : string) (H : list string) (u : URL),
      c <> "" -> isInternalUrl c = false ->
      newURL c dummyBase = Normal u ->
      includes H (host u) = true ->
      resolveRedirectPath isInternalUrl newURL (Some c) H =
        Normal (if isInternalUrl (pathname u ++ search u ++ hash u)
                then pathname u ++ search u ++ hash u else fallback))
  /\ resolve (Some "http://app.example.com/dashboard") ["app.example.com"]
     = Normal "/dashboard".
Proof.
  split; [|reflexivity].
  intros isInt new c H u Hne Hint Hnew Hin.
  rewrite (resolve_parsed isInt new c H u Hne Hint Hnew).
  unfold normalizedPathOf. now rewrite Hin.
Qed.

Lemma C4_trusted_host_path_rebuilt_witness :
  "https://app.example.com/machines/1?tab=a#x" <> ""
  /\ LibUrl.isInternalUrl "https://app.example.com/machines/1?tab=a#x" = false
  /\ Whatwg.newURL "https://app.example.com/machines/1?tab=a#x" dummyBase
     = Normal (mkURL "app.example.com" "/machines/1" "?tab=a" "#x")
  /\ includes ["app.example.com"] "app.example.com" = true
  /\ resolve (Some "https://app.example.com/machines/1?tab=a#x") ["app.example.com"]
     = Normal "/machines/1?tab=a#x".
Proof.
  split; [discriminate|]. split; [reflexivity|]. split; [reflexivity|].
  split; [reflexivity|].
  exact (proj1 C4_trusted_host_path_rebuilt LibUrl.isInternalUrl Whatwg.newURL
           "https://app.example.com/machines/1?tab=a#x" ["app.example.com"]
           (mkURL "app.example.com" "/machines/1" "?tab=a" "#x")
           ltac:(discriminate) eq_refl eq_refl eq_refl).
Defined.

(** *** Candidates without a leading slash *)

Lemma basicParse_base :
  Whatwg.basicParse None "http://localhost" = Some baseRecord.
Proof. reflexivity. Qed.

Lemma pathQueryFragment_host scheme hst prt s path :
  Whatwg.r_host (Whatwg.pathQueryFragment scheme hst prt s path) = hst
  /\ Whatwg.r_port (Whatwg.pathQueryFragment scheme hst prt s path) = prt.
Proof.
  unfold Whatwg.pathQueryFragment, Whatwg.pathQueryFragmentFrom.
  destruct (Whatwg.pathState (Whatwg.isSpecial scheme) (String.eqb scheme "file")
              s "" path) as [p rest].
  destruct (Whatwg.queryFragment (Whatwg.isSpecial scheme) rest) as [q f].
  now split.
Qed.

(** In the relative state, an input that does not begin with two slashes
    keeps the host and port of the base. *)
Lemma relative_keeps_host s :
  opensAuthority s = false ->
  exists u, Whatwg.relative baseRecord [""] s = Some u
            /\ Whatwg.r_host u = Some "localhost" /\ Whatwg.r_port u = None.
Proof.
  intros Hs. destruct s as [|c r].
  - eexists. split; [reflexivity|]. now split.
  - unfold Whatwg.relative.
    change (Whatwg.isSpecial (Whatwg.r_scheme baseRecord)) with true.
    destruct (Whatwg.isSlash true c) eqn:Hc.
    + destruct r as [|c2 r2].
      * eexists. split; [reflexivity|]. apply pathQueryFragment_host.
      * simpl in Hs. rewrite Hc in Hs. simpl in Hs. rewrite Hs. simpl.
        assert (Hne : Ascii.eqb c2 "/" = false).
        { unfold Whatwg.isSlash in Hs. now apply orb_false_elim in Hs as [Hs _]. }
        rewrite Hne. eexists. split; [reflexivity|]. apply pathQueryFragment_host.
    + destruct (Ascii.eqb c "?").
      * destruct (Whatwg.queryFragment true (String c r)) as [q f].
        eexists. split; [reflexivity|]. now split.
      * destruct (Ascii.eqb c "#").
        -- eexists. split; [reflexivity|]. now split.
        -- eexists. split; [reflexivity|]. apply pathQueryFragment_host.
Qed.

Lemma newURL_relative c :
  Whatwg.schemeStart (Whatwg.preprocess c) = None ->
  opensAuthority (Whatwg.preprocess c) = false ->
  exists u, Whatwg.newURL c dummyBase = Normal u /\ host u = "localhost".
Proof.
  intros Hscheme Hs.
  destruct (relative_keeps_host _ Hs) as [u [Hu [Hh Hp]]].
  exists (Whatwg.toURL u). unfold Whatwg.newURL, dummyBase.
  rewrite basicParse_base. unfold Whatwg.basicParse. rewrite Hscheme.
  unfold Whatwg.noScheme.
  change (Whatwg.r_path baseRecord) with (Whatwg.ListPath [""]).
  change (String.eqb (Whatwg.r_scheme baseRecord) "file") with false.
  cbv iota. rewrite Hu. split; [reflexivity|].
  unfold Whatwg.toURL, Whatwg.getHost. simpl. now rewrite Hh, Hp.
Qed.

(** C9, as stated, fails in three ways.  [\\evil.com/x] does not start with
    [/] and has no scheme, yet the parser reads backslashes as slashes after
    the special base scheme, so its host is [evil.com]: with [localhost]
    trusted it is not accepted, and with [evil.com] trusted and [localhost]
    not, it does not yield the fallback.  The same holds of [ //evil.com/x],
    whose leading space the parser strips.  And [..//evil] does parse to host
    [localhost], but its rebuilt path [//evil] is refused by the second
    [isInternalUrl] test, so it is not accepted even with [localhost]
    trusted. *)
Lemma C9_counterexample :
  startsWith "\\evil.com/x" "/" = false
  /\ Whatwg.schemeStart (Whatwg.preprocess "\\evil.com/x") = None
  /\ Whatwg.newURL "\\evil.com/x" dummyBase = Normal (mkURL "evil.com" "/x" "" "")
  /\ includes ["localhost"] "localhost" = true
  /\ resolve (Some "\\evil.com/x") ["localhost"] = Normal "/"
  /\ includes ["evil.com"] "localhost" = false
  /\ resolve (Some "\\evil.com/x") ["evil.com"] = Normal "/x"
  /\ resolve (Some "\\evil.com/x") ["evil.com"] <> Normal fallback
  /\ startsWith " //evil.com/x" "/" = false
  /\ Whatwg.schemeStart (Whatwg.preprocess " //evil.com/x") = None
  /\ Whatwg.newURL " //evil.com/x" dummyBase = Normal (mkURL "evil.com" "/x" "" "")
  /\ resolve (Some " //evil.com/x") ["evil.com"] = Normal "/x"
  /\ startsWith "..//evil" "/" = false
  /\ Whatwg.schemeStart (Whatwg.preprocess "..//evil") = None
  /\ Whatwg.newURL "..//evil" dummyBase = Normal (mkURL "localhost" "//evil" "" "")
  /\ resolve (Some "..//evil") ["localhost"] = Normal "/"
  /\ resolve (Some "..//evil") ["localhost"] <> Normal "//evil".
Proof. repeat split; try reflexivity; discriminate. Qed.

(** C9, amended: a candidate that does not start with [/], carries no scheme
    and, once the parser has stripped surrounding spaces and controls and
    removed tabs and newlines, does not begin with two slashes ([/] or
    backslash, in any mix), is parsed against [http://localhost] to host
    [localhost].  Whenever a candidate the helper refuses parses to host
    [localhost], the resolver returns its rebuilt path when [localhost] is
    trusted and the rebuilt path passes [isInternalUrl], and the fallback [/]
    otherwise; so for every host set without [localhost] it yields the
    fallback.  [dashboard], [\dashboard] and [ /dashboard] resolve to
    [/dashboard] against [{localhost}] and to [/] against
    [{app.example.com}]. *)
Theorem C9_relative_candidate_host_localhost :
  (forall (isInternalUrl : string -> bool)
          (newURL : string -> option string -> completion URL)
          (c : string) (H : list string) (u : URL),
      c <> "" -> isInternalUrl c = false ->
      newURL c dummyBase = Normal u -> host u = "localhost" ->
      resolveRedirectPath isInternalUrl newURL (Some c) H =
        Normal (if includes H "localhost"
                   && isInternalUrl (pathname u ++ search u ++ hash u)
                then pathname u ++ search u ++ hash u else fallback))
  /\ (forall (c : string) (H : list string),
         startsWith c "/" = false ->
         Whatwg.schemeStart (Whatwg.preprocess c) = None ->
         opensAuthority (Whatwg.preprocess c) = false ->
         exists u,
           Whatwg.newURL c dummyBase = Normal u
           /\ host u = "localhost"
           /\ resolve (Some c) H =
                Normal (if includes H "localhost"
                           && LibUrl.isInternalUrl (pathname u ++ search u ++ hash u)
                        then pathname u ++ search u ++ hash u else fallback))
  /\ resolve (Some "dashboard") ["localhost"] = Normal "/dashboard"
  /\ resolve (Some "dashboard") ["app.example.com"] = Normal "/"
  /\ resolve (Some "\dashboard") ["localhost"] = Normal "/dashboard"
  /\ resolve (Some "\dashboard") ["app.example.com"] = Normal "/"
  /\ resolve (Some " /dashboard") ["localhost"] = Normal "/dashboard"
  /\ resolve (Some " /dashboard") ["app.example.com"] = Normal "/".
Proof.
  assert (Hgeneral : forall (isInternalUrl : string -> bool)
             (newURL : string -> option string -> completion URL)
             (c : string) (H : list string) (u : URL),
             c <> "" -> isInternalUrl c = false ->
             newURL c dummyBase = Normal u -> host u = "localhost" ->
             resolveRedirectPath isInternalUrl newURL (Some c) H =
               Normal (if includes H "localhost"
                          && isInternalUrl (pathname u ++ search u ++ hash u)
                       then pathname u ++ search u ++ hash u else fallback)).
  { intros isInt new c H u Hne Hint Hu Hh.
    rewrite (resolve_parsed isInt new c H u Hne Hint Hu).
    unfold normalizedPathOf. now rewrite Hh. }
  split; [exact Hgeneral|]. split; [|repeat split; reflexivity].
  intros c H Hc Hscheme Hs.
  destruct (newURL_relative c Hscheme Hs) as [u [Hu Hh]].
  exists u. split; [exact Hu|]. split; [exact Hh|].
  destruct (string_dec c "") as [->|Hne].
  - vm_compute in Hu. injection Hu as <-. simpl.
    now destruct (includes H "localhost").
  - assert (Hint : LibUrl.isInternalUrl c = false).
    { rewrite LibUrl_isInternalUrl_spec, Hc. reflexivity. }
    exact (Hgeneral LibUrl.isInternalUrl Whatwg.newURL c H u Hne Hint Hu Hh).
Qed.

Lemma C9_relative_candidate_host_localhost_witness :
  startsWith "\machines/7?tab=a" "/" = false
  /\ Whatwg.schemeStart (Whatwg.preprocess "\machines/7?tab=a") = None
  /\ opensAuthority (Whatwg.preprocess "\machines/7?tab=a") = false
  /\ exists u,
       Whatwg.newURL "\machines/7?tab=a" dummyBase = Normal u
       /\ host u = "localhost"
       /\ resolve (Some "\machines/7?tab=a") ["localhost"] =
            Normal (if includes ["localhost"] "localhost"
                       && LibUrl.isInternalUrl (pathname u ++ search u ++ hash u)
                    then pathname u ++ search u ++ hash u else fallback).
Proof.
  split; [reflexivity|]. split; [reflexivity|]. split; [reflexivity|].
  exact (proj1 (proj2 C9_relative_candidate_host_localhost)
           "\machines/7?tab=a" ["localhost"] eq_refl eq_refl eq_refl).
Defined.

(** *** Protocol-relative candidates *)

(** C10, as stated, fails: [//app.example.com//evil] has the form [//h/p]
    with [h] trusted and [p = /evil]; its rebuilt path [//evil] is rejected
    by the second [isInternalUrl] test, so the resolver answers the fallback
    and not [/p], although the host is trusted.  Dot segments give a second
    case: the rebuilt path of [//app.example.com/a/../b] is [/b]. *)
Lemma C10_counterexample :
  "//app.example.com//evil" = "//" ++ "app.example.com" ++ "/" ++ "/evil"
  /\ includes ["app.example.com"] "app.example.com" = true
  /\ Whatwg.newURL "//app.example.com//evil" dummyBase
     = Normal (mkURL "app.example.com" "//evil" "" "")
  /\ resolve (Some "//app.example.com//evil") ["app.example.com"] = Normal "/"
  /\ resolve (Some "//app.example.com//evil") ["app.example.com"]
     <> Normal ("/" ++ "/evil")
  /\ resolve (Some "//app.example.com/a/../b") ["app.example.com"] = Normal "/b"
  /\ resolve (Some "//app.example.com/a/../b") ["app.example.com"]
     <> Normal ("/" ++ "a/../b").
Proof. repeat split; try reflexivity; discriminate. Qed.

(** C10, amended: a candidate that starts with [//] is not rejected
    outright.  The helper refuses it, so it is parsed; when its parsed host is
    trusted and the path rebuilt from pathname, search and hash passes
    [isInternalUrl], that rebuilt path is returned; when the host is not
    trusted, or the rebuilt path is refused, or parsing fails, the result is
    the fallback [/].  [//app.example.com/dashboard?tab=1#top] resolves to
    [/dashboard?tab=1#top] against [{app.example.com}], and
    [//evil.com/phishing] to [/]. *)
Theorem C10_protocol_relative :
  (forall (isInternalUrl : string -> bool)
          (newURL : string -> option string -> completion URL)
          (c : string) (H : list string),
      (forall s, startsWith s "//" = true -> isInternalUrl s = false) ->
      startsWith c "//" = true ->
      match newURL c dummyBase with
      | Normal u =>
          resolveRedirectPath isInternalUrl newURL (Some c) H =
            Normal (if includes H (host u)
                       && isInternalUrl (pathname u ++ search u ++ hash u)
                    then pathname u ++ search u ++ hash u else fallback)
      | Throw _ =>
          resolveRedirectPath isInternalUrl newURL (Some c) H = Normal fallback
      end)
  /\ resolve (Some "//app.example.com/dashboard?tab=1#top") ["app.example.com"]
     = Normal "/dashboard?tab=1#top"
  /\ resolve (Some "//evil.com/phishing") ["app.example.com"] = Normal "/".
Proof.
  split; [|split; reflexivity].
  intros isInt new c H Hpr Hc.
  assert (Hint : isInt c = false) by now apply Hpr.
  assert (Hne : c <> "") by now apply (startsWith_nonempty c "//").
  destruct (new c dummyBase) as [u|e] eqn:Hnew.
  - exact (resolve_parsed isInt new c H u Hne Hint Hnew).
  - exact (resolve_unparsed isInt new c H e Hint Hnew).
Qed.

Lemma LibUrl_rejects_protocol_relative s :
  startsWith s "//" = true -> LibUrl.isInternalUrl s = false.
Proof.
  intros Hs. rewrite LibUrl_isInternalUrl_spec, Hs. apply andb_false_r.
Qed.

Lemma C10_protocol_relative_witness :
  (forall s, startsWith s "//" = true -> LibUrl.isInternalUrl s = false)
  /\ startsWith "//app.example.com/issues?open=1" "//" = true
  /\ Whatwg.newURL "//app.example.com/issues?open=1" dummyBase
     = Normal (mkURL "app.example.com" "/issues" "?open=1" "")
  /\ resolve (Some "//app.example.com/issues?open=1") ["app.example.com"]
     = Normal "/issues?open=1".
Proof.
  split; [exact LibUrl_rejects_protocol_relative|]. split; [reflexivity|].
  split; [reflexivity|].
  exact (proj1 C10_protocol_relative LibUrl.isInternalUrl Whatwg.newURL
           "//app.example.com/issues?open=1" ["app.example.com"]
           LibUrl_rejects_protocol_relative eq_refl).
Defined.

(** ** Claims about the [GET] handler *)

Ltac break_match :=
  match goal with
  | |- context [match ?x with _ => _ end] =>
      lazymatch x with
      | context [match _ with _ => _ end] => fail
      | _ => destruct x eqn:?
      end
  end.

Lemma truthy_Some_true v : truthy (Some v) = true -> v <> "".
Proof. intros H ->. discriminate. Qed.

Lemma otpTypes_member v :
  (String.eqb v "signup" || String.eqb v "invite"
   || String.eqb v "magiclink" || String.eqb v "recovery"
   || String.eqb v "email_change" || String.eqb v "email") = true
  <-> In v otpTypes.
Proof.
  unfold otpTypes. simpl. rewrite !orb_true_iff, !String.eqb_eq.
  intuition congruence.
Qed.

(** [isValidEmailOtpType] answers true exactly on the six listed types, and
    false on [null], the empty string and every other string. *)
Lemma isValidEmailOtpType_whitelist value :
  Route.isValidEmailOtpType value = true <->
  exists ty, value = Some ty /\ In ty otpTypes.
Proof.
  unfold Route.isValidEmailOtpType.
  destruct value as [v|]; [|simpl; split; [discriminate | intros [ty [? _]]; discriminate]].
  pose proof (otpTypes_member v) as Hmem.
  destruct v as [|a v'].
  - simpl. split; [discriminate|]. intros [ty [Hv Hin]].
    assert (ty = "") by congruence. subst ty.
    apply Hmem in Hin. discriminate.
  - change (negb (truthy (Some (String a v')))) with false. cbv iota.
    set (v := String a v') in *. rewrite Hmem. split.
    + intros Hin. now exists v.
    + intros [ty [Hv Hin]]. assert (v = ty) by congruence. now subst ty.
Qed.

Lemma setCookie_In jar c x :
  In x (Route.setCookie jar c) -> x = c \/ In x jar.
Proof.
  induction jar as [|d jar IH]; simpl.
  - intros [<- | []]. now left.
  - destruct (String.eqb (Route.name d) (Route.name c)); simpl.
    + intros [<- | Hx]; [now left | right; now right].
    + intros [<- | Hx]; [right; now left|].
      destruct (IH Hx) as [-> | Hj]; [now left | right; now right].
Qed.

Lemma applyCookies_target cookies : forall response,
  Route.target (Route.applyCookies response cookies) = Route.target response.
Proof.
  unfold Route.applyCookies.
  induction cookies as [|c cookies IH]; intros response; [reflexivity|].
  simpl. rewrite IH. now destruct (Route.options c).
Qed.

Lemma applyCookies_In cookies : forall response x,
  In x (Route.setCookies (Route.applyCookies response cookies)) ->
  In x (Route.setCookies response) \/ In x cookies.
Proof.
  unfold Route.applyCookies.
  induction cookies as [|c cookies IH]; intros response x; [now left|].
  simpl. intros Hx. apply IH in Hx as [Hx | Hx]; [|right; now right].
  assert (Hset : In x (Route.setCookie (Route.setCookies response) c)).
  { destruct c as [n v [o|]]; exact Hx. }
  apply setCookie_In in Hset as [-> | Hj]; [right; now left | now left].
Qed.

Lemma applyCookies_nil response : Route.applyCookies response [] = response.
Proof. reflexivity. Qed.

Lemma redirect_inv newURL url response :
  Route.redirect newURL url = Normal response ->
  response = Route.mkRedirect url [].
Proof.
  unfold Route.redirect. destruct (newURL url None); [|discriminate].
  now intros H; injection H as <-.
Qed.

Lemma errorRedirect_inv newURL siteUrl pending response :
  Route.errorRedirect newURL siteUrl pending = Normal response ->
  response = Route.applyCookies
               (Route.mkRedirect (siteUrl ++ "/auth/auth-code-error") []) pending.
Proof.
  unfold Route.errorRedirect.
  destruct (Route.redirect newURL (siteUrl ++ "/auth/auth-code-error")) as [r|e] eqn:Hr;
    simpl; [|discriminate].
  apply redirect_inv in Hr. subst r. now intros H; injection H as <-.
Qed.

(** What the first block of the handler did when it completed. *)
Lemma codeBlock_inv client request redirectToTarget res pending :
  Route.codeBlock client request redirectToTarget = Normal (res, pending) ->
  match res with
  | Some response =>
      exists code set1 set2 r0,
        Route.get (Route.searchParams request) "code" = Some code /\ code <> ""
        /\ Route.exchangeCodeForSession client request code = Normal (None, set1)
        /\ Route.getUser client request = Normal set2
        /\ redirectToTarget tt = Normal r0
        /\ pending = (set1 ++ set2)%list
        /\ response = Route.applyCookies r0 pending
  | None =>
      ~ codeExchanged client request
      /\ ((pending = [] /\ truthy (Route.get (Route.searchParams request) "code") = false)
          \/ exists code err,
               Route.get (Route.searchParams request) "code" = Some code /\ code <> ""
               /\ Route.exchangeCodeForSession client request code
                  = Normal (Some err, pending))
  end.
Proof.
  unfold Route.codeBlock.
  destruct (Route.get (Route.searchParams request) "code") as [c|] eqn:Hc.
  - destruct (truthy (Some c)) eqn:Htc.
    + apply truthy_Some_true in Htc.
      destruct (Route.exchangeCodeForSession client request c) as [[[err|] set1]|e]
        eqn:Hex; simpl; [| |discriminate].
      * intros H. injection H as <- <-. split.
        -- intros [code [cookies [Hcode [_ Hok]]]].
           assert (code = c) by congruence. subst code. congruence.
        -- right. exists c, err. now repeat split.
      * destruct (Route.getUser client request) as [set2|e] eqn:Hgu; simpl;
          [|discriminate].
        destruct (redirectToTarget tt) as [r0|e] eqn:Hrt; simpl; [|discriminate].
        intros H. injection H as <- <-.
        exists c, set1, set2, r0. now repeat split.
    + intros H. injection H as <- <-. split.
      * intros [code [cookies [Hcode [Hne _]]]].
        assert (code = c) by congruence. subst code.
        now rewrite (truthy_nonempty c Hne) in Htc.
      * left. now split.
  - intros H. injection H as <- <-. split.
    + intros [code [cookies [Hcode _]]]. congruence.
    + left. now split.
Qed.

(** What the rest of the handler did when it completed. *)
Lemma otpBlock_inv newURL client request siteUrl redirectToTarget pending1 response :
  Route.otpBlock newURL client request siteUrl redirectToTarget pending1
  = Normal response ->
  (exists th set2 set3 r0,
      Route.get (Route.searchParams request) "token_hash" = Some th /\ th <> ""
      /\ Route.isValidEmailOtpType (Route.get (Route.searchParams request) "type") = true
      /\ Route.verifyOtp client request true th = Normal (None, set2)
      /\ Route.getUser client request = Normal set3
      /\ redirectToTarget tt = Normal r0
      /\ response = Route.applyCookies r0 (pending1 ++ set2 ++ set3)%list)
  \/ (~ otpVerified client request
      /\ exists pending,
           response = Route.applyCookies
                        (Route.mkRedirect (siteUrl ++ "/auth/auth-code-error") [])
                        pending
           /\ ((pending = pending1
                /\ (truthy (Route.get (Route.searchParams request) "token_hash") = false
                    \/ Route.isValidEmailOtpType
                         (Route.get (Route.searchParams request) "type") = false))
               \/ exists th err set2,
                    Route.get (Route.searchParams request) "token_hash" = Some th
                    /\ th <> ""
                    /\ Route.isValidEmailOtpType
                         (Route.get (Route.searchParams request) "type") = true
                    /\ Route.verifyOtp client request true th = Normal (Some err, set2)
                    /\ pending = (pending1 ++ set2)%list)).
Proof.
  unfold Route.otpBlock.
  destruct (Route.get (Route.searchParams request) "token_hash") as [th|] eqn:Hth.
  - destruct (truthy (Some th)) eqn:Htt; simpl.
    + apply truthy_Some_true in Htt.
      destruct (Route.isValidEmailOtpType
                  (Route.get (Route.searchParams request) "type")) eqn:Hty.
      * destruct (Route.verifyOtp client request true th) as [[[err|] set2]|e]
          eqn:Hver; simpl; [| |discriminate].
        -- intros H. apply errorRedirect_inv in H. right. split.
           ++ intros [th' [cookies [Hth' [_ [_ Hok]]]]].
              assert (th' = th) by congruence. subst th'. congruence.
           ++ eexists. split; [exact H|]. right. exists th, err, set2.
              now repeat split.
        -- destruct (Route.getUser client request) as [set3|e] eqn:Hgu; simpl;
             [|discriminate].
           destruct (redirectToTarget tt) as [r0|e] eqn:Hrt; simpl; [|discriminate].
           intros H. injection H as <-. left.
           exists th, set2, set3, r0. now repeat split.
      * intros H. apply errorRedirect_inv in H. right. split.
        -- intros [th' [cookies [_ [_ [Hlisted _]]]]]. congruence.
        -- eexists. split; [exact H|]. left. split; [reflexivity | now right].
    + intros H. apply errorRedirect_inv in H. right. split.
      * intros [th' [cookies [Hth' [Hne _]]]].
        assert (th' = th) by congruence. subst th'.
        now rewrite (truthy_nonempty th Hne) in Htt.
      * eexists. split; [exact H|]. left. split; [reflexivity | now left].
  - intros H. apply errorRedirect_inv in H. right. split.
    + intros [th' [cookies [Hth' _]]]. congruence.
    + eexists. split; [exact H|]. left. split; [reflexivity | now left].
Qed.

(** [createSupabaseClient] hands back the client when both variables are
    set and [createServerClient] returns, and throws otherwise. *)
Lemma createSupabaseClient_inv env client sb :
  Route.createSupabaseClient env client = Normal sb ->
  sb = client
  /\ truthy (Route.supabaseUrl env) = true
  /\ truthy (Route.supabaseKey env) = true
  /\ exists url key,
       Route.supabaseUrl env = Some url /\ Route.supabaseKey env = Some key
       /\ Route.createServerClient client url key = Normal tt.
Proof.
  unfold Route.createSupabaseClient.
  destruct (truthy (Route.supabaseUrl env)) eqn:Hu; simpl; [|discriminate].
  destruct (truthy (Route.supabaseKey env)) eqn:Hk; simpl; [|discriminate].
  destruct (Route.supabaseUrl env) as [url|]; [|discriminate].
  destruct (Route.supabaseKey env) as [key|]; [|discriminate].
  destruct (Route.createServerClient client url key) as [[]|e] eqn:Hc;
    simpl; [|discriminate].
  intros H. injection H as <-. repeat split. now exists url, key.
Qed.

Lemma createSupabaseClient_throw env client e :
  Route.createSupabaseClient env client = Throw e ->
  ((truthy (Route.supabaseUrl env) = false \/ truthy (Route.supabaseKey env) = false)
   /\ e = Route.missingEnvVars)
  \/ (exists url key,
         Route.supabaseUrl env = Some url /\ url <> ""
         /\ Route.supabaseKey env = Some key /\ key <> ""
         /\ Route.createServerClient client url key = Throw e).
Proof.
  unfold Route.createSupabaseClient.
  destruct (truthy (Route.supabaseUrl env)) eqn:Hu; simpl.
  2: { intros H. injection H as <-. left. split; [now left | reflexivity]. }
  destruct (truthy (Route.supabaseKey env)) eqn:Hk; simpl.
  2: { intros H. injection H as <-. left. split; [now right | reflexivity]. }
  destruct (Route.supabaseUrl env) as [url|]; [|discriminate].
  destruct (Route.supabaseKey env) as [key|]; [|discriminate].
  destruct (Route.createServerClient client url key) as [[]|e0] eqn:Hc;
    simpl; [discriminate|].
  intros H. injection H as <-. right. exists url, key.
  repeat split; try reflexivity; try exact Hc; now apply truthy_Some_true.
Qed.

(** The steps a completed run of the handler went through. *)
Lemma GET_inv isInternalUrl newURL env client request response :
  Route.GET isInternalUrl newURL env client request = Normal response ->
  exists site next afterCode,
    newURL (Route.getSiteUrl env) None = Normal site
    /\ resolveRedirectPath isInternalUrl newURL (Some (requestedNext request))
         [host site] = Normal next
    /\ truthy (Route.supabaseUrl env) = true
    /\ truthy (Route.supabaseKey env) = true
    /\ Route.codeBlock client request
         (fun _ => Route.redirect newURL
                     (Route.getSiteUrl env ++ Route.redirectPathOf next))
       = Normal afterCode
    /\ match afterCode with
       | (Some r, _) => response = r
       | (None, pending1) =>
           Route.otpBlock newURL client request (Route.getSiteUrl env)
             (fun _ => Route.redirect newURL
                         (Route.getSiteUrl env ++ Route.redirectPathOf next))
             pending1 = Normal response
       end.
Proof.
  unfold Route.GET. fold (requestedNext request).
  destruct (newURL (Route.getSiteUrl env) None) as [site|e] eqn:Hsite;
    simpl; [|discriminate].
  destruct (resolveRedirectPath isInternalUrl newURL
              (Some (requestedNext request)) [host site]) as [next|e] eqn:Hnext;
    simpl; [|discriminate].
  destruct (Route.createSupabaseClient env client) as [sb|e] eqn:Hsb;
    simpl; [|discriminate].
  apply createSupabaseClient_inv in Hsb as (-> & Hurl & Hkey & _).
  destruct (Route.codeBlock client request _) as [[res pending]|e] eqn:Hcode;
    simpl; [|discriminate].
  intros Hrest. exists site, next, (res, pending).
  repeat split; try assumption.
  destruct res as [r|]; [now injection Hrest as <- | exact Hrest].
Qed.

(** Every response of the handler redirects to the site URL followed by the
    path of [redirectToTarget], after an authentication that succeeded, or by
    the path of the error page, after none did. *)
Lemma GET_target isInternalUrl newURL env client request response :
  Route.GET isInternalUrl newURL env client request = Normal response ->
  exists site next,
    newURL (Route.getSiteUrl env) None = Normal site
    /\ resolveRedirectPath isInternalUrl newURL (Some (requestedNext request))
         [host site] = Normal next
    /\ ((authenticated client request
         /\ Route.target response = Route.getSiteUrl env ++ Route.redirectPathOf next)
        \/ (~ authenticated client request
            /\ Route.target response = Route.getSiteUrl env ++ "/auth/auth-code-error")).
Proof.
  intros H. apply GET_inv in H as [site [next [[res pending] [Hs [Hn [_ [_ [Hc Hr]]]]]]]].
  exists site, next. split; [exact Hs|]. split; [exact Hn|].
  apply codeBlock_inv in Hc. destruct res as [r|].
  - subst r. destruct Hc as [code [s1 [s2 [r0 [Hg [Hne [Hex [_ [Hrt [_ ->]]]]]]]]]].
    apply redirect_inv in Hrt. subst r0. left. split.
    + left. now exists code, s1.
    + now rewrite applyCookies_target.
  - destruct Hc as [Hnot _].
    apply otpBlock_inv in Hr
      as [[th [s2 [s3 [r0 [Hg [Hne [Hty [Hv [_ [Hrt ->]]]]]]]]]] | [Hno [p [-> _]]]].
    + apply redirect_inv in Hrt. subst r0. left. split.
      * right. now exists th, s2.
      * now rewrite applyCookies_target.
    + right. split; [|now rewrite applyCookies_target].
      intros [Hce | Hov]; [now apply Hnot | now apply Hno].
Qed.

Lemma resolve_starts_with_slash isInternalUrl newURL c H r :
  (forall s, isInternalUrl s = true ->
     startsWith s "/" = true /\ startsWith s "//" = false) ->
  resolveRedirectPath isInternalUrl newURL c H = Normal r ->
  startsWith r "/" = true.
Proof.
  intros Hsound Hr.
  destruct (resolve_total isInternalUrl newURL c H) as [r' [Hr' Hout]].
  rewrite Hr in Hr'. injection Hr' as <-.
  destruct Hout as [-> | _ _ Hi | next u _ _ _ _ _ _ Hi];
    [reflexivity | apply (Hsound r Hi) | apply (Hsound r Hi)].
Qed.

Lemma redirectPathOf_cases next :
  (next = "/reset-password"
   /\ Route.redirectPathOf next = "/auth/loading?next=%2Freset-password")
  \/ (next <> "/reset-password" /\ Route.redirectPathOf next = next).
Proof.
  unfold Route.redirectPathOf.
  destruct (String.eqb next "/reset-password") eqn:E.
  - apply String.eqb_eq in E. subst next. left. split; reflexivity.
  - apply String.eqb_neq in E. right. now split.
Qed.

(** C3, as stated, fails: a request without [code] and [token_hash] is
    redirected to the error page, and a successful exchange whose resolved
    path is [/reset-password] is redirected to the loading screen; in
    neither case is the target the site URL followed by the resolved path. *)
Lemma C3_counterexample :
  Route.GET LibUrl.isInternalUrl Whatwg.newURL exampleEnv acceptingClient
    (Route.mkRequest [] [] [])
  = Normal (Route.mkRedirect "https://app.example.com/auth/auth-code-error" [])
  /\ resolve (Some (requestedNext (Route.mkRequest [] [] []))) ["app.example.com"]
     = Normal "/"
  /\ "https://app.example.com/auth/auth-code-error"
     <> Route.getSiteUrl exampleEnv ++ "/"
  /\ Route.GET LibUrl.isInternalUrl Whatwg.newURL exampleEnv acceptingClient
       (Route.mkRequest [("code", "abc"); ("next", "/reset-password")] [] [])
     = Normal (Route.mkRedirect
                 "https://app.example.com/auth/loading?next=%2Freset-password" [])
  /\ resolve (Some "/reset-password") ["app.example.com"] = Normal "/reset-password"
  /\ "https://app.example.com/auth/loading?next=%2Freset-password"
     <> Route.getSiteUrl exampleEnv ++ "/reset-password".
Proof. repeat split; try reflexivity; discriminate. Qed.

Lemma redirectCase_of_target client request env next response :
  startsWith next "/" = true ->
  (authenticated client request
   /\ Route.target response = Route.getSiteUrl env ++ Route.redirectPathOf next)
  \/ (~ authenticated client request
      /\ Route.target response = Route.getSiteUrl env ++ "/auth/auth-code-error") ->
  exists path,
    Route.target response = Route.getSiteUrl env ++ path
    /\ startsWith path "/" = true
    /\ redirectCase client request next path.
Proof.
  intros Hslash [[Hauth Ht] | [Hno Ht]].
  - destruct (redirectPathOf_cases next) as [[Hn Hp] | [Hn Hp]]; rewrite Hp in Ht.
    + exists "/auth/loading?next=%2Freset-password".
      split; [exact Ht|]. split; [reflexivity|]. right. left. now repeat split.
    + exists next. split; [exact Ht|]. split; [exact Hslash|].
      right. right. now repeat split.
  - exists "/auth/auth-code-error".
    split; [exact Ht|]. split; [reflexivity|]. left. now split.
Qed.

(** C3, amended: every redirect issued by the handler is the canonical site
    URL, taken from server configuration by [getSiteUrl] and never from the
    request, followed by a path that begins with [/]: the error-page path when
    neither the code exchange nor the OTP verification succeeded, and after a
    successful one the resolved path, or the loading-screen path when the
    resolved path is [/reset-password].  Two requests with the same search
    parameters, however their headers and cookies differ, are redirected to
    targets that extend the same site URL, with paths drawn from the same
    resolved [next]. *)
Theorem C3_redirect_targets_site_url
    (isInternalUrl : string -> bool)
    (newURL : string -> option string -> completion URL)
    (Hsound : forall s, isInternalUrl s = true ->
                startsWith s "/" = true /\ startsWith s "//" = false)
    (env : Route.Env) (client : Route.Supabase)
    (request1 request2 : Route.NextRequest)
    (response1 response2 : Route.NextResponse) :
  Route.searchParams request1 = Route.searchParams request2 ->
  Route.GET isInternalUrl newURL env client request1 = Normal response1 ->
  Route.GET isInternalUrl newURL env client request2 = Normal response2 ->
  exists site next path1 path2,
    newURL (Route.getSiteUrl env) None = Normal site
    /\ resolveRedirectPath isInternalUrl newURL (Some (requestedNext request1))
         [host site] = Normal next
    /\ Route.target response1 = Route.getSiteUrl env ++ path1
    /\ Route.target response2 = Route.getSiteUrl env ++ path2
    /\ startsWith path1 "/" = true /\ startsWith path2 "/" = true
    /\ redirectCase client request1 next path1
    /\ redirectCase client request2 next path2.
Proof.
  intros Hsame H1 H2.
  destruct (GET_target _ _ _ _ _ _ H1) as [site [next [Hsite [Hnext Hc1]]]].
  destruct (GET_target _ _ _ _ _ _ H2) as [site' [next' [Hsite' [Hnext' Hc2]]]].
  assert (Hreq : requestedNext request2 = requestedNext request1)
    by (unfold requestedNext; now rewrite Hsame).
  rewrite Hsite in Hsite'. injection Hsite' as <-.
  rewrite Hreq, Hnext in Hnext'. injection Hnext' as <-.
  pose proof (resolve_starts_with_slash _ _ _ _ _ Hsound Hnext) as Hslash.
  destruct (redirectCase_of_target client request1 env next response1 Hslash Hc1)
    as [p1 [Ht1 [Hs1 Hr1]]].
  destruct (redirectCase_of_target client request2 env next response2 Hslash Hc2)
    as [p2 [Ht2 [Hs2 Hr2]]].
  exists site, next, p1, p2. now repeat split.
Qed.

Lemma C3_redirect_targets_site_url_witness :
  (forall s, LibUrl.isInternalUrl s = true ->
     startsWith s "/" = true /\ startsWith s "//" = false)
  /\ Route.searchParams exampleRequest1 = Route.searchParams exampleRequest2
  /\ Route.GET LibUrl.isInternalUrl Whatwg.newURL exampleEnv acceptingClient
       exampleRequest1
     = Normal (Route.mkRedirect "https://app.example.com/issues" [])
  /\ Route.GET LibUrl.isInternalUrl Whatwg.newURL exampleEnv acceptingClient
       exampleRequest2
     = Normal (Route.mkRedirect "https://app.example.com/issues" [])
  /\ exists site next path1 path2,
       Whatwg.newURL (Route.getSiteUrl exampleEnv) None = Normal site
       /\ resolve (Some (requestedNext exampleRequest1)) [host site] = Normal next
       /\ "https://app.example.com/issues" = Route.getSiteUrl exampleEnv ++ path1
       /\ "https://app.example.com/issues" = Route.getSiteUrl exampleEnv ++ path2
       /\ startsWith path1 "/" = true /\ startsWith path2 "/" = true
       /\ redirectCase acceptingClient exampleRequest1 next path1
       /\ redirectCase acceptingClient exampleRequest2 next path2.
Proof.
  split; [exact LibUrl_isInternalUrl_sound|]. split; [reflexivity|].
  split; [reflexivity|]. split; [reflexivity|].
  exact (C3_redirect_targets_site_url LibUrl.isInternalUrl Whatwg.newURL
           LibUrl_isInternalUrl_sound exampleEnv acceptingClient
           exampleRequest1 exampleRequest2
           (Route.mkRedirect "https://app.example.com/issues" [])
           (Route.mkRedirect "https://app.example.com/issues" [])
           eq_refl eq_refl eq_refl).
Defined.

(** ** More about the [GET] handler *)

Lemma errorRedirect_throw newURL siteUrl pending e :
  Route.errorRedirect newURL siteUrl pending = Throw e ->
  Route.redirect newURL (siteUrl ++ "/auth/auth-code-error") = Throw e.
Proof.
  unfold Route.errorRedirect.
  destruct (Route.redirect newURL (siteUrl ++ "/auth/auth-code-error"));
    simpl; [discriminate | trivial].
Qed.

(** Why the first block of the handler throws, when it does. *)
Lemma codeBlock_throw client request redirectToTarget e :
  Route.codeBlock client request redirectToTarget = Throw e ->
  (exists code,
      Route.get (Route.searchParams request) "code" = Some code /\ code <> ""
      /\ Route.exchangeCodeForSession client request code = Throw e)
  \/ Route.getUser client request = Throw e
  \/ redirectToTarget tt = Throw e.
Proof.
  unfold Route.codeBlock.
  destruct (Route.get (Route.searchParams request) "code") as [c|] eqn:Hc;
    [|discriminate].
  destruct (truthy (Some c)) eqn:Htc; [|discriminate].
  apply truthy_Some_true in Htc.
  destruct (Route.exchangeCodeForSession client request c) as [[[err|] set1]|e0]
    eqn:Hex; simpl.
  - discriminate.
  - destruct (Route.getUser client request) as [set2|e0]; simpl.
    + destruct (redirectToTarget tt) as [r|e0]; simpl; [discriminate|].
      intros H. injection H as <-. now do 2 right.
    + intros H. injection H as <-. right. now left.
  - intros H. injection H as <-. left. now exists c.
Qed.

(** Why the rest of the handler throws, when it does. *)
Lemma otpBlock_throw newURL client request siteUrl redirectToTarget pending1 e :
  Route.otpBlock newURL client request siteUrl redirectToTarget pending1 = Throw e ->
  (exists th,
      Route.get (Route.searchParams request) "token_hash" = Some th /\ th <> ""
      /\ Route.verifyOtp client request true th = Throw e)
  \/ Route.getUser client request = Throw e
  \/ redirectToTarget tt = Throw e
  \/ Route.redirect newURL (siteUrl ++ "/auth/auth-code-error") = Throw e.
Proof.
  unfold Route.otpBlock.
  destruct (Route.get (Route.searchParams request) "token_hash") as [th|] eqn:Hth.
  - destruct (truthy (Some th)) eqn:Htt; simpl.
    + apply truthy_Some_true in Htt.
      destruct (Route.isValidEmailOtpType
                  (Route.get (Route.searchParams request) "type")) eqn:Hty.
      * destruct (Route.verifyOtp client request true th) as [[[err|] set2]|e0]
          eqn:Hver; simpl.
        -- intros H. apply errorRedirect_throw in H. now do 3 right.
        -- destruct (Route.getUser client request) as [set3|e0]; simpl.
           ++ destruct (redirectToTarget tt) as [r|e0]; simpl; [discriminate|].
              intros H. injection H as <-. do 2 right. now left.
           ++ intros H. injection H as <-. right. now left.
        -- intros H. injection H as <-. left. now exists th.
      * intros H. apply errorRedirect_throw in H. now do 3 right.
    + intros H. apply errorRedirect_throw in H. now do 3 right.
  - intros H. apply errorRedirect_throw in H. now do 3 right.
Qed.

(** X1: Why the handler throws, when it does: the site URL does not parse, a
    Supabase variable is missing or empty (the error is then the one of
    [createSupabaseClient]), [createServerClient] throws on the two variables,
    a Supabase call the handler awaits (the exchange of the request's
    non-empty code, [getUser], or the verification of the request's non-empty
    token) throws, or [NextResponse.redirect] refuses a target that begins
    with the site URL.  Resolving [next] is never the cause. *)
Theorem GET_thrown_errors
    (isInternalUrl : string -> bool)
    (newURL : string -> option string -> completion URL)
    (env : Route.Env) (client : Route.Supabase) (request : Route.NextRequest)
    (e : error) :
  Route.GET isInternalUrl newURL env client request = Throw e ->
  newURL (Route.getSiteUrl env) None = Throw e
  \/ ((truthy (Route.supabaseUrl env) = false \/ truthy (Route.supabaseKey env) = false)
      /\ e = Route.missingEnvVars)
  \/ (exists url key,
         Route.supabaseUrl env = Some url /\ url <> ""
         /\ Route.supabaseKey env = Some key /\ key <> ""
         /\ Route.createServerClient client url key = Throw e)
  \/ (exists code,
         Route.get (Route.searchParams request) "code" = Some code /\ code <> ""
         /\ Route.exchangeCodeForSession client request code = Throw e)
  \/ Route.getUser client request = Throw e
  \/ (exists th,
         Route.get (Route.searchParams request) "token_hash" = Some th /\ th <> ""
         /\ Route.verifyOtp client request true th = Throw e)
  \/ (exists path, Route.redirect newURL (Route.getSiteUrl env ++ path) = Throw e).
Proof.
  unfold Route.GET.
  destruct (newURL (Route.getSiteUrl env) None) as [site|e0] eqn:Hsite; simpl.
  2: { intros H. injection H as <-. now left. }
  destruct (resolve_total isInternalUrl newURL
              (Some match Route.get (Route.searchParams request) "next" with
                    | Some v => v
                    | None => "/"
                    end) [host site]) as [next [Hnext _]].
  rewrite Hnext. simpl.
  destruct (Route.createSupabaseClient env client) as [sb|e0] eqn:Hsb; simpl.
  2: { intros H. injection H as <-. right.
       apply createSupabaseClient_throw in Hsb as [Hmissing | Hcreate];
         [now left | right; now left]. }
  apply createSupabaseClient_inv in Hsb as (-> & _).
  destruct (Route.codeBlock client request _) as [[res pending]|e0] eqn:Hcode; simpl.
  - destruct res as [r|]; [discriminate|].
    intros H. apply otpBlock_throw in H as [Hv | [Hg | [Hr | Hr]]].
    + do 5 right. now left.
    + do 4 right. now left.
    + do 6 right. now exists (Route.redirectPathOf next).
    + do 6 right. now exists "/auth/auth-code-error".
  - intros H. injection H as <-.
    apply codeBlock_throw in Hcode as [Hx | [Hg | Hr]].
    + do 3 right. now left.
    + do 4 right. now left.
    + do 6 right. now exists (Route.redirectPathOf next).
Qed.

Lemma GET_thrown_errors_witness :
  Whatwg.newURL (Route.getSiteUrl exampleEnv) None = Throw (Error "fetch failed")
  \/ ((truthy (Route.supabaseUrl exampleEnv) = false
       \/ truthy (Route.supabaseKey exampleEnv) = false)
      /\ Error "fetch failed" = Route.missingEnvVars)
  \/ (exists url key,
         Route.supabaseUrl exampleEnv = Some url /\ url <> ""
         /\ Route.supabaseKey exampleEnv = Some key /\ key <> ""
         /\ Route.createServerClient throwingClient url key
            = Throw (Error "fetch failed"))
  \/ (exists code,
         Route.get (Route.searchParams exampleRequest1) "code" = Some code /\ code <> ""
         /\ Route.exchangeCodeForSession throwingClient exampleRequest1 code
            = Throw (Error "fetch failed"))
  \/ Route.getUser throwingClient exampleRequest1 = Throw (Error "fetch failed")
  \/ (exists th,
         Route.get (Route.searchParams exampleRequest1) "token_hash" = Some th
         /\ th <> ""
         /\ Route.verifyOtp throwingClient exampleRequest1 true th
            = Throw (Error "fetch failed"))
  \/ (exists path,
         Route.redirect Whatwg.newURL (Route.getSiteUrl exampleEnv ++ path)
         = Throw (Error "fetch failed")).
Proof.
  exact (GET_thrown_errors LibUrl.isInternalUrl Whatwg.newURL exampleEnv throwingClient
           exampleRequest1 (Error "fetch failed") eq_refl).
Defined.

(** X2: A request that carries no usable credential (no non-empty [code], and no
    non-empty [token_hash] with a listed [type]) is sent to the error page
    with no cookie set, whatever the Supabase client would answer and
    whatever [next] it asks for. *)
Theorem GET_without_credentials_error_page
    (isInternalUrl : string -> bool)
    (newURL : string -> option string -> completion URL)
    (env : Route.Env) (client : Route.Supabase) (request : Route.NextRequest)
    (response : Route.NextResponse) :
  truthy (Route.get (Route.searchParams request) "code") = false ->
  truthy (Route.get (Route.searchParams request) "token_hash") = false
  \/ Route.isValidEmailOtpType (Route.get (Route.searchParams request) "type") = false ->
  Route.GET isInternalUrl newURL env client request = Normal response ->
  response = Route.mkRedirect (Route.getSiteUrl env ++ "/auth/auth-code-error") [].
Proof.
  intros Hcode Hotp H.
  apply GET_inv in H as [site [next [[res pending] [_ [_ [_ [_ [Hc Hr]]]]]]]].
  apply codeBlock_inv in Hc. destruct res as [r|].
  - destruct Hc as [code [s1 [s2 [r0 [Hg [Hne _]]]]]].
    rewrite Hg, (truthy_nonempty code Hne) in Hcode. discriminate.
  - destruct Hc as [_ [[-> _] | [code [err [Hg [Hne _]]]]]].
    2: { rewrite Hg, (truthy_nonempty code Hne) in Hcode. discriminate. }
    apply otpBlock_inv in Hr
      as [[th [s2 [s3 [r0 [Hg [Hne [Hty _]]]]]]] | [_ [p [-> [[-> _] | Hv]]]]].
    + destruct Hotp as [Htok | Hno]; [|congruence].
      rewrite Hg, (truthy_nonempty th Hne) in Htok. discriminate.
    + reflexivity.
    + destruct Hv as [th [err [s2 [Hg [Hne [Hty _]]]]]].
      destruct Hotp as [Htok | Hno]; [|congruence].
      rewrite Hg, (truthy_nonempty th Hne) in Htok. discriminate.
Qed.

Lemma GET_without_credentials_error_page_witness :
  truthy (Route.get [("next", "/dashboard"); ("token_hash", "t"); ("type", "sms")] "code")
  = false
  /\ (truthy (Route.get [("next", "/dashboard"); ("token_hash", "t"); ("type", "sms")]
                        "token_hash") = false
      \/ Route.isValidEmailOtpType
           (Route.get [("next", "/dashboard"); ("token_hash", "t"); ("type", "sms")] "type")
         = false)
  /\ Route.mkRedirect "https://app.example.com/auth/auth-code-error" []
     = Route.mkRedirect (Route.getSiteUrl exampleEnv ++ "/auth/auth-code-error") [].
Proof.
  split; [reflexivity|]. split; [right; reflexivity|].
  exact (GET_without_credentials_error_page LibUrl.isInternalUrl Whatwg.newURL
           exampleEnv acceptingClient
           (Route.mkRequest [("next", "/dashboard"); ("token_hash", "t"); ("type", "sms")]
                            [] [])
           (Route.mkRedirect "https://app.example.com/auth/auth-code-error" [])
           eq_refl (or_intror eq_refl) eq_refl).
Defined.

Lemma codeBlock_ext client1 client2 request redirectToTarget :
  (forall code,
      Route.get (Route.searchParams request) "code" = Some code -> code <> "" ->
      Route.exchangeCodeForSession client1 request code
      = Route.exchangeCodeForSession client2 request code) ->
  Route.getUser client1 request = Route.getUser client2 request ->
  Route.codeBlock client1 request redirectToTarget
  = Route.codeBlock client2 request redirectToTarget.
Proof.
  intros Hex Hgu. unfold Route.codeBlock.
  destruct (Route.get (Route.searchParams request) "code") as [c|]; [|reflexivity].
  destruct (truthy (Some c)) eqn:Htc; [|reflexivity].
  apply truthy_Some_true in Htc.
  now rewrite <- (Hex c eq_refl Htc), <- Hgu.
Qed.

Lemma otpBlock_ext newURL client1 client2 request siteUrl redirectToTarget pending :
  Route.getUser client1 request = Route.getUser client2 request ->
  (forall th,
      Route.get (Route.searchParams request) "token_hash" = Some th -> th <> "" ->
      Route.isValidEmailOtpType (Route.get (Route.searchParams request) "type") = true ->
      Route.verifyOtp client1 request true th = Route.verifyOtp client2 request true th) ->
  Route.otpBlock newURL client1 request siteUrl redirectToTarget pending
  = Route.otpBlock newURL client2 request siteUrl redirectToTarget pending.
Proof.
  intros Hgu Hver. unfold Route.otpBlock.
  destruct (Route.get (Route.searchParams request) "token_hash") as [th|];
    [|reflexivity].
  destruct (truthy (Some th)) eqn:Htt; [|reflexivity].
  apply truthy_Some_true in Htt.
  destruct (Route.isValidEmailOtpType
              (Route.get (Route.searchParams request) "type")) eqn:Hty;
    [|reflexivity].
  simpl. now rewrite <- (Hver th eq_refl Htt eq_refl), <- Hgu.
Qed.

(** X3: What the handler asks of Supabase.  Its outcome is the same for two
    clients that agree on [createServerClient] for the two configured
    variables, on the code exchange for the request's own non-empty
    [code], on [getUser], and on [verifyOtp] called with the type [true] and
    the request's own non-empty [token_hash] when the [type] parameter is
    listed; and the answers of [verifyOtp] do not matter at all once the code
    exchange has succeeded.  So the handler never verifies an OTP for an
    unlisted type or with an empty token, never after a successful exchange,
    and never hands [verifyOtp] the type string itself: the type it submits is
    the boolean the type guard returned. *)
Theorem GET_consults_supabase_narrowly
    (isInternalUrl : string -> bool)
    (newURL : string -> option string -> completion URL)
    (env : Route.Env) (client1 client2 : Route.Supabase)
    (request : Route.NextRequest) :
  (forall url key,
      Route.supabaseUrl env = Some url -> url <> "" ->
      Route.supabaseKey env = Some key -> key <> "" ->
      Route.createServerClient client1 url key
      = Route.createServerClient client2 url key) ->
  (forall code,
      Route.get (Route.searchParams request) "code" = Some code -> code <> "" ->
      Route.exchangeCodeForSession client1 request code
      = Route.exchangeCodeForSession client2 request code) ->
  Route.getUser client1 request = Route.getUser client2 request ->
  (forall th,
      ~ codeExchanged client1 request ->
      Route.get (Route.searchParams request) "token_hash" = Some th -> th <> "" ->
      Route.isValidEmailOtpType (Route.get (Route.searchParams request) "type") = true ->
      Route.verifyOtp client1 request true th = Route.verifyOtp client2 request true th) ->
  Route.GET isInternalUrl newURL env client1 request
  = Route.GET isInternalUrl newURL env client2 request.
Proof.
  intros Hcreate Hex Hgu Hver. unfold Route.GET.
  destruct (newURL (Route.getSiteUrl env) None) as [site|e]; simpl; [|reflexivity].
  destruct (resolveRedirectPath isInternalUrl newURL _ [host site]) as [next|e];
    simpl; [|reflexivity].
  unfold Route.createSupabaseClient.
  destruct (truthy (Route.supabaseUrl env)) eqn:Hu; simpl; [|reflexivity].
  destruct (truthy (Route.supabaseKey env)) eqn:Hk; simpl; [|reflexivity].
  destruct (Route.supabaseUrl env) as [url|] eqn:Eu; [|reflexivity].
  destruct (Route.supabaseKey env) as [key|] eqn:Ek; [|reflexivity].
  rewrite <- (Hcreate url key eq_refl (truthy_Some_true url Hu)
                      eq_refl (truthy_Some_true key Hk)).
  destruct (Route.createServerClient client1 url key) as [[]|e]; simpl;
    [|reflexivity].
  rewrite <- (codeBlock_ext client1 client2 request _ Hex Hgu).
  destruct (Route.codeBlock client1 request _) as [[res pending]|e] eqn:Hcode;
    simpl; [|reflexivity].
  destruct res as [r|]; [reflexivity|].
  apply codeBlock_inv in Hcode as [Hnot _].
  apply otpBlock_ext; [exact Hgu|].
  intros th. now apply Hver.
Qed.

Lemma GET_consults_supabase_narrowly_witness :
  Route.GET LibUrl.isInternalUrl Whatwg.newURL exampleEnv otpAcceptingClient
    (Route.mkRequest [("code", "abc"); ("token_hash", "t"); ("type", "email")] [] [])
  = Route.GET LibUrl.isInternalUrl Whatwg.newURL exampleEnv otpRefusingClient
      (Route.mkRequest [("code", "abc"); ("token_hash", "t"); ("type", "email")] [] []).
Proof.
  apply GET_consults_supabase_narrowly.
  - intros url key _ _ _ _. reflexivity.
  - intros code _ _. reflexivity.
  - reflexivity.
  - intros th Hnot. exfalso. apply Hnot.
    exists "abc", [Route.mkCookie "sb-token" "t" None].
    split; [reflexivity|]. split; [discriminate | reflexivity].
Defined.

(** X4: The cookies on a response are cookies Supabase asked for while handling
    this request: those of the exchange of the request's code, of the
    verification of the request's token, or of [getUser].  The handler adds
    none of its own. *)
Theorem GET_sets_only_supabase_cookies
    (isInternalUrl : string -> bool)
    (newURL : string -> option string -> completion URL)
    (env : Route.Env) (client : Route.Supabase) (request : Route.NextRequest)
    (response : Route.NextResponse) (cookie : Route.Cookie) :
  Route.GET isInternalUrl newURL env client request = Normal response ->
  In cookie (Route.setCookies response) ->
  (exists code err set,
      Route.get (Route.searchParams request) "code" = Some code
      /\ Route.exchangeCodeForSession client request code = Normal (err, set)
      /\ In cookie set)
  \/ (exists th err set,
         Route.get (Route.searchParams request) "token_hash" = Some th
         /\ Route.verifyOtp client request true th = Normal (err, set)
         /\ In cookie set)
  \/ (exists set, Route.getUser client request = Normal set /\ In cookie set).
Proof.
  intros H Hin.
  apply GET_inv in H as [site [next [[res pending] [_ [_ [_ [_ [Hc Hr]]]]]]]].
  apply codeBlock_inv in Hc. destruct res as [r|].
  - subst r. destruct Hc as [code [s1 [s2 [r0 [Hg [_ [Hex [Hgu [Hrt [-> ->]]]]]]]]]].
    apply redirect_inv in Hrt. subst r0.
    apply applyCookies_In in Hin as [[] | Hin].
    apply in_app_or in Hin as [Hin | Hin].
    + left. now exists code, None, s1.
    + right. right. now exists s2.
  - destruct Hc as [_ Hpending].
    assert (Hp1 : forall c, In c pending ->
               exists code err set,
                 Route.get (Route.searchParams request) "code" = Some code
                 /\ Route.exchangeCodeForSession client request code = Normal (err, set)
                 /\ In c set).
    { intros c Hc. destruct Hpending as [[-> _] | [code [err [Hg [_ Hex]]]]];
        [destruct Hc|]. now exists code, (Some err), pending. }
    apply otpBlock_inv in Hr
      as [[th [s2 [s3 [r0 [Hg [_ [_ [Hv [Hgu [Hrt ->]]]]]]]]]] | [_ [p [-> Hp]]]].
    + apply redirect_inv in Hrt. subst r0.
      apply applyCookies_In in Hin as [[] | Hin].
      apply in_app_or in Hin as [Hin | Hin]; [left; now apply Hp1|].
      apply in_app_or in Hin as [Hin | Hin].
      * right. left. now exists th, None, s2.
      * right. right. now exists s3.
    + apply applyCookies_In in Hin as [[] | Hin].
      destruct Hp as [[-> _] | [th [err [s2 [Hg [_ [_ [Hv ->]]]]]]]].
      * left. now apply Hp1.
      * apply in_app_or in Hin as [Hin | Hin]; [left; now apply Hp1|].
        right. left. now exists th, (Some err), s2.
Qed.

Lemma GET_sets_only_supabase_cookies_witness :
  (exists code err set,
      Route.get [("code", "abc"); ("token_hash", "t"); ("type", "recovery")] "code"
      = Some code
      /\ Route.exchangeCodeForSession codeRefusingClient
           (Route.mkRequest [("code", "abc"); ("token_hash", "t"); ("type", "recovery")]
                            [] []) code = Normal (err, set)
      /\ In (Route.mkCookie "sb-otp" "o" None) set)
  \/ (exists th err set,
         Route.get [("code", "abc"); ("token_hash", "t"); ("type", "recovery")]
                   "token_hash" = Some th
         /\ Route.verifyOtp codeRefusingClient
              (Route.mkRequest [("code", "abc"); ("token_hash", "t"); ("type", "recovery")]
                               [] []) true th = Normal (err, set)
         /\ In (Route.mkCookie "sb-otp" "o" None) set)
  \/ (exists set,
         Route.getUser codeRefusingClient
           (Route.mkRequest [("code", "abc"); ("token_hash", "t"); ("type", "recovery")]
                            [] []) = Normal set
         /\ In (Route.mkCookie "sb-otp" "o" None) set).
Proof.
  apply (GET_sets_only_supabase_cookies LibUrl.isInternalUrl Whatwg.newURL
           exampleEnv codeRefusingClient
           (Route.mkRequest [("code", "abc"); ("token_hash", "t"); ("type", "recovery")]
                            [] [])
           (Route.mkRedirect "https://app.example.com/"
              [Route.mkCookie "sb-flow" "g" (Some [("path", "/")]);
               Route.mkCookie "sb-otp" "o" None;
               Route.mkCookie "sb-user" "u" None])
           (Route.mkCookie "sb-otp" "o" None)).
  - reflexivity.
  - simpl. tauto.
Defined.

(** X5: A failed code exchange does not end the request.  When the request also
    carries a non-empty [token_hash] and a listed [type], the OTP is submitted
    to [verifyOtp], with the type [true]: on success the user is redirected as
    after a successful exchange, on failure to the error page.  Either way the
    response carries the cookies of the failed exchange and then those of the
    verification, set in that order, a later cookie taking the place of an
    earlier one of the same name. *)
Theorem GET_otp_after_failed_exchange
    (isInternalUrl : string -> bool)
    (newURL : string -> option string -> completion URL)
    (env : Route.Env) (client : Route.Supabase) (request : Route.NextRequest)
    (response : Route.NextResponse)
    (code err th : string) (set1 : list Route.Cookie) :
  Route.get (Route.searchParams request) "code" = Some code -> code <> "" ->
  Route.exchangeCodeForSession client request code = Normal (Some err, set1) ->
  Route.get (Route.searchParams request) "token_hash" = Some th -> th <> "" ->
  Route.isValidEmailOtpType (Route.get (Route.searchParams request) "type") = true ->
  Route.GET isInternalUrl newURL env client request = Normal response ->
  exists site next,
    newURL (Route.getSiteUrl env) None = Normal site
    /\ resolveRedirectPath isInternalUrl newURL (Some (requestedNext request))
         [host site] = Normal next
    /\ match Route.verifyOtp client request true th with
       | Normal (None, set2) =>
           exists set3,
             Route.getUser client request = Normal set3
             /\ response =
                Route.applyCookies
                  (Route.mkRedirect
                     (Route.getSiteUrl env ++ Route.redirectPathOf next) [])
                  (set1 ++ set2 ++ set3)%list
       | Normal (Some _, set2) =>
           response =
           Route.applyCookies
             (Route.mkRedirect (Route.getSiteUrl env ++ "/auth/auth-code-error") [])
             (set1 ++ set2)%list
       | Throw _ => False
       end.
Proof.
  intros Hcode Hcne Hex Hth Htne Hty H.
  apply GET_inv in H as [site [next [[res pending] [Hs [Hn [_ [_ [Hc Hr]]]]]]]].
  exists site, next. split; [exact Hs|]. split; [exact Hn|].
  apply codeBlock_inv in Hc. destruct res as [r|].
  - destruct Hc as [code' [s1 [s2 [r0 [Hg [_ [Hex' _]]]]]]].
    assert (code' = code) by congruence. subst code'. congruence.
  - destruct Hc as [_ [[_ Hfalsy] | [code' [err' [Hg [_ Hex']]]]]].
    { rewrite Hcode, (truthy_nonempty code Hcne) in Hfalsy. discriminate. }
    assert (code' = code) by congruence. subst code'.
    assert (pending = set1) by congruence. subst pending.
    apply otpBlock_inv in Hr
      as [[th' [s2 [s3 [r0 [Hg' [_ [_ [Hv [Hgu [Hrt ->]]]]]]]]]] | [_ [p [-> Hp]]]].
    + assert (th' = th) by congruence. subst th'. rewrite Hv.
      apply redirect_inv in Hrt. subst r0. now exists s3.
    + destruct Hp as [[_ [Htok | Hno]] | [th' [err2 [s2 [Hg' [_ [_ [Hv ->]]]]]]]].
      * rewrite Hth, (truthy_nonempty th Htne) in Htok. discriminate.
      * congruence.
      * assert (th' = th) by congruence. subst th'. now rewrite Hv.
Qed.

Lemma GET_otp_after_failed_exchange_witness :
  exists site next,
    Whatwg.newURL (Route.getSiteUrl exampleEnv) None = Normal site
    /\ resolve (Some (requestedNext
                        (Route.mkRequest
                           [("code", "abc"); ("token_hash", "t"); ("type", "recovery");
                            ("next", "/reset-password")] [] [])))
         [host site] = Normal next
    /\ exists set3,
         Route.getUser codeRefusingClient
           (Route.mkRequest
              [("code", "abc"); ("token_hash", "t"); ("type", "recovery");
               ("next", "/reset-password")] [] []) = Normal set3
         /\ Route.mkRedirect "https://app.example.com/auth/loading?next=%2Freset-password"
              [Route.mkCookie "sb-flow" "g" (Some [("path", "/")]);
               Route.mkCookie "sb-otp" "o" None;
               Route.mkCookie "sb-user" "u" None]
            = Route.applyCookies
                (Route.mkRedirect
                   (Route.getSiteUrl exampleEnv ++ Route.redirectPathOf next) [])
                ([Route.mkCookie "sb-flow" "f" None]
                 ++ [Route.mkCookie "sb-otp" "o" None;
                     Route.mkCookie "sb-flow" "g" (Some [("path", "/")])]
                 ++ set3)%list.
Proof.
  exact (GET_otp_after_failed_exchange LibUrl.isInternalUrl Whatwg.newURL
           exampleEnv codeRefusingClient
           (Route.mkRequest
              [("code", "abc"); ("token_hash", "t"); ("type", "recovery");
               ("next", "/reset-password")] [] [])
           (Route.mkRedirect "https://app.example.com/auth/loading?next=%2Freset-password"
              [Route.mkCookie "sb-flow" "g" (Some [("path", "/")]);
               Route.mkCookie "sb-otp" "o" None;
               Route.mkCookie "sb-user" "u" None])
           "abc" "bad code" "t" [Route.mkCookie "sb-flow" "f" None]
           eq_refl ltac:(discriminate) eq_refl eq_refl ltac:(discriminate) eq_refl
           eq_refl).
Defined.

(** ** More about [resolveRedirectPath] *)

Lemma includes_In l x : includes l x = true <-> In x l.
Proof.
  unfold includes. rewrite existsb_exists. split.
  - intros [y [Hy Heq]]. apply String.eqb_eq in Heq. now subst y.
  - intros Hx. exists x. split; [exact Hx | apply String.eqb_refl].
Qed.

Lemma includes_ext l l' x :
  (forall h, In h l <-> In h l') -> includes l x = includes l' x.
Proof.
  intros Hext.
  destruct (includes l x) eqn:E1; destruct (includes l' x) eqn:E2; try reflexivity.
  - apply includes_In, Hext, includes_In in E1. congruence.
  - apply includes_In, Hext, includes_In in E2. congruence.
Qed.

Lemma resolve_cases isInternalUrl newURL c H :
  c <> "" ->
  resolveRedirectPath isInternalUrl newURL (Some c) H =
    if isInternalUrl c then Normal c
    else match newURL c dummyBase with
         | Normal u =>
             Normal (if includes H (host u) && isInternalUrl (normalizedPathOf u)
                     then normalizedPathOf u else fallback)
         | Throw _ => Normal fallback
         end.
Proof.
  intros Hne. destruct (isInternalUrl c) eqn:Hint.
  - now apply resolve_internal.
  - destruct (newURL c dummyBase) as [u|e] eqn:Hnew.
    + now apply resolve_parsed.
    + now apply (resolve_unparsed _ _ _ _ e).
Qed.

(** X6: The allowed hosts are used as a set: two lists with the same members,
    in any order and with any repetitions, give the same result. *)
Theorem resolveRedirectPath_hosts_as_set
    (isInternalUrl : string -> bool)
    (newURL : string -> option string -> completion URL)
    (c : option string) (H H' : list string) :
  (forall h, In h H <-> In h H') ->
  resolveRedirectPath isInternalUrl newURL c H
  = resolveRedirectPath isInternalUrl newURL c H'.
Proof.
  intros Hext. destruct c as [c|]; [|reflexivity].
  destruct (string_dec c "") as [->|Hne]; [reflexivity|].
  rewrite !resolve_cases by exact Hne.
  destruct (isInternalUrl c); [reflexivity|].
  destruct (newURL c dummyBase) as [u|e]; [|reflexivity].
  now rewrite (includes_ext H H' (host u) Hext).
Qed.

Lemma resolveRedirectPath_hosts_as_set_witness :
  resolve (Some "https://app.example.com/issues") ["localhost:3000"; "app.example.com"]
  = resolve (Some "https://app.example.com/issues")
            ["app.example.com"; "localhost:3000"; "app.example.com"].
Proof.
  apply resolveRedirectPath_hosts_as_set.
  intros h. simpl. tauto.
Defined.

(** X7: Trusting more hosts never changes a result that was not the fallback:
    a destination accepted under a host list is returned unchanged under
    every larger one. *)
Theorem resolveRedirectPath_more_hosts
    (isInternalUrl : string -> bool)
    (newURL : string -> option string -> completion URL)
    (c : option string) (H H' : list string) (r : string) :
  incl H H' ->
  resolveRedirectPath isInternalUrl newURL c H = Normal r ->
  r <> fallback ->
  resolveRedirectPath isInternalUrl newURL c H' = Normal r.
Proof.
  intros Hincl Hr Hnf.
  destruct c as [c|];
    [|change (Normal fallback = Normal r) in Hr; injection Hr as <-; congruence].
  destruct (string_dec c "") as [->|Hne];
    [change (Normal fallback = Normal r) in Hr; injection Hr as <-; congruence|].
  rewrite resolve_cases in Hr |- * by exact Hne.
  destruct (isInternalUrl c); [exact Hr|].
  destruct (newURL c dummyBase) as [u|e]; [|exact Hr].
  destruct (includes H (host u)) eqn:Hin; simpl in Hr; [|congruence].
  apply includes_In, Hincl, includes_In in Hin. now rewrite Hin.
Qed.

Lemma resolveRedirectPath_more_hosts_witness :
  incl ["app.example.com"] ["staging.example.com"; "app.example.com"]
  /\ resolve (Some "https://app.example.com/issues?open=1") ["app.example.com"]
     = Normal "/issues?open=1"
  /\ "/issues?open=1" <> fallback
  /\ resolve (Some "https://app.example.com/issues?open=1")
             ["staging.example.com"; "app.example.com"]
     = Normal "/issues?open=1".
Proof.
  assert (Hincl : incl ["app.example.com"] ["staging.example.com"; "app.example.com"])
    by (intros h Hh; simpl in *; tauto).
  split; [exact Hincl|]. split; [reflexivity|]. split; [discriminate|].
  exact (resolveRedirectPath_more_hosts LibUrl.isInternalUrl Whatwg.newURL
           (Some "https://app.example.com/issues?open=1")
           ["app.example.com"] ["staging.example.com"; "app.example.com"]
           "/issues?open=1" Hincl eq_refl ltac:(discriminate)).
Defined.

(** X8: With no trusted host the parser's reading of the candidate is never
    returned: the result is the candidate itself, accepted by
    [isInternalUrl], or the fallback. *)
Theorem resolveRedirectPath_no_hosts
    (isInternalUrl : string -> bool)
    (newURL : string -> option string -> completion URL)
    (c : option string) :
  resolveRedirectPath isInternalUrl newURL c [] =
    Normal match c with
           | Some s => if negb (String.eqb s "") && isInternalUrl s then s else fallback
           | None => fallback
           end.
Proof.
  destruct c as [c|]; [|reflexivity].
  destruct (string_dec c "") as [->|Hne]; [reflexivity|].
  rewrite resolve_cases by exact Hne.
  apply String.eqb_neq in Hne. rewrite Hne. simpl.
  destruct (isInternalUrl c); [reflexivity|].
  now destruct (newURL c dummyBase).
Qed.

(** ** Issue list filters *)

Ltac break_match_hyp H :=
  match type of H with
  | context [match ?x with _ => _ end] =>
      lazymatch x with
      | context [match _ with _ => _ end] => fail
      | _ => destruct x eqn:?
      end
  end.

Lemma validStatusesOf_valid ALL st :
  Forall (fun s => In s ALL) (Queries.validStatusesOf ALL st).
Proof.
  unfold Queries.validStatusesOf. apply Forall_forall. intros s Hs.
  apply filter_In in Hs as [_ Hs]. now apply includes_In.
Qed.

(** X9: Every condition [getIssues] sends to the database carries checked
    values only: statuses are a non-empty list of known statuses, severity and
    priority are among their listed values, and machine initials and assignee
    are non-empty (the assignee never the word [unassigned]). *)
Theorem getIssues_conditions_validated
    (ALL_ISSUE_STATUSES : list string) (filters : Queries.IssueFilters)
    (c : Queries.SQL) :
  In c (Queries.conditionsOf ALL_ISSUE_STATUSES filters) ->
  validated ALL_ISSUE_STATUSES c.
Proof.
  destruct filters as [m st sv pr a].
  unfold Queries.conditionsOf, Queries.push. cbn [Queries.machineInitials
    Queries.status Queries.severity Queries.priority Queries.assignedTo].
  intros Hin.
  repeat break_match_hyp Hin; cbn [app] in Hin;
    repeat match goal with
           | H : In _ (_ :: _) |- _ => destruct H as [<- | H]
           | H : In _ [] |- _ => destruct H
           end;
    cbn [validated];
    repeat match goal with
           | H : _ && _ = true |- _ => apply andb_prop in H as [? ?]
           | H : includes _ _ = true |- _ => apply includes_In in H
           | H : truthy (Some _) = true |- _ => apply truthy_Some_true in H
           | H : String.eqb _ _ = false |- _ => apply String.eqb_neq in H
           | H : Queries.statusTruthy _ = true |- _ => clear H
           end;
    try solve [assumption | tauto | now split];
    (split; [|apply validStatusesOf_valid]);
    intros Hnil;
    match goal with
    | H : Nat.ltb 0 _ = true |- _ => rewrite Hnil in H; discriminate
    end.
Qed.

(** X10: Filter values the handler does not know are dropped, not rejected: an
    unknown severity, an unknown priority, or a status filter without any
    known status gives the query of the filters without that field. *)
Theorem getIssues_drops_unknown_values
    (ALL_ISSUE_STATUSES : list string)
    (m : option string) (st : option Queries.StatusFilter)
    (sv pr a : option string) :
  (forall v, includes ["cosmetic"; "minor"; "major"; "unplayable"] v = false ->
     Queries.findManyArgs ALL_ISSUE_STATUSES (Queries.mkFilters m st (Some v) pr a)
     = Queries.findManyArgs ALL_ISSUE_STATUSES (Queries.mkFilters m st None pr a))
  /\ (forall v, includes ["low"; "medium"; "high"] v = false ->
        Queries.findManyArgs ALL_ISSUE_STATUSES (Queries.mkFilters m st sv (Some v) a)
        = Queries.findManyArgs ALL_ISSUE_STATUSES (Queries.mkFilters m st sv None a))
  /\ (forall s, Queries.validStatusesOf ALL_ISSUE_STATUSES s = [] ->
        Queries.findManyArgs ALL_ISSUE_STATUSES (Queries.mkFilters m (Some s) sv pr a)
        = Queries.findManyArgs ALL_ISSUE_STATUSES (Queries.mkFilters m None sv pr a)).
Proof.
  unfold Queries.findManyArgs, Queries.conditionsOf.
  cbn [Queries.machineInitials Queries.status Queries.severity Queries.priority
       Queries.assignedTo].
  split; [|split].
  - intros v Hv. now rewrite Hv, andb_false_r.
  - intros v Hv. now rewrite Hv, andb_false_r.
  - intros s Hs. rewrite Hs. cbn [List.length Nat.ltb Nat.leb].
    now destruct (Queries.statusTruthy (Some s)).
Qed.

Lemma getIssues_drops_unknown_values_witness :
  includes ["cosmetic"; "minor"; "major"; "unplayable"] "critical" = false
  /\ Queries.findManyArgs ["new"; "confirmed"; "fixed"]
       (Queries.mkFilters (Some "MM") None (Some "critical") (Some "high") None)
     = Queries.findManyArgs ["new"; "confirmed"; "fixed"]
         (Queries.mkFilters (Some "MM") None None (Some "high") None).
Proof.
  split; [reflexivity|].
  exact (proj1 (getIssues_drops_unknown_values ["new"; "confirmed"; "fixed"]
                  (Some "MM") None None (Some "high") None)
               "critical" eq_refl).
Defined.

(** X11: The word [unassigned] is a sentinel: it asks for issues whose assignee is
    null and is never compared with the assignee column; every other
    non-empty value is compared with it. *)
Theorem getIssues_unassigned_sentinel
    (ALL_ISSUE_STATUSES : list string) (filters : Queries.IssueFilters) :
  (In Queries.IsNullAssignedTo (Queries.conditionsOf ALL_ISSUE_STATUSES filters)
   <-> Queries.assignedTo filters = Some "unassigned")
  /\ (forall a,
        In (Queries.EqAssignedTo a) (Queries.conditionsOf ALL_ISSUE_STATUSES filters)
        <-> Queries.assignedTo filters = Some a /\ a <> "" /\ a <> "unassigned").
Proof.
  destruct filters as [m st sv pr a].
  unfold Queries.conditionsOf, Queries.push.
  cbn [Queries.machineInitials Queries.status Queries.severity Queries.priority
       Queries.assignedTo].
  set (before := match pr with
                 | Some v => if truthy (Some v) && includes ["low"; "medium"; "high"] v
                             then _ else _
                 | None => _
                 end).
  assert (Hbefore : forall c, In c before -> Queries.column c < 4).
  { intros c Hc. subst before.
    repeat break_match_hyp Hc; cbn [app] in Hc;
      repeat match goal with
             | H : In _ (_ :: _) |- _ => destruct H as [<- | H]
             | H : In _ [] |- _ => destruct H
             end; simpl; lia. }
  assert (Hnull : ~ In Queries.IsNullAssignedTo before)
    by (intros Hc; apply Hbefore in Hc; simpl in Hc; lia).
  assert (Heq : forall x, ~ In (Queries.EqAssignedTo x) before)
    by (intros x Hc; apply Hbefore in Hc; simpl in Hc; lia).
  clearbody before. split.
  - destruct a as [a|]; [|split; [intros Hc; now apply Hnull in Hc | discriminate]].
    destruct (String.eqb a "unassigned") eqn:E.
    + apply String.eqb_eq in E. subst a. split; [reflexivity|].
      intros _. apply in_or_app. right. now left.
    + apply String.eqb_neq in E.
      split; [|intros Ha; congruence].
      destruct (truthy (Some a)); intros Hc;
        [apply in_app_or in Hc as [Hc | [Hc | []]];
           [now apply Hnull in Hc | discriminate]
        | now apply Hnull in Hc].
  - intros x. destruct a as [a|];
      [|split; [intros Hc; now apply Heq in Hc | intros [Ha _]; discriminate]].
    destruct (String.eqb a "unassigned") eqn:E.
    + apply String.eqb_eq in E. subst a. split.
      * intros Hc. apply in_app_or in Hc as [Hc | [Hc | []]];
          [now apply Heq in Hc | discriminate].
      * intros [Ha [_ Hn]]. congruence.
    + apply String.eqb_neq in E.
      destruct a as [|ch a'].
      * simpl. split; [intros Hc; now apply Heq in Hc|].
        intros [Ha [Hn _]]. congruence.
      * change (truthy (Some (String ch a'))) with true. cbv iota. split.
        -- intros Hc. apply in_app_or in Hc as [Hc | [Hc | []]];
             [now apply Heq in Hc|].
           injection Hc as <-. repeat split; [discriminate | exact E].
        -- intros [Ha _]. injection Ha as <-. apply in_or_app. right. now left.
Qed.

(** X12: A single status gives the query of the one-element array holding it;
    this needs the status to be non-empty, since an empty string is skipped
    as falsy while an array never is.  An empty array gives the query of no
    status filter at all. *)
Theorem getIssues_status_string_or_array
    (ALL_ISSUE_STATUSES : list string)
    (m sv pr a : option string) :
  (forall s, s <> "" ->
     Queries.findManyArgs ALL_ISSUE_STATUSES
       (Queries.mkFilters m (Some (Queries.OneStatus s)) sv pr a)
     = Queries.findManyArgs ALL_ISSUE_STATUSES
         (Queries.mkFilters m (Some (Queries.ManyStatuses [s])) sv pr a))
  /\ Queries.findManyArgs ALL_ISSUE_STATUSES
       (Queries.mkFilters m (Some (Queries.ManyStatuses [])) sv pr a)
     = Queries.findManyArgs ALL_ISSUE_STATUSES (Queries.mkFilters m None sv pr a).
Proof.
  unfold Queries.findManyArgs, Queries.conditionsOf.
  cbn [Queries.machineInitials Queries.status Queries.severity Queries.priority
       Queries.assignedTo].
  split; [|reflexivity].
  intros s Hs. unfold Queries.statusTruthy.
  now rewrite (truthy_nonempty s Hs).
Qed.

Lemma getIssues_status_string_or_array_witness :
  "new" <> ""
  /\ Queries.findManyArgs ["new"; "confirmed"; "fixed"]
       (Queries.mkFilters None (Some (Queries.OneStatus "new")) None None None)
     = Queries.findManyArgs ["new"; "confirmed"; "fixed"]
         (Queries.mkFilters None (Some (Queries.ManyStatuses ["new"])) None None None).
Proof.
  split; [discriminate|].
  exact (proj1 (getIssues_status_string_or_array ["new"; "confirmed"; "fixed"]
                  None None None None) "new" ltac:(discriminate)).
Defined.

(** X13: The conditions come in the order machine, status, severity, priority,
    assignee, with at most one condition per column. *)
Theorem getIssues_one_condition_per_column
    (ALL_ISSUE_STATUSES : list string) (filters : Queries.IssueFilters) :
  StronglySorted lt
    (map Queries.column (Queries.conditionsOf ALL_ISSUE_STATUSES filters)).
Proof.
  destruct filters as [m st sv pr a].
  unfold Queries.conditionsOf, Queries.push.
  cbn [Queries.machineInitials Queries.status Queries.severity Queries.priority
       Queries.assignedTo].
  repeat break_match; cbn [app map Queries.column];
    repeat (constructor; repeat (apply Forall_cons; [lia|])); try apply Forall_nil.
Qed.

(** X14: The query is ordered by issue number exactly when it filters by machine,
    and by creation date otherwise. *)
Theorem getIssues_order_follows_machine_filter
    (ALL_ISSUE_STATUSES : list string) (filters : Queries.IssueFilters) :
  (Queries.orderBy (Queries.findManyArgs ALL_ISSUE_STATUSES filters)
   = Queries.DescIssueNumber
   <-> exists m, In (Queries.EqMachineInitials m)
                    (Queries.conditionsOf ALL_ISSUE_STATUSES filters))
  /\ (Queries.orderBy (Queries.findManyArgs ALL_ISSUE_STATUSES filters)
      = Queries.DescCreatedAt
      <-> forall m, ~ In (Queries.EqMachineInitials m)
                         (Queries.conditionsOf ALL_ISSUE_STATUSES filters)).
Proof.
  assert (Hmachine : forall m,
             In (Queries.EqMachineInitials m)
                (Queries.conditionsOf ALL_ISSUE_STATUSES filters)
             <-> Queries.machineInitials filters = Some m /\ m <> "").
  { intros x. destruct filters as [m st sv pr a].
    unfold Queries.conditionsOf, Queries.push.
    cbn [Queries.machineInitials Queries.status Queries.severity Queries.priority
         Queries.assignedTo].
    split.
    - intros Hin.
      repeat break_match_hyp Hin; cbn [app] in Hin;
        repeat match goal with
               | H : In _ (_ :: _) |- _ => destruct H as [H | H]
               | H : In _ [] |- _ => destruct H
               end;
        try discriminate;
        match goal with
        | H : Queries.EqMachineInitials _ = Queries.EqMachineInitials _ |- _ =>
            injection H as <-
        end;
        (split; [reflexivity|]);
        match goal with
        | H : truthy (Some _) = true |- _ => now apply truthy_Some_true in H
        end.
    - intros [Hm Hne]. subst m. rewrite (truthy_nonempty x Hne).
      repeat break_match; cbn [app]; simpl; tauto. }
  unfold Queries.findManyArgs. cbn [Queries.orderBy].
  destruct (Queries.machineInitials filters) as [m|] eqn:Hm.
  - destruct (string_dec m "") as [->|Hne].
    + simpl. split.
      * split; [discriminate|]. intros [x Hx]. apply Hmachine in Hx as [Hx Hxne].
        congruence.
      * split; [|reflexivity]. intros _ x Hx. apply Hmachine in Hx as [Hx Hxne].
        congruence.
    + rewrite (truthy_nonempty m Hne). split.
      * split; [|reflexivity]. intros _. exists m. apply Hmachine. now split.
      * split; [discriminate|]. intros Hno. exfalso. apply (Hno m).
        apply Hmachine. now split.
  - simpl. split.
    + split; [discriminate|]. intros [x Hx]. apply Hmachine in Hx as [Hx _].
      discriminate.
    + split; [|reflexivity]. intros _ x Hx. apply Hmachine in Hx as [Hx _].
      discriminate.
Qed.

(** ** Public issue reports *)

Ltac report_unfold :=
  unfold Report.run, Report.submitPublicIssueAction, Report.callCreateIssue,
    Report.revalidatePath, Report.redirectWithError, Report.redirect,
    Report.tryCatch, Report.bind, Report.lift, Report.emit, Report.raise,
    Report.ret;
  cbv beta.

Ltac report_step H :=
  break_match_hyp H; cbv beta iota in H; try discriminate H.

(** X15: A filled honeypot field ends the action at once: the visitor is sent to
    the success page, and neither the rate limiter, the database nor the
    issue service is reached. *)
Theorem submitPublicIssueAction_honeypot
    (w : Report.World) (formData : Report.FormData) :
  Report.entryTruthy (Report.formGet formData "website") = true ->
  Report.run (Report.submitPublicIssueAction w formData)
  = (Report.Raised (Report.NextRedirect "/report/success"), []).
Proof.
  intros Hhoney. report_unfold. now rewrite Hhoney.
Qed.

(** X16: What has happened whenever [createIssue] is called: the honeypot was
    empty, the rate limiter let the client through, the form passed
    validation and its machine exists; the issue is filed under that machine's
    initials with the form's title, description, severity and consistency. *)
Theorem submitPublicIssueAction_creates_after_checks
    (w : Report.World) (formData : Report.FormData)
    (input : Report.CreateIssue.Input) :
  In (Report.CreateIssueCalled input)
     (snd (Report.run (Report.submitPublicIssueAction w formData))) ->
  Report.entryTruthy (Report.formGet formData "website") = false
  /\ exists ip reset data initials,
       Report.getClientIp w = Normal ip
       /\ Report.checkPublicIssueLimit w ip = Normal (true, reset)
       /\ Report.parsePublicIssueForm w formData = Report.ParseSuccess data
       /\ Report.findMachine w (Report.machineId data) = Normal (Some initials)
       /\ Report.CreateIssue.machineInitials input = initials
       /\ Report.CreateIssue.title input = Report.title data
       /\ Report.CreateIssue.description input = Report.description data
       /\ Report.CreateIssue.severity input = Report.severity data
       /\ Report.CreateIssue.consistency input = Report.consistency data.
Proof.
  report_unfold. intros Hin.
  repeat report_step Hin;
    cbn [snd app] in Hin;
    repeat match goal with
           | H : In _ (_ :: _) |- _ => destruct H as [H | H]
           | H : In _ [] |- _ => destruct H
           end;
    try discriminate;
    match goal with
    | H : Report.CreateIssueCalled _ = Report.CreateIssueCalled _ |- _ =>
        injection H as <-
    end;
    (split; [reflexivity|]);
    repeat match goal with
           | H : negb ?b = false |- _ => apply negb_false_iff in H; subst b
           end;
    do 4 eexists; repeat split; eassumption || reflexivity.
Qed.

Lemma submitPublicIssueAction_honeypot_witness :
  Report.entryTruthy
    (Report.formGet (("website", Report.EntryString "http://spam.example") :: exampleForm)
                    "website") = true
  /\ Report.run (Report.submitPublicIssueAction guestWorld
                   (("website", Report.EntryString "http://spam.example") :: exampleForm))
     = (Report.Raised (Report.NextRedirect "/report/success"), []).
Proof.
  split; [reflexivity|].
  exact (submitPublicIssueAction_honeypot guestWorld
           (("website", Report.EntryString "http://spam.example") :: exampleForm)
           eq_refl).
Defined.

Example guest_run :
  Report.run (Report.submitPublicIssueAction guestWorld exampleForm)
  = (Report.Raised (Report.NextRedirect "/report/success?new_pending=true"),
     [Report.CreateIssueCalled guestInput; Report.RevalidatePath "/m";
      Report.RevalidatePath "/m/MM"; Report.RevalidatePath "/m/MM/i"]).
Proof. reflexivity. Qed.

Lemma guest_run_calls_createIssue :
  In (Report.CreateIssueCalled guestInput)
     (snd (Report.run (Report.submitPublicIssueAction guestWorld exampleForm))).
Proof. rewrite guest_run. simpl. tauto. Qed.

Lemma submitPublicIssueAction_creates_after_checks_witness :
  Report.entryTruthy (Report.formGet exampleForm "website") = false
  /\ exists ip reset data initials,
       Report.getClientIp guestWorld = Normal ip
       /\ Report.checkPublicIssueLimit guestWorld ip = Normal (true, reset)
       /\ Report.parsePublicIssueForm guestWorld exampleForm = Report.ParseSuccess data
       /\ Report.findMachine guestWorld (Report.machineId data) = Normal (Some initials)
       /\ Report.CreateIssue.machineInitials guestInput = initials
       /\ Report.CreateIssue.title guestInput = Report.title data
       /\ Report.CreateIssue.description guestInput = Report.description data
       /\ Report.CreateIssue.severity guestInput = Report.severity data
       /\ Report.CreateIssue.consistency guestInput = Report.consistency data.
Proof.
  exact (submitPublicIssueAction_creates_after_checks guestWorld exampleForm guestInput
           guest_run_calls_createIssue).
Defined.

Ltac report_inversion Hin :=
  repeat report_step Hin;
  cbn [snd fst app] in Hin;
  repeat match goal with
         | H : In _ (_ :: _) |- _ => destruct H as [H | H]
         | H : In _ [] |- _ => destruct H
         end;
  try discriminate;
  repeat match goal with
         | H : Report.CreateIssueCalled _ = Report.CreateIssueCalled _ |- _ =>
             injection H as <-
         end.

Lemma truthy_Some_false (s : string) : truthy (Some s) = false -> s = "".
Proof. destruct s; [reflexivity|discriminate]. Qed.

(** X17: Priority is enforced on the server.  When [createIssue] is called,
    the form was valid, and the issue carries the priority of the form when
    the reporter is signed in and their profile has the role [admin] or
    [member], and the priority [medium] in every other case: a guest, a
    signed-in reporter without a profile, or one with any other role. *)
Theorem submitPublicIssueAction_priority_enforced
    (w : Report.World) (formData : Report.FormData)
    (input : Report.CreateIssue.Input) :
  In (Report.CreateIssueCalled input)
     (snd (Report.run (Report.submitPublicIssueAction w formData))) ->
  exists data,
    Report.parsePublicIssueForm w formData = Report.ParseSuccess data
    /\ (memberReporter w ->
        Report.CreateIssue.priority input = Report.priority data)
    /\ (~ memberReporter w -> Report.CreateIssue.priority input = "medium").
Proof.
  report_unfold. intros Hin. report_inversion Hin;
    cbn [Report.CreateIssue.priority negb];
    eexists; (split; [reflexivity || eassumption|]);
    (split; [intros (uid & role & Hu & Hne & Hr & Hrole) | intros Hm]);
    try reflexivity.
  all: try congruence.
  all: try match goal with
           | H : Report.getUser _ = Normal (Some ?u) |- _ =>
               assert (uid = u) by congruence; subst uid
           end.
  all: try (exfalso; apply Hne; apply truthy_Some_false; assumption).
  all: try congruence.
  all: try match goal with
           | H : Report.findProfileRole _ _ = Normal (Some ?r) |- _ =>
               assert (role = r) by congruence; subst role
           end.
  all: try match goal with
           | H : negb (String.eqb ?r "admin" || String.eqb ?r "member") = true |- _ =>
               exfalso; apply negb_true_iff, orb_false_elim in H;
               rewrite !String.eqb_neq in H; destruct H, Hrole; contradiction
           end.
  all: exfalso; apply Hm;
    match goal with
    | H : negb (String.eqb ?r "admin" || String.eqb ?r "member") = false |- _ =>
        apply negb_false_iff, orb_prop in H;
        rewrite !String.eqb_eq in H
    end;
    match goal with
    | H : truthy (Some ?u) = true |- _ => apply truthy_Some_true in H
    end;
    do 2 eexists; repeat split; eassumption.
Qed.

Lemma submitPublicIssueAction_priority_enforced_witness :
  exists data,
    Report.parsePublicIssueForm memberWorld exampleForm = Report.ParseSuccess data
    /\ (memberReporter memberWorld ->
        Report.CreateIssue.priority memberInput = Report.priority data)
    /\ (~ memberReporter memberWorld ->
        Report.CreateIssue.priority memberInput = "medium").
Proof.
  apply (submitPublicIssueAction_priority_enforced memberWorld exampleForm memberInput).
  vm_compute. left. reflexivity.
Defined.

(** X18: Who an issue is attributed to.  For a signed-in reporter the name and
    email typed into the form are ignored.  For a guest, an email is recorded
    only when it is non-empty and belongs to no existing profile. *)
Theorem submitPublicIssueAction_reporter_identity
    (w : Report.World) (formData : Report.FormData)
    (input : Report.CreateIssue.Input) :
  In (Report.CreateIssueCalled input)
     (snd (Report.run (Report.submitPublicIssueAction w formData))) ->
  Report.getUser w = Normal (Report.CreateIssue.reportedBy input)
  /\ (truthy (Report.CreateIssue.reportedBy input) = true ->
      Report.CreateIssue.reporterName input = None
      /\ Report.CreateIssue.reporterEmail input = None)
  /\ (forall e, Report.CreateIssue.reporterEmail input = Some e ->
        e <> "" /\ Report.findProfileByEmail w e = Normal None
        /\ truthy (Report.CreateIssue.reportedBy input) = false).
Proof.
  report_unfold. intros Hin. report_inversion Hin;
    cbn [Report.CreateIssue.reportedBy Report.CreateIssue.reporterName
         Report.CreateIssue.reporterEmail];
    repeat match goal with
           | H : inl _ = inr _ |- _ => discriminate H
           | H : inr _ = inl _ |- _ => discriminate H
           | H : inr _ = inr _ |- _ => injection H as ?; subst
           | H : (_, _) = (_, _) |- _ => injection H as ? ?; subst
           | H : negb ?b = true |- _ => apply negb_true_iff in H
           | H : negb ?b = false |- _ => apply negb_false_iff in H
           end;
    (split; [assumption || reflexivity|]);
    (split; [intros Ht; first [now split | congruence]|]);
    intros addr Haddr; try discriminate Haddr;
    injection Haddr as <-;
    repeat split; try assumption;
    match goal with
    | H : truthy (Some ?x) = true |- ?x <> "" => now apply truthy_Some_true in H
    end.
Qed.

Lemma submitPublicIssueAction_reporter_identity_witness :
  Report.getUser guestWorld = Normal (Report.CreateIssue.reportedBy guestInput)
  /\ (truthy (Report.CreateIssue.reportedBy guestInput) = true ->
      Report.CreateIssue.reporterName guestInput = None
      /\ Report.CreateIssue.reporterEmail guestInput = None)
  /\ (forall e, Report.CreateIssue.reporterEmail guestInput = Some e ->
        e <> "" /\ Report.findProfileByEmail guestWorld e = Normal None
        /\ truthy (Report.CreateIssue.reportedBy guestInput) = false).
Proof.
  exact (submitPublicIssueAction_reporter_identity guestWorld exampleForm guestInput
           guest_run_calls_createIssue).
Defined.

(** X19: When [createIssue] throws, whatever the error, the action returns the
    one generic message, revalidates nothing and redirects nowhere: the text
    of the error never reaches the visitor. *)
Theorem submitPublicIssueAction_generic_failure
    (w : Report.World) (formData : Report.FormData)
    (input : Report.CreateIssue.Input) (e : error) :
  In (Report.CreateIssueCalled input)
     (snd (Report.run (Report.submitPublicIssueAction w formData))) ->
  Report.createIssue w input = Throw e ->
  Report.run (Report.submitPublicIssueAction w formData)
  = (Report.Returned (Report.mkState genericFailureMessage),
     [Report.CreateIssueCalled input]).
Proof.
  report_unfold. intros Hin Hthrow.
  repeat (break_match_hyp Hin; cbv beta iota in Hin |- *; try discriminate Hin);
    cbn [snd fst app] in Hin;
    repeat match goal with
           | H : In _ (_ :: _) |- _ => destruct H as [H | H]
           | H : In _ [] |- _ => destruct H
           end;
    try discriminate;
    repeat match goal with
           | H : Report.CreateIssueCalled _ = Report.CreateIssueCalled _ |- _ =>
               injection H as <-
           end;
    try congruence; reflexivity.
Qed.

Lemma failing_run :
  Report.run (Report.submitPublicIssueAction failingWorld exampleForm)
  = (Report.Returned (Report.mkState "Unable to submit the issue. Please try again."),
     [Report.CreateIssueCalled guestInput]).
Proof. reflexivity. Qed.

Lemma submitPublicIssueAction_generic_failure_witness :
  Report.run (Report.submitPublicIssueAction failingWorld exampleForm)
  = (Report.Returned (Report.mkState genericFailureMessage),
     [Report.CreateIssueCalled guestInput]).
Proof.
  apply (submitPublicIssueAction_generic_failure failingWorld exampleForm guestInput
           (Error "Database connection failed: user=postgres password=secret")).
  - rewrite failing_run. simpl. tauto.
  - reflexivity.
Defined.

(** X20: After [createIssue] has answered with the new issue, the three machine
    pages are revalidated and the action redirects: a signed-in reporter to
    the page of the issue, a guest to the success page, marked
    [new_pending=true] exactly when a name or an email was recorded. *)
Theorem submitPublicIssueAction_success_redirect
    (w : Report.World) (formData : Report.FormData)
    (input : Report.CreateIssue.Input) (issue : Report.Issue) :
  In (Report.CreateIssueCalled input)
     (snd (Report.run (Report.submitPublicIssueAction w formData))) ->
  Report.createIssue w input = Normal issue ->
  Report.run (Report.submitPublicIssueAction w formData)
  = (Report.Raised
       (Report.NextRedirect
          (if truthy (Report.CreateIssue.reportedBy input)
           then "/m/" ++ Report.CreateIssue.machineInitials input ++ "/i/"
                ++ Whatwg.decimal (Report.issueNumber issue)
           else if truthy (Report.CreateIssue.reporterEmail input)
                   || truthy (Report.CreateIssue.reporterName input)
                then "/report/success?new_pending=true"
                else "/report/success")),
     [Report.CreateIssueCalled input;
      Report.RevalidatePath "/m";
      Report.RevalidatePath ("/m/" ++ Report.CreateIssue.machineInitials input);
      Report.RevalidatePath ("/m/" ++ Report.CreateIssue.machineInitials input ++ "/i")]).
Proof.
  report_unfold. intros Hin Hok.
  repeat (break_match_hyp Hin; cbv beta iota in Hin |- *; try discriminate Hin);
    cbn [snd fst app] in Hin;
    repeat match goal with
           | H : In _ (_ :: _) |- _ => destruct H as [H | H]
           | H : In _ [] |- _ => destruct H
           end;
    try discriminate;
    repeat match goal with
           | H : Report.CreateIssueCalled _ = Report.CreateIssueCalled _ |- _ =>
               injection H as <-
           end;
    try congruence;
    cbn [Report.CreateIssue.reportedBy Report.CreateIssue.reporterName
         Report.CreateIssue.reporterEmail Report.CreateIssue.machineInitials];
    repeat match goal with
           | H : Normal _ = Normal _ |- _ => injection H as ?; subst
           | H : inr _ = inr _ |- _ => injection H as ?; subst
           | H : (_, _) = (_, _) |- _ => injection H as ? ?; subst
           | H : negb ?b = true |- _ => apply negb_true_iff in H
           | H : negb ?b = false |- _ => apply negb_false_iff in H
           | H : ?x = Normal _, H' : ?x = Normal _ |- _ =>
               rewrite H in H'; injection H' as ?; subst
           end;
    repeat match goal with
           | H : truthy (Some (Report.searchParamsToString _)) = _ |- _ =>
               vm_compute in H; try discriminate H; clear H
           end;
    repeat match goal with
           | H : truthy ?x = _, H' : context [truthy ?x] |- _ =>
               tryif constr_eq H H' then fail else rewrite H in H'
           end;
    change (truthy None) with false in *;
    cbn [orb andb negb] in *; rewrite ?andb_true_r in *; try discriminate;
    repeat match goal with
           | H : truthy ?x = _ |- context [truthy ?x] => rewrite H
           | H : ?a || ?b = _ |- context [?a || ?b] => rewrite H
           end;
    cbn [orb andb]; try reflexivity.
Qed.

Example member_run :
  Report.run (Report.submitPublicIssueAction memberWorld exampleForm)
  = (Report.Raised (Report.NextRedirect "/m/MM/i/1"),
     [Report.CreateIssueCalled
        (Report.CreateIssue.mkInput "Test Issue" None "MM" "minor" "high"
           "intermittent" (Some "user-123") None None);
      Report.RevalidatePath "/m"; Report.RevalidatePath "/m/MM";
      Report.RevalidatePath "/m/MM/i"]).
Proof. reflexivity. Qed.

Lemma submitPublicIssueAction_success_redirect_witness :
  Report.run (Report.submitPublicIssueAction memberWorld exampleForm)
  = (Report.Raised (Report.NextRedirect "/m/MM/i/1"),
     [Report.CreateIssueCalled
        (Report.CreateIssue.mkInput "Test Issue" None "MM" "minor" "high"
           "intermittent" (Some "user-123") None None);
      Report.RevalidatePath "/m"; Report.RevalidatePath "/m/MM";
      Report.RevalidatePath "/m/MM/i"]).
Proof.
  apply (submitPublicIssueAction_success_redirect memberWorld exampleForm
           (Report.CreateIssue.mkInput "Test Issue" None "MM" "minor" "high"
              "intermittent" (Some "user-123") None None)
           (Report.mkIssue "issue-123" 1%N)).
  - rewrite member_run. simpl. tauto.
  - reflexivity.
Defined.

(** X21: The action returns one of two fixed messages and nothing else: neither a
    validation message nor the text of an error is ever returned. *)
Theorem submitPublicIssueAction_returns_fixed_messages
    (w : Report.World) (formData : Report.FormData) (state : Report.ActionState) :
  fst (Report.run (Report.submitPublicIssueAction w formData)) = Report.Returned state ->
  Report.error state = knownAccountMessage
  \/ Report.error state = genericFailureMessage.
Proof.
  report_unfold. intros Hret.
  repeat report_step Hret; cbn [fst] in Hret;
    repeat match goal with
           | H : inl _ = inl _ |- _ => injection H as ?; subst
           | H : inl _ = inr _ |- _ => discriminate H
           | H : inr _ = inl _ |- _ => discriminate H
           end;
    try discriminate;
    injection Hret as <-; cbn [Report.error]; tauto.
Qed.

Lemma submitPublicIssueAction_returns_fixed_messages_witness :
  Report.error (Report.mkState "Unable to submit the issue. Please try again.")
  = knownAccountMessage
  \/ Report.error (Report.mkState "Unable to submit the issue. Please try again.")
     = genericFailureMessage.
Proof.
  apply (submitPublicIssueAction_returns_fixed_messages failingWorld exampleForm).
  now rewrite failing_run.
Defined.

(** X22: Every redirect of the action stays inside the application: its target
    begins with [/report] or with [/m/]. *)
Theorem submitPublicIssueAction_redirects_inside
    (w : Report.World) (formData : Report.FormData) (url : string) :
  fst (Report.run (Report.submitPublicIssueAction w formData))
  = Report.Raised (Report.NextRedirect url) ->
  startsWith url "/report" = true \/ startsWith url "/m/" = true.
Proof.
  report_unfold. intros Hred.
  repeat report_step Hred; cbn [fst] in Hred;
    try discriminate;
    injection Hred as <-;
    first [left; reflexivity | right; reflexivity].
Qed.

Lemma submitPublicIssueAction_redirects_inside_witness :
  startsWith "/m/MM/i/1" "/report" = true \/ startsWith "/m/MM/i/1" "/m/" = true.
Proof.
  apply (submitPublicIssueAction_redirects_inside memberWorld exampleForm).
  now rewrite member_run.
Defined.

(** X23: A client over the rate limit is redirected to the report form with the
    retry message, before the form is validated; no issue is created. *)
Theorem submitPublicIssueAction_rate_limited
    (w : Report.World) (formData : Report.FormData) (ip : string) (reset : N) :
  Report.entryTruthy (Report.formGet formData "website") = false ->
  Report.getClientIp w = Normal ip ->
  Report.checkPublicIssueLimit w ip = Normal (false, reset) ->
  Report.run (Report.submitPublicIssueAction w formData)
  = (Report.Raised
       (Report.NextRedirect
          ("/report?error="
           ++ Report.formUrlEncode
                ("Too many submissions. Please try again in "
                 ++ Report.formatResetTime w reset ++ "."))),
     []).
Proof.
  intros Hhoney Hip Hlimit. report_unfold.
  rewrite Hhoney, Hip. cbv beta iota. rewrite Hlimit. cbv beta iota.
  cbn [negb]. cbv iota.
  unfold Report.searchParamsToString. cbn [map fst snd String.concat].
  reflexivity.
Qed.

Lemma submitPublicIssueAction_rate_limited_witness :
  Report.run (Report.submitPublicIssueAction limitedWorld exampleForm)
  = (Report.Raised
       (Report.NextRedirect
          ("/report?error="
           ++ Report.formUrlEncode
                ("Too many submissions. Please try again in "
                 ++ Report.formatResetTime limitedWorld 60000%N ++ "."))),
     []).
Proof.
  exact (submitPublicIssueAction_rate_limited limitedWorld exampleForm "127.0.0.1"
           60000%N eq_refl eq_refl eq_refl).
Defined.

(** X24: A guest who gives the email of an existing profile is told to log in:
    the action returns the account message and creates nothing. *)
Theorem submitPublicIssueAction_blocks_known_email
    (w : Report.World) (formData : Report.FormData) (ip : string) (reset : N)
    (data : Report.ParsedPublicIssue) (user : option string)
    (address profile : string) :
  Report.entryTruthy (Report.formGet formData "website") = false ->
  Report.getClientIp w = Normal ip ->
  Report.checkPublicIssueLimit w ip = Normal (true, reset) ->
  Report.parsePublicIssueForm w formData = Report.ParseSuccess data ->
  Report.getUser w = Normal user -> truthy user = false ->
  Report.email data = Some address -> address <> "" ->
  Report.findProfileByEmail w address = Normal (Some profile) ->
  Report.run (Report.submitPublicIssueAction w formData)
  = (Report.Returned (Report.mkState knownAccountMessage), []).
Proof.
  intros Hhoney Hip Hlimit Hparse Huser Hguest Hemail Hne Hprofile.
  report_unfold.
  rewrite Hhoney, Hip. cbv beta iota. rewrite Hlimit. cbv beta iota.
  cbn [negb]. cbv iota. rewrite Hparse, Huser. cbv beta iota.
  rewrite Hguest. cbn [negb]. cbv iota.
  rewrite Hemail, (truthy_nonempty address Hne), Hprofile. reflexivity.
Qed.

Lemma submitPublicIssueAction_blocks_known_email_witness :
  Report.run (Report.submitPublicIssueAction knownEmailWorld exampleForm)
  = (Report.Returned (Report.mkState knownAccountMessage), []).
Proof.
  exact (submitPublicIssueAction_blocks_known_email knownEmailWorld exampleForm
           "127.0.0.1" 60000%N exampleParsed None "pat@example.com" "user-9"
           eq_refl eq_refl eq_refl eq_refl eq_refl eq_refl eq_refl
           ltac:(discriminate) eq_refl).
Defined.

(** X25: An error thrown by the action is the missing-machine error or an error
    of a collaborator called outside the [try] block; an error of
    [createIssue] is never thrown on. *)
Theorem submitPublicIssueAction_thrown_errors
    (w : Report.World) (formData : Report.FormData) (e : error) :
  fst (Report.run (Report.submitPublicIssueAction w formData))
  = Report.Raised (Report.Failure e) ->
  e = Error "Machine not found."
  \/ Report.getClientIp w = Throw e
  \/ (exists ip, Report.checkPublicIssueLimit w ip = Throw e)
  \/ Report.getUser w = Throw e
  \/ (exists address, Report.findProfileByEmail w address = Throw e)
  \/ (exists machine, Report.findMachine w machine = Throw e)
  \/ (exists uid, Report.findProfileRole w uid = Throw e).
Proof.
  report_unfold. intros Hthrown.
  repeat report_step Hthrown; cbn [fst] in Hthrown;
    try discriminate;
    injection Hthrown as <-;
    eauto 10.
Qed.

Example no_machine_run :
  Report.run (Report.submitPublicIssueAction noMachineWorld exampleForm)
  = (Report.Raised (Report.Failure (Error "Machine not found.")), []).
Proof. reflexivity. Qed.

Lemma submitPublicIssueAction_thrown_errors_witness :
  Error "Machine not found." = Error "Machine not found."
  \/ Report.getClientIp noMachineWorld = Throw (Error "Machine not found.")
  \/ (exists ip,
         Report.checkPublicIssueLimit noMachineWorld ip
         = Throw (Error "Machine not found."))
  \/ Report.getUser noMachineWorld = Throw (Error "Machine not found.")
  \/ (exists address,
         Report.findProfileByEmail noMachineWorld address
         = Throw (Error "Machine not found."))
  \/ (exists machine,
         Report.findMachine noMachineWorld machine = Throw (Error "Machine not found."))
  \/ (exists uid,
         Report.findProfileRole noMachineWorld uid = Throw (Error "Machine not found.")).
Proof.
  apply (submitPublicIssueAction_thrown_errors noMachineWorld exampleForm).
  now rewrite no_machine_run.
Defined.

Lemma forallStr_app p a b :
  Whatwg.forallStr p (a ++ b) = Whatwg.forallStr p a && Whatwg.forallStr p b.
Proof.
  induction a as [|c a IH]; simpl; [reflexivity|].
  now rewrite IH, andb_assoc.
Qed.

Lemma formEncodeChar_output c :
  Whatwg.forallStr formOutputChar (Report.formEncodeChar c) = true.
Proof.
  destruct c as [[] [] [] [] [] [] [] []]; reflexivity.
Qed.

Lemma formUrlEncode_output s :
  Whatwg.forallStr formOutputChar (Report.formUrlEncode s) = true.
Proof.
  induction s as [|c s IH]; [reflexivity|].
  simpl. now rewrite forallStr_app, formEncodeChar_output, IH.
Qed.

(** X26: [redirectWithError] always redirects to the report form with the single
    query parameter [error]: whatever the message, its encoding is made of
    letters, digits and the characters of [*-._+%], so it holds no [&], [=],
    [#], [?], [/] or space that could end the parameter or start another. *)
Theorem redirectWithError_single_parameter (message : string) :
  Report.run (Report.redirectWithError (A := unit) message)
  = (Report.Raised
       (Report.NextRedirect ("/report?error=" ++ Report.formUrlEncode message)), [])
  /\ Whatwg.forallStr formOutputChar (Report.formUrlEncode message) = true
  /\ Whatwg.forallStr (fun c => negb (Whatwg.oneOf "&=#?/ " c))
       (Report.formUrlEncode message) = true.
Proof.
  split; [|split].
  - unfold Report.run, Report.redirectWithError, Report.redirect, Report.raise,
      Report.searchParamsToString.
    cbn [map fst snd String.concat]. reflexivity.
  - apply formUrlEncode_output.
  - pose proof (formUrlEncode_output message) as Hout.
    induction (Report.formUrlEncode message) as [|c r IH]; [reflexivity|].
    simpl in Hout |- *. apply andb_prop in Hout as [Hc Hr].
    rewrite (IH Hr), andb_true_r.
    clear - Hc. destruct c as [[] [] [] [] [] [] [] []]; try reflexivity; discriminate.
Qed.

(** ** The pull-request scripts *)

Lemma startsWith_app p s : startsWith (p ++ s) p = true.
Proof.
  induction p as [|c p IH]; [reflexivity|].
  simpl. now rewrite Ascii.eqb_refl, IH.
Qed.

Lemma contains_app p s : Scripts.contains (p ++ s) p = true.
Proof.
  assert (Hstart : forall x, startsWith x p = true -> Scripts.contains x p = true).
  { intros x Hx. destruct x; simpl; now rewrite Hx. }
  apply Hstart, startsWith_app.
Qed.

Lemma isEmpty_false s : Scripts.isEmpty s = false -> s <> "".
Proof. unfold Scripts.isEmpty. apply String.eqb_neq. Qed.

(** X27: The review a script posts always mentions [@jules]: the body given to
    [gh pr review] by the request-changes script and by [merge.sh] contains
    [@jules], and a message that already mentions it is passed on as it is,
    without a second mention in front. *)
Theorem scripts_review_mentions_jules
    (name : string) (args : list string) (id flag body : string) :
  In ["gh"; "pr"; "review"; id; flag; "--body"; body]
     (Scripts.commands (Scripts.requestChanges name args))
  \/ In ["gh"; "pr"; "review"; id; flag; "--body"; body]
        (Scripts.commands (Scripts.merge name args)) ->
  Scripts.contains body "@jules" = true
  /\ (Scripts.contains (Scripts.allParams (Scripts.shift args)) "@jules" = true ->
      body = Scripts.allParams (Scripts.shift args)).
Proof.
  unfold Scripts.requestChanges, Scripts.merge.
  intros [Hin | Hin].
  - destruct (Scripts.isEmpty (Scripts.param 1 args)
              || Scripts.isEmpty (Scripts.allParams (Scripts.shift args)));
      [destruct Hin|].
    destruct Hin as [Hcmd | []]. injection Hcmd as _ _ <-.
    destruct (Scripts.contains (Scripts.allParams (Scripts.shift args)) "@jules")
      eqn:Hc; simpl.
    + now split.
    + split; [exact (contains_app "@jules"
                         (" " ++ Scripts.allParams (Scripts.shift args)))
             | discriminate].
  - destruct (Scripts.isEmpty (Scripts.param 1 args)); [destruct Hin|].
    destruct Hin as [Hcmd | [Hcmd | []]]; [|discriminate].
    injection Hcmd as _ _ <-.
    destruct (Scripts.isEmpty (Scripts.allParams (Scripts.shift args))) eqn:Hempty.
    + apply String.eqb_eq in Hempty. rewrite Hempty. simpl.
      split; [reflexivity | discriminate].
    + destruct (Scripts.contains (Scripts.allParams (Scripts.shift args)) "@jules")
        eqn:Hc; simpl.
      * now split.
      * split; [exact (contains_app "@jules"
                         (" " ++ Scripts.allParams (Scripts.shift args)))
             | discriminate].
Qed.

Lemma scripts_review_mentions_jules_witness :
  Scripts.contains "@jules please add tests" "@jules" = true
  /\ (Scripts.contains
        (Scripts.allParams (Scripts.shift ["42"; "please"; "add"; "tests"])) "@jules"
      = true ->
      "@jules please add tests"
      = Scripts.allParams (Scripts.shift ["42"; "please"; "add"; "tests"])).
Proof.
  apply (scripts_review_mentions_jules "request-changes.sh"
           ["42"; "please"; "add"; "tests"] "42" "--request-changes").
  left. simpl. tauto.
Defined.

(** X28: No script runs [gh] without a pull-request id: every command of the four
    scripts is [gh pr <verb> <id> ...] with the first argument as id, and
    that argument is not empty.  Without it the script prints its usage line,
    runs nothing and exits with status 1. *)
Theorem scripts_need_pull_request_id
    (name : string) (args : list string) (run : Scripts.Run) :
  In run [Scripts.requestChanges name args; Scripts.merge name args;
          Scripts.label name args; Scripts.close name args] ->
  (forall cmd, In cmd (Scripts.commands run) ->
     Scripts.param 1 args <> ""
     /\ exists verb rest, cmd = "gh" :: "pr" :: verb :: Scripts.param 1 args :: rest)
  /\ (Scripts.param 1 args = "" ->
      Scripts.commands run = [] /\ Scripts.status run = Scripts.Exit 1
      /\ exists usage, Scripts.stdout run = [usage] /\ startsWith usage "Usage: " = true).
Proof.
  intros Hrun. simpl in Hrun.
  unfold Scripts.requestChanges, Scripts.merge, Scripts.label, Scripts.close in Hrun.
  destruct (Scripts.isEmpty (Scripts.param 1 args)) eqn:Hid.
  - apply String.eqb_eq in Hid.
    assert (Hnone : Scripts.commands run = [] /\ Scripts.status run = Scripts.Exit 1
                    /\ exists usage, Scripts.stdout run = [usage]
                                     /\ startsWith usage "Usage: " = true).
    { simpl in Hrun. destruct Hrun as [<- | [<- | [<- | [<- | []]]]]; simpl;
        repeat split; eexists; split; reflexivity. }
    split; [|intros _; exact Hnone].
    intros cmd Hcmd. destruct Hnone as [Hc _]. rewrite Hc in Hcmd. destruct Hcmd.
  - apply isEmpty_false in Hid. split; [|congruence].
    intros cmd Hcmd. split; [exact Hid|].
    cbn [orb] in Hrun.
    destruct Hrun as [<- | [<- | [<- | [<- | []]]]];
      repeat break_match_hyp Hcmd; simpl in Hcmd;
      repeat match goal with
             | H : _ \/ _ |- _ => destruct H as [H | H]
             | H : False |- _ => destruct H
             end;
      subst cmd; do 2 eexists; reflexivity.
Qed.

Lemma scripts_need_pull_request_id_witness :
  (forall cmd, In cmd (Scripts.commands (Scripts.close "close.sh" ["42"; "stale"])) ->
     Scripts.param 1 ["42"; "stale"] <> ""
     /\ exists verb rest,
          cmd = "gh" :: "pr" :: verb :: Scripts.param 1 ["42"; "stale"] :: rest)
  /\ (Scripts.param 1 ["42"; "stale"] = "" ->
      Scripts.commands (Scripts.close "close.sh" ["42"; "stale"]) = []
      /\ Scripts.status (Scripts.close "close.sh" ["42"; "stale"]) = Scripts.Exit 1
      /\ exists usage,
           Scripts.stdout (Scripts.close "close.sh" ["42"; "stale"]) = [usage]
           /\ startsWith usage "Usage: " = true).
Proof.
  apply (scripts_need_pull_request_id "close.sh" ["42"; "stale"]).
  simpl. tauto.
Defined.

(** X29: [label.sh] edits labels only on a complete and valid request: it runs a
    command exactly when the id, the action and the label are all non-empty
    and the action is [add] or [remove]; the command adds or removes that
    label accordingly.  In every other case it exits with status 1. *)
Theorem label_runs_only_valid_requests (name : string) (args : list string) :
  let id := Scripts.param 1 args in
  let action := Scripts.param 2 args in
  let lbl := Scripts.param 3 args in
  (id <> "" /\ lbl <> "" /\ action = "add" ->
   Scripts.commands (Scripts.label name args)
   = [["gh"; "pr"; "edit"; id; "--add-label"; lbl]])
  /\ (id <> "" /\ lbl <> "" /\ action = "remove" ->
      Scripts.commands (Scripts.label name args)
      = [["gh"; "pr"; "edit"; id; "--remove-label"; lbl]])
  /\ (id = "" \/ lbl = "" \/ (action <> "add" /\ action <> "remove") ->
      Scripts.commands (Scripts.label name args) = []
      /\ Scripts.status (Scripts.label name args) = Scripts.Exit 1).
Proof.
  intros id action lbl. unfold Scripts.label. fold id action lbl.
  unfold Scripts.isEmpty.
  destruct (String.eqb_spec id ""); destruct (String.eqb_spec action "");
    destruct (String.eqb_spec lbl ""); simpl;
    destruct (String.eqb_spec action "add");
    destruct (String.eqb_spec action "remove"); simpl;
    repeat split; intros; intuition congruence.
Qed.

Lemma getIssues_conditions_validated_witness :
  validated ["new"; "confirmed"; "fixed"] (Queries.InArrayStatus ["new"; "fixed"]).
Proof.
  apply (getIssues_conditions_validated ["new"; "confirmed"; "fixed"]
           (Queries.mkFilters (Some "MM")
              (Some (Queries.ManyStatuses ["new"; "bogus"; "fixed"]))
              (Some "critical") (Some "low") (Some "unassigned"))).
  simpl. tauto.
Defined.
